(** * z3_mcp: the constraint solver pipeline and the relationship
      entailment pipeline, embedded over an abstract Z3 backend.

    Sources embedded:
    - [src/z3_mcp/core/solver.py]          (module [SolverPy])
    - [src/z3_poc/core/relationships.py]   (module [RelationshipsPy])
    - [src/z3_mcp/models/constraints.py], [src/z3_poc/models/relationships.py]
    - [src/z3_mcp/server/main.py]          (module [ServerPy])

    A Python [str] is modelled as a [string] whose characters are the code
    points below 256 (ASCII and Latin-1, so that U+0085 and U+00A0 are the
    characters 133 and 160), with Python's own whitespace tables on that
    range; dictionaries as [gmap string _]; sets as [gset string]; host
    floats as IEEE binary64 values ([spec_float] at precision 53, emax
    1024); [Result] values of the [returns] package as a two-constructor
    sum whose [Failure] carries the message. *)

From Stdlib Require Import ZArith List Bool Ascii String Floats.
From stdpp Require Import base option list gmap strings fin_maps fin_sets.

Local Open Scope string_scope.
Local Open Scope Z_scope.

(** ** returns.result.Result *)

Inductive Result (A : Type) : Type :=
| Success (value : A)
| Failure (error : string).
Arguments Success {A} value.
Arguments Failure {A} error.

(** An exception raised by a host or backend call is a value carrying the
    text [str(e)]. *)
Inductive Raises (A : Type) : Type :=
| Ret (value : A)
| Raise (e : string).
Arguments Ret {A} value.
Arguments Raise {A} e.

(** ** Python built-ins used by the two pipelines *)

Module Py.

(** [c.isspace()], the whitespace of [str.strip()]: TAB, LF, VT, FF, CR,
    FS, GS, RS, US, space, NEL (U+0085) and NBSP (U+00A0). *)
Definition isspace (c : ascii) : bool :=
  let n := nat_of_ascii c in
  ((9 <=? n) && (n <=? 13) || (28 <=? n) && (n <=? 32)
   || (n =? 133) || (n =? 160))%nat.

Fixpoint lstrip (s : string) : string :=
  match s with
  | EmptyString => EmptyString
  | String c r => if isspace c then lstrip r else s
  end.

Fixpoint rstrip (s : string) : string :=
  match s with
  | EmptyString => EmptyString
  | String c r =>
      match rstrip r with
      | EmptyString => if isspace c then EmptyString else String c EmptyString
      | r' => String c r'
      end
  end.

(** [s.strip()] *)
Definition strip (s : string) : string := rstrip (lstrip s).

(** [sep in s] for a one-character [sep]. *)
Fixpoint contains (sep : ascii) (s : string) : bool :=
  match s with
  | EmptyString => false
  | String c r => Ascii.eqb c sep || contains sep r
  end.

(** [s.split(sep)] for a one-character [sep]; the result always has at
    least one element. *)
Fixpoint split (sep : ascii) (s : string) : list string :=
  match s with
  | EmptyString => [EmptyString]
  | String c r =>
      if Ascii.eqb c sep then EmptyString :: split sep r
      else match split sep r with
           | [] => [String c EmptyString]
           | p :: ps => String c p :: ps
           end
  end.

Definition digit_val (c : ascii) : option Z :=
  let n := nat_of_ascii c in
  if ((48 <=? n) && (n <=? 57))%nat then Some (Z.of_nat (n - 48)) else None.

(** The grammar [digit (["_"] digit)*]; returns the value of the digits
    read onto [acc] and the number of digits. *)
Fixpoint digitpart_from (acc : Z) (count : Z) (after_digit : bool)
    (s : string) : option (Z * Z) :=
  match s with
  | EmptyString => if after_digit then Some (acc, count) else None
  | String c r =>
      match digit_val c with
      | Some d => digitpart_from (10 * acc + d) (count + 1) true r
      | None =>
          if Ascii.eqb c "_" && after_digit
          then digitpart_from acc count false r
          else None
      end
  end.

Definition digitpart (s : string) : option (Z * Z) :=
  digitpart_from 0 0 false s.

Definition split_sign (s : string) : bool * string :=
  match s with
  | String "-" r => (true, r)
  | String "+" r => (false, r)
  | _ => (false, s)
  end.

(** What [int()] and [float()] first do to a [str]: a character from 127
    on becomes a space when it is whitespace, and otherwise ends the text
    with "?" (no such character below 256 is a decimal digit). *)
Fixpoint to_ascii (s : string) : string :=
  match s with
  | EmptyString => EmptyString
  | String c r =>
      if (nat_of_ascii c <? 127)%nat then String c (to_ascii r)
      else if isspace c then String " " (to_ascii r)
      else "?"
  end.

(** C's [Py_ISSPACE], the whitespace [int()] and [float()] skip at both ends
    of the text: TAB, LF, VT, FF, CR and space. *)
Definition c_isspace (c : ascii) : bool :=
  let n := nat_of_ascii c in
  ((9 <=? n) && (n <=? 13) || (n =? 32))%nat.

Fixpoint c_lstrip (s : string) : string :=
  match s with
  | EmptyString => EmptyString
  | String c r => if c_isspace c then c_lstrip r else s
  end.

Fixpoint c_rstrip (s : string) : string :=
  match s with
  | EmptyString => EmptyString
  | String c r =>
      match c_rstrip r with
      | EmptyString => if c_isspace c then EmptyString else String c EmptyString
      | r' => String c r'
      end
  end.

(** The text of a number as [int()] and [float()] read it. *)
Definition number_text (s : string) : string := c_rstrip (c_lstrip (to_ascii s)).

(** [sys.int_max_str_digits], at its default. *)
Definition int_max_str_digits : Z := 4300.

(** [int(s)] in base 10; [None] is [ValueError]. *)
Definition int (s : string) : option Z :=
  let '(neg, body) := split_sign (number_text s) in
  match digitpart body with
  | Some (v, n) =>
      if int_max_str_digits <? n then None
      else Some (if neg then - v else v)
  | None => None
  end.

(** Host floats: IEEE 754 binary64. *)
Definition float := spec_float.

Definition is_finite (f : float) : bool :=
  match f with
  | S754_zero _ | S754_finite _ _ _ => true
  | _ => false
  end.

(** [float(n)] for an [int]: the nearest double, ties to even; [None] is
    [OverflowError]. *)
Definition float_of_int (n : Z) : option float :=
  let f := binary_normalize prec emax n 0 false in
  if is_finite f then Some f else None.

(** [a / b] on floats; [None] is [ZeroDivisionError]. *)
Definition truediv (a b : float) : option float :=
  match b with
  | S754_zero _ => None
  | _ => Some (SFdiv prec emax a b)
  end.

Definition lower (c : ascii) : ascii :=
  let n := nat_of_ascii c in
  if ((65 <=? n) && (n <=? 90))%nat then ascii_of_nat (n + 32) else c.

Fixpoint lower_str (s : string) : string :=
  match s with
  | EmptyString => EmptyString
  | String c r => String (lower c) (lower_str r)
  end.

(** Cut [s] at its first exponent marker. *)
Fixpoint cut_exponent (s : string) : string * option string :=
  match s with
  | EmptyString => (EmptyString, None)
  | String c r =>
      if Ascii.eqb c "e" || Ascii.eqb c "E" then (EmptyString, Some r)
      else let '(m, e) := cut_exponent r in (String c m, e)
  end.

(** The value [(-1)^neg * m * 10^e], rounded once to the nearest double. *)
Definition decimal_to_float (neg : bool) (m : Z) (e : Z) : float :=
  match m with
  | Z0 => S754_zero neg
  | Zneg _ => S754_nan
  | Zpos p =>
      if 0 <=? e then binary_normalize prec emax
                        (if neg then - (m * 10 ^ e) else m * 10 ^ e) 0 false
      else SFdiv prec emax (S754_finite neg p 0)
                           (S754_finite false (Z.to_pos (10 ^ (- e))) 0)
  end.

(** [number ::= [digitpart] "." digitpart | digitpart ["."]]; returns the
    digits as an integer and the number of fractional digits. *)
Definition number (s : string) : option (Z * Z) :=
  match split "." s with
  | [ip] => match digitpart ip with Some (v, _) => Some (v, 0) | None => None end
  | [ip; fp] =>
      match ip, fp with
      | EmptyString, EmptyString => None
      | _, EmptyString =>
          match digitpart ip with Some (v, _) => Some (v, 0) | None => None end
      | EmptyString, _ => digitpart fp
      | _, _ =>
          match digitpart ip with
          | Some (v, _) => digitpart_from v 0 false fp
          | None => None
          end
      end
  | _ => None
  end.

(** [float(s)] for a string; [None] is [ValueError]. *)
Definition float_of_str (s : string) : option float :=
  let '(neg, body) := split_sign (number_text s) in
  let l := lower_str body in
  if String.eqb l "inf" || String.eqb l "infinity" then Some (S754_infinity neg)
  else if String.eqb l "nan" then Some S754_nan
  else
    let '(mant, ex) := cut_exponent body in
    match number mant with
    | None => None
    | Some (m, nfrac) =>
        match ex with
        | None => Some (decimal_to_float neg m (- nfrac))
        | Some es =>
            let '(eneg, ebody) := split_sign es in
            match digitpart ebody with
            | Some (e, _) =>
                Some (decimal_to_float neg m
                        ((if eneg then - e else e) - nfrac))
            | None => None
            end
        end
    end.

End Py.

(** ** The constraint pipeline: [z3_mcp/core/solver.py] *)

Module SolverPy.

(** *** [models/constraints.py] *)

Inductive VariableType := INTEGER | REAL | BOOLEAN | STRING.

(** What the [type] attribute of a [Variable] holds: a member of
    [VariableType] or, since the model class checks the attribute only when
    the object is built from a request, any other value, given by the text
    [str] prints for it. A value equal to a member is that member. *)
Inductive TypeAttr :=
| member (t : VariableType)
| other (text : string).

(** [Variable] and [Constraint] are reserved words here, hence the
    trailing underscore. *)
Record Variable_ := { var_name : string; var_type : TypeAttr }.

Record Constraint_ := { expression : string; description : string }.

Record Problem := {
  variables : list Variable_;
  constraints : list Constraint_;
  problem_description : string
}.

(** [Z3Value = bool | int | float | str] *)
Inductive Z3Value :=
| VBool (b : bool)
| VInt (n : Z)
| VFloat (f : Py.float)
| VStr (s : string).

Record Solution := {
  values : gmap string Z3Value;
  is_satisfiable : bool;
  status : string
}.

(** *** What the pipeline sees of z3 *)

Inductive Z3Sort := BoolSort | IntSort | RealSort | StringSort.

(** A declared symbol: [Int(name)], [Real(name)], [Bool(name)] or
    [String(name)]. *)
Record Z3Ref := { ref_name : string; ref_sort : Z3Sort }.

Definition Int (name : string) : Z3Ref := {| ref_name := name; ref_sort := IntSort |}.
Definition Real (name : string) : Z3Ref := {| ref_name := name; ref_sort := RealSort |}.
Definition Bool (name : string) : Z3Ref := {| ref_name := name; ref_sort := BoolSort |}.
Definition String_ (name : string) : Z3Ref := {| ref_name := name; ref_sort := StringSort |}.

Definition is_bool (r : Z3Ref) : bool := match ref_sort r with BoolSort => true | _ => false end.
Definition is_int (r : Z3Ref) : bool := match ref_sort r with IntSort => true | _ => false end.
Definition is_real (r : Z3Ref) : bool := match ref_sort r with RealSort => true | _ => false end.

Inductive CheckSatResult := sat | unsat | unknown.

Global Instance CheckSatResult_eq_dec : EqDecision CheckSatResult.
Proof. solve_decision. Defined.

(** [str(result)] *)
Definition str_result (r : CheckSatResult) : string :=
  match r with sat => "sat" | unsat => "unsat" | unknown => "unknown" end.

(** A value found in a model, as far as extraction looks at it: its
    canonical text [str(v)] and [is_true(v)]. *)
Record ModelValue := { mv_str : string; mv_is_true : bool }.

(** [model[z3_var]]: the interpretation of a symbol, or [None]. *)
Definition ModelRef := Z3Ref -> option ModelValue.

(** The names bound in the environment of [eval]. *)
Inductive Binding :=
| BVar (r : Z3Ref)
| BCombinator (name : string)
| BLiteral (b : bool).

Definition combinators : gmap string Binding :=
  <["And" := BCombinator "And"]> (<["Or" := BCombinator "Or"]> (
  <["Not" := BCombinator "Not"]> (<["Implies" := BCombinator "Implies"]> (
  <["ForAll" := BCombinator "ForAll"]> (<["Exists" := BCombinator "Exists"]> (
  <["If" := BCombinator "If"]> (<["Distinct" := BCombinator "Distinct"]> (
  <["true" := BLiteral true]> (<["false" := BLiteral false]> ∅))))))))).

Section Backend.

(** The object a constraint expression evaluates to. *)
Variable BoolRef : Type.

(** [eval(expression, {"__builtins__": {}}, local_dict)] *)
Variable py_eval : string -> gmap string Binding -> Raises BoolRef.

(** A fresh [Solver()] after [solver.add(constraints)]: [add] itself,
    [check()] and [model()]. *)
Variable z3_add : list BoolRef -> Raises unit.
Variable z3_check : list BoolRef -> Raises CheckSatResult.
Variable z3_model : list BoolRef -> Raises ModelRef.

(** What the library does when asked for a symbol, as in [Int(name)]: it
    returns, or raises. *)
Variable z3_declare : Z3Ref -> Raises unit.

Definition new_symbol (z3_var : Z3Ref) : Raises Z3Ref :=
  match z3_declare z3_var with
  | Ret _ => Ret z3_var
  | Raise e => Raise e
  end.

Definition create_variable (variable : Variable_) : Result (string * Z3Ref) :=
  let name := var_name variable in
  let returned (symbol : Raises Z3Ref) :=
    match symbol with
    | Ret z3_var => Success (name, z3_var)
    | Raise e => Failure ("Error creating variable " ++ name ++ ": " ++ e)
    end in
  match var_type variable with
  | member INTEGER => returned (new_symbol (Int name))
  | member REAL => returned (new_symbol (Real name))
  | member BOOLEAN => returned (new_symbol (Bool name))
  | member STRING => returned (new_symbol (String_ name))
  | other text => Failure ("Unsupported variable type: " ++ text)
  end.

Fixpoint create_variables_loop (result_dict : gmap string Z3Ref)
    (variables : list Variable_) : Result (gmap string Z3Ref) :=
  match variables with
  | [] => Success result_dict
  | var :: rest =>
      match create_variable var with
      | Success (name, z3_var) =>
          create_variables_loop (<[name := z3_var]> result_dict) rest
      | Failure e => Failure e
      end
  end.

Definition create_variables (variables : list Variable_) : Result (gmap string Z3Ref) :=
  create_variables_loop ∅ variables.

(** The expressions handed to [eval] so far, oldest first. *)
Definition EvalLog := list string.

(** The environment [eval] runs in: the variables, overridden by the fixed
    names. *)
Definition local_dict (variables : gmap string Z3Ref) : gmap string Binding :=
  combinators ∪ (BVar <$> variables).

Definition parse_constraint (constraint : Constraint_)
    (variables : gmap string Z3Ref) (log : EvalLog) : Result BoolRef * EvalLog :=
  let log' := (log ++ [expression constraint])%list in
  match py_eval (expression constraint) (local_dict variables) with
  | Ret z3_constraint => (Success z3_constraint, log')
  | Raise e =>
      (Failure ("Error parsing constraint '" ++ expression constraint ++ "': " ++ e),
       log')
  end.

Fixpoint create_constraints_loop (z3_constraints : list BoolRef)
    (constraints : list Constraint_) (variables : gmap string Z3Ref)
    (log : EvalLog) : Result (list BoolRef) * EvalLog :=
  match constraints with
  | [] => (Success z3_constraints, log)
  | constraint :: rest =>
      match parse_constraint constraint variables log with
      | (Success value, log') =>
          create_constraints_loop (z3_constraints ++ [value])%list rest variables log'
      | (Failure e, log') => (Failure e, log')
      end
  end.

Definition create_constraints (constraints : list Constraint_)
    (variables : gmap string Z3Ref) (log : EvalLog) : Result (list BoolRef) * EvalLog :=
  create_constraints_loop [] constraints variables log.

Definition solve (variables : gmap string Z3Ref) (constraints : list BoolRef)
    : Result (CheckSatResult * option ModelRef) :=
  let failure e := Failure ("Error solving constraints: " ++ e) in
  match z3_add constraints with
  | Raise e => failure e
  | Ret _ =>
      match z3_check constraints with
      | Raise e => failure e
      | Ret result =>
          if decide (result = sat) then
            match z3_model constraints with
            | Raise e => failure e
            | Ret model => Success (result, Some model)
            end
          else Success (result, None)
      end
  end.

Definition get_z3_value (model : ModelRef) (z3_var : Z3Ref) : option Z3Value :=
  match model z3_var with
  | None => None
  | Some z3_value =>
      let str_value := mv_str z3_value in
      if is_bool z3_var then Some (VBool (mv_is_true z3_value))
      else if is_int z3_var then VInt <$> Py.int str_value
      else if is_real z3_var then
        if Py.contains "/" str_value then
          match Py.split "/" str_value with
          | [num_str; den_str] =>
              num ← Py.int num_str;
              fnum ← Py.float_of_int num;
              den ← Py.int den_str;
              fden ← Py.float_of_int den;
              VFloat <$> Py.truediv fnum fden
          | _ => None
          end
        else VFloat <$> Py.float_of_str str_value
      else Some (VStr str_value)
  end.

Definition extract_solution (result : CheckSatResult) (model : option ModelRef)
    (variables : gmap string Z3Ref) : Result Solution :=
  let status := str_result result in
  let is_satisfiable := bool_decide (result = sat) in
  let values : gmap string Z3Value :=
    match is_satisfiable, model with
    | true, Some model =>
        map_fold (fun name z3_var values =>
                    match get_z3_value model z3_var with
                    | Some value => <[name := value]> values
                    | None => values
                    end) ∅ variables
    | _, _ => ∅
    end in
  Success {| values := values; is_satisfiable := is_satisfiable; status := status |}.

Definition solve_problem (problem : Problem) : Result Solution :=
  match create_variables (variables problem) with
  | Failure e => Failure e
  | Success variables =>
      match fst (create_constraints (constraints problem) variables []) with
      | Failure e => Failure e
      | Success z3_constraints =>
          match solve variables z3_constraints with
          | Failure e => Failure e
          | Success (result, model) => extract_solution result model variables
          end
      end
  end.

End Backend.

End SolverPy.

(** ** The entailment pipeline: [z3_poc/core/relationships.py] *)

Module RelationshipsPy.

Import SolverPy (CheckSatResult, sat, unsat, unknown).

(** *** [models/relationships.py] *)

Record Relationship := {
  person1 : string;
  person2 : string;
  relation : string;
  value : bool
}.

Record RelationshipQuery := {
  relationships : list Relationship;
  query : string
}.

Record RelationshipResult := {
  result : bool;
  explanation : string;
  is_satisfiable : bool
}.

(** *** The z3 terms the pipeline builds *)

(** [Const(name, StringSort())] *)
Inductive ExprRef := Const (name : string).

(** [Function(name, StringSort(), StringSort(), BoolSort())] *)
Inductive FuncDeclRef := Function (name : string).

Inductive BoolRef :=
| App (f : FuncDeclRef) (a b : ExprRef)
| Not (e : BoolRef)
| Implies (a b : BoolRef)
| ForAll (vs : list ExprRef) (body : BoolRef).

Global Instance ExprRef_eq_dec : EqDecision ExprRef.
Proof. solve_decision. Defined.
Global Instance FuncDeclRef_eq_dec : EqDecision FuncDeclRef.
Proof. solve_decision. Defined.

Record Entity := { entity_name : string; z3_const : option ExprRef }.

Record Relation := { relation_name : string; z3_func : option FuncDeclRef }.

(** *** The solver object *)

(** The calls made on a solver; [history] records them, oldest first, and
    nothing reads it back. *)
Inductive SolverOp :=
| OpAdd (e : BoolRef)
| OpPush
| OpPop
| OpCheck.

(** [assertions] are all formulas asserted, oldest first; [scopes] holds,
    innermost first, the number of assertions at each [push]. *)
Record Solver := {
  assertions : list BoolRef;
  scopes : list nat;
  history : list SolverOp
}.

(** [Solver()] *)
Definition new_solver : Solver :=
  {| assertions := []; scopes := []; history := [] |}.

(** A call on the solver: the solver is updated in place, whether the call
    returns or raises. *)
Definition SolverM (A : Type) : Type := Solver -> Raises A * Solver.

Definition ret {A} (a : A) : SolverM A := fun s => (Ret a, s).

Definition bind {A B} (m : SolverM A) (k : A -> SolverM B) : SolverM B :=
  fun s =>
    match m s with
    | (Ret a, s') => k a s'
    | (Raise e, s') => (Raise e, s')
    end.

Notation "x <- m ;; k" := (bind m (fun x => k))
  (at level 100, m at next level, right associativity).
Notation "m ;;; k" := (bind m (fun _ => k))
  (at level 100, right associativity).

Definition record (op : SolverOp) (s : Solver) : Solver :=
  {| assertions := assertions s; scopes := scopes s;
     history := (history s ++ [op])%list |}.

(** [solver.add(e)] *)
Definition add (e : BoolRef) : SolverM unit :=
  fun s =>
    let s := record (OpAdd e) s in
    (Ret tt, {| assertions := (assertions s ++ [e])%list; scopes := scopes s;
                history := history s |}).

(** [solver.push()] *)
Definition push : SolverM unit :=
  fun s =>
    let s := record OpPush s in
    (Ret tt, {| assertions := assertions s;
                scopes := length (assertions s) :: scopes s;
                history := history s |}).

(** [solver.pop()] *)
Definition pop : SolverM unit :=
  fun s =>
    let s := record OpPop s in
    match scopes s with
    | [] => (Raise "index out of bounds", s)
    | n :: rest =>
        (Ret tt, {| assertions := take n (assertions s); scopes := rest;
                    history := history s |})
    end.

Section Backend.

(** What the backend does when asked to check a list of assertions: it
    returns a verdict or raises. *)
Variable z3_check : list BoolRef -> Raises CheckSatResult.

(** [solver.check()] *)
Definition check : SolverM CheckSatResult :=
  fun s => let s := record OpCheck s in (z3_check (assertions s), s).

(** Building a constant or a function symbol does not raise. *)
Definition create_entity (name : string) : Result Entity :=
  Success {| entity_name := name; z3_const := Some (Const name) |}.

Definition create_entities (relationships : list Relationship)
    : Result (gmap string Entity) :=
  let entity_names : gset string :=
    foldl (fun names rel => {[person2 rel]} ∪ ({[person1 rel]} ∪ names))
          ∅ relationships in
  set_fold (fun name acc =>
              match acc with
              | Failure e => Failure e
              | Success entities_dict =>
                  match create_entity name with
                  | Success entity => Success (<[name := entity]> entities_dict)
                  | Failure e => Failure e
                  end
              end) (Success ∅) entity_names.

Definition create_relation (name : string) : Result Relation :=
  Success {| relation_name := name; z3_func := Some (Function name) |}.

Definition create_relations (relationships : list Relationship)
    : Result (gmap string Relation) :=
  let relation_names : gset string :=
    foldl (fun names rel => {[relation rel]} ∪ names) ∅ relationships in
  set_fold (fun name acc =>
              match acc with
              | Failure e => Failure e
              | Success relations_dict =>
                  match create_relation name with
                  | Success relation => Success (<[name := relation]> relations_dict)
                  | Failure e => Failure e
                  end
              end) (Success ∅) relation_names.

(** [str(KeyError(key))], for a key without quotes or escapes. *)
Definition key_error (key : string) : string := "'" ++ key ++ "'".

(** [d[key]] *)
Definition getitem {A} (d : gmap string A) (key : string) : SolverM A :=
  fun s =>
    match d !! key with
    | Some v => (Ret v, s)
    | None => (Raise (key_error key), s)
    end.

(** The axiom added for the relation named "sibling". *)
Definition symmetry_axiom (z3_func : FuncDeclRef) : BoolRef :=
  let x := Const "x" in
  let y := Const "y" in
  ForAll [x; y] (Implies (App z3_func x y) (App z3_func y x)).

Fixpoint assert_facts (relationships : list Relationship)
    (entities : gmap string Entity) (relations : gmap string Relation)
    (continue : SolverM (Result unit)) : SolverM (Result unit) :=
  match relationships with
  | [] => continue
  | rel :: rest =>
      relation_ <- getitem relations (relation rel) ;;
      entity1 <- getitem entities (person1 rel) ;;
      entity2 <- getitem entities (person2 rel) ;;
      match z3_func relation_, z3_const entity1, z3_const entity2 with
      | None, _, _ =>
          ret (Failure ("Relation " ++ relation rel ++ " has no Z3 function"))
      | _, None, _ =>
          ret (Failure ("Entity " ++ person1 rel ++ " has no Z3 constant"))
      | _, _, None =>
          ret (Failure ("Entity " ++ person2 rel ++ " has no Z3 constant"))
      | Some z3_func, Some e1_const, Some e2_const =>
          (if value rel then add (App z3_func e1_const e2_const)
           else add (Not (App z3_func e1_const e2_const))) ;;;
          assert_facts rest entities relations continue
      end
  end.

Definition add_relationship_assertions (relationships : list Relationship)
    (entities : gmap string Entity) (relations : gmap string Relation)
    : Solver -> Result unit * Solver :=
  fun solver =>
    let body :=
      assert_facts relationships entities relations
        (if decide (is_Some (relations !! "sibling")) then
           sibling_relation <- getitem relations "sibling" ;;
           match z3_func sibling_relation with
           | None => ret (Failure "Sibling relation has no Z3 function")
           | Some z3_func => add (symmetry_axiom z3_func) ;;; ret (Success tt)
           end
         else ret (Success tt)) in
    match body solver with
    | (Ret r, solver') => (r, solver')
    | (Raise e, solver') =>
        (Failure ("Error adding relationship assertions: " ++ e), solver')
    end.

Fixpoint first_unknown_entity (entity_names : list string)
    (entities : gmap string Entity) : option string :=
  match entity_names with
  | [] => None
  | entity_name :: rest =>
      if decide (is_Some (entities !! entity_name))
      then first_unknown_entity rest entities
      else Some entity_name
  end.

Definition parse_query (query : string) (entities : gmap string Entity)
    (relations : gmap string Relation) : Result BoolRef :=
  match Py.split "(" query with
  | [part0; part1] =>
      if negb (Py.contains ")" part1) then Failure ("Invalid query format: " ++ query)
      else
        let relation_name := Py.strip part0 in
        let entities_part := Py.strip (hd EmptyString (Py.split ")" part1)) in
        let entity_names := Py.strip <$> Py.split "," entities_part in
        match entity_names with
        | [name1; name2] =>
            match relations !! relation_name with
            | None => Failure ("Unknown relation: " ++ relation_name)
            | Some relation_ =>
                match first_unknown_entity entity_names entities with
                | Some entity_name => Failure ("Unknown entity: " ++ entity_name)
                | None =>
                    match entities !! name1, entities !! name2 with
                    | Some entity1, Some entity2 =>
                        match z3_func relation_, z3_const entity1, z3_const entity2 with
                        | None, _, _ =>
                            Failure ("Relation " ++ relation_name ++ " has no Z3 function")
                        | _, None, _ =>
                            Failure ("Entity " ++ name1 ++ " has no Z3 constant")
                        | _, _, None =>
                            Failure ("Entity " ++ name2 ++ " has no Z3 constant")
                        | Some z3_func, Some e1_const, Some e2_const =>
                            Success (App z3_func e1_const e2_const)
                        end
                    | None, _ =>
                        Failure ("Error parsing query '" ++ query ++ "': " ++ key_error name1)
                    | _, None =>
                        Failure ("Error parsing query '" ++ query ++ "': " ++ key_error name2)
                    end
                end
            end
        | _ => Failure ("Query must involve exactly two entities: " ++ query)
        end
  | _ => Failure ("Invalid query format: " ++ query)
  end.

Definition confirmed : string :=
  "The relationship is confirmed by the given facts.".
Definition contradicted : string :=
  "The relationship is contradicted by the given facts.".
Definition possible : string :=
  "The relationship is possible but not confirmed by the given facts.".
Definition contradictory : string :=
  "The relationships are contradictory.".

Definition evaluate_query (query_expr : BoolRef)
    : Solver -> Result (bool * string * bool) * Solver :=
  fun solver =>
    let body :=
      push ;;;
      add (Not query_expr) ;;;
      neg_result <- check ;;
      pop ;;;
      if decide (neg_result = unsat) then ret (Success (true, confirmed, true))
      else
        push ;;;
        add query_expr ;;;
        pos_result <- check ;;
        pop ;;;
        if decide (pos_result = unsat) then ret (Success (false, contradicted, true))
        else ret (Success (false, possible, true)) in
    match body solver with
    | (Ret r, solver') => (r, solver')
    | (Raise e, solver') => (Failure ("Error evaluating query: " ++ e), solver')
    end.

(** [analyze_relationships], with the solver it leaves behind. *)
Definition analyze_relationships_run (query : RelationshipQuery)
    : Result RelationshipResult * Solver :=
  let solver := new_solver in
  match create_entities (relationships query) with
  | Failure error => (Failure error, solver)
  | Success entities =>
      match create_relations (relationships query) with
      | Failure error => (Failure error, solver)
      | Success relations =>
          match add_relationship_assertions (relationships query) entities relations solver with
          | (Failure error, solver) => (Failure error, solver)
          | (Success _, solver) =>
              match parse_query query.(RelationshipsPy.query) entities relations with
              | Failure error => (Failure error, solver)
              | Success query_expr =>
                  match check solver with
                  | (Raise e, solver) =>
                      (Failure ("Error analyzing relationships: " ++ e), solver)
                  | (Ret base_result, solver) =>
                      if decide (base_result = unsat) then
                        (Success {| result := false;
                                    explanation := contradictory;
                                    is_satisfiable := false |}, solver)
                      else
                        match evaluate_query query_expr solver with
                        | (Failure error, solver) => (Failure error, solver)
                        | (Success (result, explanation, is_satisfiable), solver) =>
                            (Success {| result := result;
                                        explanation := explanation;
                                        is_satisfiable := is_satisfiable |}, solver)
                        end
                  end
              end
          end
      end
  end.

Definition analyze_relationships (query : RelationshipQuery)
    : Result RelationshipResult :=
  fst (analyze_relationships_run query).

End Backend.

End RelationshipsPy.

(** ** Vocabulary for the statements *)

(** Every character of [s] satisfies [P]. *)
Fixpoint all_chars (P : ascii -> bool) (s : string) : bool :=
  match s with
  | EmptyString => true
  | String c r => P c && all_chars P r
  end.

(** Number of occurrences of [sep] in [s]. *)
Fixpoint count_char (sep : ascii) (s : string) : nat :=
  match s with
  | EmptyString => 0%nat
  | String c r => ((if Ascii.eqb c sep then 1 else 0) + count_char sep r)%nat
  end.

Definition is_digit (c : ascii) : bool :=
  match Py.digit_val c with Some _ => true | None => false end.

(** An ASCII character that [int()] and [float()] do not skip. *)
Definition plain (c : ascii) : bool :=
  negb (Py.c_isspace c) && (nat_of_ascii c <? 127)%nat.

(** The canonical text z3 prints for an integer, and for a ratio of two
    integers: decimal digits, a leading "-" when negative. *)
Module Canonical.

Definition digit_char (d : Z) : ascii := ascii_of_nat (48 + Z.to_nat d).

Fixpoint digits_of (fuel : nat) (n : Z) (acc : string) : string :=
  match fuel with
  | O => acc
  | S fuel' =>
      let acc' := String (digit_char (n mod 10)) acc in
      if n <? 10 then acc' else digits_of fuel' (n / 10) acc'
  end.

(** Decimal digits of [n >= 0]; a number has no more decimal than binary
    digits, which bounds the recursion. *)
Definition digits (n : Z) : string :=
  digits_of (S (Z.to_nat (Z.log2 n))) n EmptyString.

Definition str_int (n : Z) : string :=
  if n <? 0 then String "-" (digits (- n)) else digits n.

Definition ratio (p q : Z) : string := str_int p ++ "/" ++ str_int q.

End Canonical.

(** The statements about the entailment pipeline. *)
Module Facts.

Import SolverPy (CheckSatResult, sat, unsat, unknown).
Import RelationshipsPy.

(** The entity and relation objects the declaration step creates. *)
Definition entity (name : string) : Entity :=
  {| entity_name := name; z3_const := Some (Const name) |}.

Definition relation_ (name : string) : Relation :=
  {| relation_name := name; z3_func := Some (Function name) |}.

(** The formula one fact asserts. *)
Definition fact_formula (rel : Relationship) : BoolRef :=
  let atom := App (Function (relation rel)) (Const (person1 rel)) (Const (person2 rel)) in
  if value rel then atom else Not atom.

Definition names_sibling (relationships : list Relationship) : bool :=
  existsb (fun rel => String.eqb (relation rel) "sibling") relationships.

(** The fact base: the facts in order, then the symmetry axiom when some
    fact names "sibling". *)
Definition fact_base (relationships : list Relationship) : list BoolRef :=
  ((fact_formula <$> relationships)
   ++ if names_sibling relationships
      then [symmetry_axiom (Function "sibling")] else [])%list.

(** The solver after the formulas [fs] were added to a fresh one. *)
Definition loaded (fs : list BoolRef) : Solver :=
  {| assertions := fs; scopes := []; history := OpAdd <$> fs |}.

(** The solver [s] after further calls [ops] that left its assertions and
    scopes as they were. *)
Definition after (ops : list SolverOp) (s : Solver) : Solver :=
  {| assertions := assertions s; scopes := scopes s;
     history := (history s ++ ops)%list |}.

(** The solver [s] stopped inside a probe of [e]: the probe's scope is
    open and [e] is asserted. *)
Definition inside_probe (e : BoolRef) (ops : list SolverOp) (s : Solver) : Solver :=
  {| assertions := (assertions s ++ [e])%list;
     scopes := length (assertions s) :: scopes s;
     history := (history s ++ ops)%list |}.

Definition verdict (result : bool) (explanation : string) (is_satisfiable : bool)
    : RelationshipResult :=
  {| result := result; explanation := explanation; is_satisfiable := is_satisfiable |}.

(** A backend that answers [sat] wherever [z3_check] answers [unknown]. *)
Definition unknown_as_sat (z3_check : list BoolRef -> Raises CheckSatResult)
    : list BoolRef -> Raises CheckSatResult :=
  fun fs => match z3_check fs with Ret unknown => Ret sat | r => r end.

(** The shape the parser accepts: one "(", and a ")" somewhere after
    it; [inner] is the text between the "(" and the first ")". *)
Definition query_text (name inner rest : string) : string :=
  name ++ String "(" (inner ++ String ")" rest).

Definition well_cut (name inner rest : string) : Prop :=
  Py.contains "(" name = false ∧ Py.contains "(" inner = false
  ∧ Py.contains "(" rest = false ∧ Py.contains ")" inner = false.

(** The dictionaries the declaration step returns for a fact list. *)
Definition entities_of (relationships : list Relationship) : gmap string Entity :=
  match create_entities relationships with
  | Success entities => entities
  | Failure _ => ∅
  end.

Definition relations_of (relationships : list Relationship) : gmap string Relation :=
  match create_relations relationships with
  | Success relations => relations
  | Failure _ => ∅
  end.

End Facts.

(** ** What the formulas mean *)

Module Semantics.

Import SolverPy (CheckSatResult, sat, unsat, unknown).
Import RelationshipsPy.

Global Instance BoolRef_eq_dec : EqDecision BoolRef.
Proof. solve_decision. Defined.

(** An interpretation gives every relation name a binary relation on
    strings, the values of the entity sort; an assignment gives every
    constant name a string. *)
Definition Interp := string -> string -> string -> Prop.
Definition Assignment := string -> string.

Fixpoint holds (R : Interp) (rho : Assignment) (e : BoolRef) : Prop :=
  match e with
  | App (Function f) (Const a) (Const b) => R f (rho a) (rho b)
  | Not e => ¬ holds R rho e
  | Implies a b => holds R rho a → holds R rho b
  | ForAll vs body =>
      ∀ rho' : Assignment,
        (∀ n, Const n ∉ vs → rho' n = rho n) → holds R rho' body
  end.

Definition satisfiable (fs : list BoolRef) : Prop :=
  ∃ R rho, Forall (holds R rho) fs.

(** The formulas the pipeline asserts: atoms, negated atoms, and
    symmetry axioms. *)
Definition in_fragment (e : BoolRef) : bool :=
  match e with
  | App _ _ _ => true
  | Not (App _ _ _) => true
  | ForAll _ (Implies (App f _ _) _) => bool_decide (e = symmetry_axiom f)
  | _ => false
  end.

(** What the pipeline needs of a backend: an unsat answer is right; on
    the pipeline's formulas the backend answers, and answers unsat when
    there is no model. *)
Definition adequate (z3_check : list BoolRef -> Raises CheckSatResult) : Prop :=
  (∀ fs, z3_check fs = Ret unsat → ¬ satisfiable fs)
  ∧ (∀ fs, forallb in_fragment fs = true → ∃ r, z3_check fs = Ret r)
  ∧ (∀ fs, forallb in_fragment fs = true → ¬ satisfiable fs →
       z3_check fs = Ret unsat).

(** A decision procedure for the pipeline's formulas. *)
Definition positive (e : BoolRef) : option (string * string * string) :=
  match e with
  | App (Function f) (Const a) (Const b) => Some (f, a, b)
  | _ => None
  end.

Definition negative (e : BoolRef) : option (string * string * string) :=
  match e with
  | Not (App (Function f) (Const a) (Const b)) => Some (f, a, b)
  | _ => None
  end.

Definition symmetric (fs : list BoolRef) (f : string) : bool :=
  bool_decide (symmetry_axiom (Function f) ∈ fs).

(** The atom [f(a, b)] follows from the positive facts. *)
Definition derivable (fs : list BoolRef) (atom : string * string * string) : bool :=
  let '(f, a, b) := atom in
  bool_decide ((f, a, b) ∈ omap positive fs)
  || symmetric fs f && bool_decide ((f, b, a) ∈ omap positive fs).

Definition reference_check (fs : list BoolRef) : Raises CheckSatResult :=
  if forallb in_fragment fs then
    if existsb (derivable fs) (omap negative fs) then Ret unsat else Ret sat
  else Ret unknown.

(** No leading or trailing whitespace, no parenthesis and no comma. *)
Definition clean_name (s : string) : bool :=
  String.eqb (Py.lstrip s) s && String.eqb (Py.rstrip s) s
  && negb (Py.contains "(" s) && negb (Py.contains ")" s)
  && negb (Py.contains "," s).

Definition sibling_of (X Y : string) : Relationship :=
  {| person1 := X; person2 := Y; relation := "sibling"; value := true |}.

(** Given only sibling(X, Y), ask for sibling(Y, X). *)
Definition converse_query (X Y : string) : RelationshipQuery :=
  {| relationships := [sibling_of X Y];
     query := "sibling(" ++ Y ++ ", " ++ X ++ ")" |}.

End Semantics.

(** ** Doubles against exact quotients *)

Module Exact.

(** The value of a finite double as a fraction [n / 2^k]. *)
Definition fraction (f : spec_float) : option (Z * Z) :=
  match f with
  | S754_zero _ => Some (0, 0)
  | S754_finite s m e =>
      let n := if s then Z.neg m else Z.pos m in
      if 0 <=? e then Some (n * 2 ^ e, 0) else Some (n, - e)
  | _ => None
  end.

(** The double [y] is strictly closer than the double [x] to the quotient
    of the integers [p] and [q], [q] positive:
    [|ny / 2^ky - p / q| < |nx / 2^kx - p / q|], cleared of denominators. *)
Definition closer_to_quotient (p q : Z) (y x : spec_float) : bool :=
  match fraction y, fraction x with
  | Some (ny, ky), Some (nx, kx) =>
      Z.abs (ny * q - p * 2 ^ ky) * 2 ^ kx <? Z.abs (nx * q - p * 2 ^ kx) * 2 ^ ky
  | _, _ => false
  end.

End Exact.

(** Backends and requests used in examples. *)
Module Backends.

Import SolverPy (CheckSatResult, sat, unsat, unknown).
Import RelationshipsPy.

Definition always_unknown : list BoolRef -> Raises CheckSatResult :=
  fun _ => Ret unknown.

Definition always_raises : list BoolRef -> Raises CheckSatResult :=
  fun _ => Raise "canceled".

Definition sibling_fact : Relationship :=
  {| person1 := "Alice"; person2 := "Bob"; relation := "sibling"; value := true |}.

Definition sibling_query : RelationshipQuery :=
  {| relationships := [sibling_fact]; query := "sibling(Bob, Alice)" |}.

(** A stand-in for the constraint backend: a constraint compiles to its
    own text unless the text is "x >", up to one constraint is satisfiable
    with every symbol at 5/2, and more than one is given up on. *)
Definition demo_eval (expression : string) (env : gmap string SolverPy.Binding)
    : Raises string :=
  if String.eqb expression "x >" then Raise "invalid syntax" else Ret expression.

Definition demo_add (cs : list string) : Raises unit := Ret tt.

Definition demo_check (cs : list string) : Raises CheckSatResult :=
  match cs with
  | [] | [_] => Ret sat
  | _ => Ret unknown
  end.

Definition demo_model (cs : list string) : Raises SolverPy.ModelRef :=
  Ret (fun z3_var =>
         if String.eqb (SolverPy.ref_name z3_var) "x"
         then Some {| SolverPy.mv_str := "5/2"; SolverPy.mv_is_true := false |}
         else None).

Definition demo_declare (z3_var : SolverPy.Z3Ref) : Raises unit := Ret tt.

(** A library that raises when asked for a symbol named "bad". *)
Definition picky_declare (z3_var : SolverPy.Z3Ref) : Raises unit :=
  if String.eqb (SolverPy.ref_name z3_var) "bad" then Raise "symbol rejected"
  else Ret tt.

Definition constraint (expression : string) : SolverPy.Constraint_ :=
  {| SolverPy.expression := expression; SolverPy.description := EmptyString |}.

Definition demo_variables : list SolverPy.Variable_ :=
  [ {| SolverPy.var_name := "x"; SolverPy.var_type := SolverPy.member SolverPy.REAL |};
    {| SolverPy.var_name := "y"; SolverPy.var_type := SolverPy.member SolverPy.INTEGER |} ].

Definition demo_problem (expressions : list string) : SolverPy.Problem :=
  {| SolverPy.variables := demo_variables;
     SolverPy.constraints := constraint <$> expressions;
     SolverPy.problem_description := EmptyString |}.

End Backends.

(** ** Inputs used in examples *)

Module Inputs.

Import SolverPy.

(** NBSP (U+00A0), NEL (U+0085) and FS (U+001C). *)
Definition nbsp : ascii := ascii_of_nat 160.
Definition nel : ascii := ascii_of_nat 133.
Definition fs : ascii := ascii_of_nat 28.

(** A model binding every symbol to the ratio [p / q]. *)
Definition ratio_model (p q : Z) : ModelRef :=
  fun _ => Some {| mv_str := Canonical.ratio p q; mv_is_true := false |}.

(** A model binding the symbol "x" to the ratio 10^309 / 3, the symbol
    "y" to 7, and no other symbol. *)
Definition overflow_values : ModelRef :=
  fun z3_var =>
    if String.eqb (ref_name z3_var) "x"
    then Some {| mv_str := Canonical.ratio (10 ^ 309) 3; mv_is_true := false |}
    else if String.eqb (ref_name z3_var) "y"
    then Some {| mv_str := "7"; mv_is_true := false |}
    else None.

Definition overflow_model (cs : list string) : Raises ModelRef := Ret overflow_values.

(** Three variables and one constraint that gives "x" the value above. *)
Definition overflow_problem : Problem :=
  {| variables :=
       [ {| var_name := "x"; var_type := member REAL |};
         {| var_name := "y"; var_type := member INTEGER |};
         {| var_name := "z"; var_type := member BOOLEAN |} ];
     constraints := [Backends.constraint "3 * x == 10 ** 309"];
     problem_description := EmptyString |}.

(** A model binding every symbol to the ratio 5/2. *)
Definition five_halves_model : ModelRef :=
  fun _ => Some {| mv_str := "5/2"; mv_is_true := false |}.

End Inputs.

(** ** The tool layer: [z3_mcp/server/main.py] *)

Module ServerPy.

(** [mcp.types.TextContent] *)
Record TextContent := { type_ : string; text : string }.

(** [[TextContent(type="text", text=t)]] *)
Definition text_reply (t : string) : list TextContent :=
  [{| type_ := "text"; text := t |}].

(** A value of type [str | bool] in a request dictionary. *)
Inductive Scalar :=
| SStr (s : string)
| SBool (b : bool).

(** [str(v)] *)
Definition str_scalar (v : Scalar) : string :=
  match v with
  | SStr s => s
  | SBool true => "True"
  | SBool false => "False"
  end.

(** The members of [VariableType], in definition order, and their values. *)
Definition VariableType_members : list SolverPy.VariableType :=
  [SolverPy.INTEGER; SolverPy.REAL; SolverPy.BOOLEAN; SolverPy.STRING].

Definition VariableType_value (t : SolverPy.VariableType) : string :=
  match t with
  | SolverPy.INTEGER => "integer"
  | SolverPy.REAL => "real"
  | SolverPy.BOOLEAN => "boolean"
  | SolverPy.STRING => "string"
  end.

(** [VariableType(value)]; [None] is [ValueError]. *)
Definition VariableType_of_value (value : string) : option SolverPy.VariableType :=
  find (fun t => String.eqb (VariableType_value t) value) VariableType_members.

(** [sep.join(parts)] *)
Fixpoint join (sep : string) (parts : list string) : string :=
  match parts with
  | [] => EmptyString
  | [p] => p
  | p :: rest => p ++ sep ++ join sep rest
  end.

Definition missing_variable_fields : string :=
  "Each variable must have 'name' and 'type' fields".

Definition invalid_variable_type (value : string) : string :=
  "Invalid variable type: " ++ value ++ ". Must be one of: "
  ++ join ", " (VariableType_value <$> VariableType_members).

Definition missing_relationship_fields : string :=
  "Each relationship must have 'person1', 'person2', and 'relation' fields".

Definition value_not_boolean (value : Scalar) : string :=
  "Relationship value must be a boolean, got: " ++ str_scalar value.

Section Tools.

(** The constraint backend, as in [SolverPy]. *)
Variable BoolRef : Type.
Variable py_eval : string -> gmap string SolverPy.Binding -> Raises BoolRef.
Variable z3_add : list BoolRef -> Raises unit.
Variable z3_check : list BoolRef -> Raises SolverPy.CheckSatResult.
Variable z3_model : list BoolRef -> Raises SolverPy.ModelRef.
Variable z3_declare : SolverPy.Z3Ref -> Raises unit.

(** The entailment backend, as in [RelationshipsPy]. *)
Variable z3_check_facts :
  list RelationshipsPy.BoolRef -> Raises SolverPy.CheckSatResult.

(** [json.dumps] of the three fields of a solution, and of a result. *)
Variable dumps_solution : SolverPy.Solution -> string.
Variable dumps_result : RelationshipsPy.RelationshipResult -> string.

Definition solve_constraint_problem (problem : SolverPy.Problem)
    : list TextContent :=
  match SolverPy.solve_problem BoolRef py_eval z3_add z3_check z3_model z3_declare
          problem with
  | Success solution => text_reply (dumps_solution solution)
  | Failure error => text_reply ("Error solving problem: " ++ error)
  end.

Definition analyze_relationships_tool (query : RelationshipsPy.RelationshipQuery)
    : list TextContent :=
  match RelationshipsPy.analyze_relationships z3_check_facts query with
  | Success rel_result => text_reply (dumps_result rel_result)
  | Failure error => text_reply ("Error analyzing relationships: " ++ error)
  end.

(** The loop of [simple_constraint_solver]: a reply ends the tool, a list
    of variables lets it go on. *)
Fixpoint convert_variables (problem_variables : list SolverPy.Variable_)
    (variables : list (gmap string string))
    : list TextContent + list SolverPy.Variable_ :=
  match variables with
  | [] => inr problem_variables
  | var :: rest =>
      match var !! "name", var !! "type" with
      | Some name, Some type =>
          match VariableType_of_value type with
          | None => inl (text_reply (invalid_variable_type type))
          | Some var_type =>
              convert_variables
                (problem_variables
                 ++ [{| SolverPy.var_name := name; SolverPy.var_type := SolverPy.member var_type |}])%list
                rest
          end
      | _, _ => inl (text_reply missing_variable_fields)
      end
  end.

Definition simple_constraint_solver (variables : list (gmap string string))
    (constraints : list string) (description : string) : list TextContent :=
  match convert_variables [] variables with
  | inl reply => reply
  | inr problem_variables =>
      let problem_constraints :=
        (fun expr => {| SolverPy.expression := expr;
                        SolverPy.description := EmptyString |}) <$> constraints in
      let problem :=
        {| SolverPy.variables := problem_variables;
           SolverPy.constraints := problem_constraints;
           SolverPy.problem_description := description |} in
      match SolverPy.solve_problem BoolRef py_eval z3_add z3_check z3_model z3_declare
          problem with
      | Success solution => text_reply (dumps_solution solution)
      | Failure error => text_reply ("Error solving problem: " ++ error)
      end
  end.

(** The loop of [simple_relationship_analyzer]. *)
Fixpoint convert_relationships
    (query_relationships : list RelationshipsPy.Relationship)
    (relationships : list (gmap string Scalar))
    : list TextContent + list RelationshipsPy.Relationship :=
  match relationships with
  | [] => inr query_relationships
  | rel :: rest =>
      match rel !! "person1", rel !! "person2", rel !! "relation" with
      | Some p1, Some p2, Some r =>
          let value := default (SBool true) (rel !! "value") in
          match value with
          | SBool b =>
              convert_relationships
                (query_relationships
                 ++ [{| RelationshipsPy.person1 := str_scalar p1;
                        RelationshipsPy.person2 := str_scalar p2;
                        RelationshipsPy.relation := str_scalar r;
                        RelationshipsPy.value := b |}])%list
                rest
          | _ => inl (text_reply (value_not_boolean value))
          end
      | _, _, _ => inl (text_reply missing_relationship_fields)
      end
  end.

Definition simple_relationship_analyzer (relationships : list (gmap string Scalar))
    (query : string) : list TextContent :=
  match convert_relationships [] relationships with
  | inl reply => reply
  | inr query_relationships =>
      let relationship_query :=
        {| RelationshipsPy.relationships := query_relationships;
           RelationshipsPy.query := query |} in
      match RelationshipsPy.analyze_relationships z3_check_facts relationship_query with
      | Success rel_result => text_reply (dumps_result rel_result)
      | Failure error => text_reply ("Error analyzing relationships: " ++ error)
      end
  end.

End Tools.

End ServerPy.

(** ** Further vocabulary *)

Module More.

Import SolverPy.

(** The sort of the symbol declared for a variable type. *)
Definition sort_of_type (t : VariableType) : Z3Sort :=
  match t with
  | INTEGER => IntSort
  | REAL => RealSort
  | BOOLEAN => BoolSort
  | STRING => StringSort
  end.

(** The symbol asked for when a variable of one of the four types is
    declared. *)
Definition symbol_of (v : Variable_) : option Z3Ref :=
  match var_type v with
  | member t => Some {| ref_name := var_name v; ref_sort := sort_of_type t |}
  | other _ => None
  end.

(** One step of declaration on the symbol table [d]. *)
Definition declare_into (d : gmap string Z3Ref) (v : Variable_) : gmap string Z3Ref :=
  match symbol_of v with
  | Some r => <[var_name v := r]> d
  | None => d
  end.

(** The variable has one of the four types and the library returns its
    symbol. *)
Definition declarable (z3_declare : Z3Ref -> Raises unit) (v : Variable_) : Prop :=
  ∃ r, symbol_of v = Some r ∧ z3_declare r = Ret tt.

(** The names [eval] always resolves to the fixed combinators. *)
Definition fixed_names : list string :=
  ["And"; "Or"; "Not"; "Implies"; "ForAll"; "Exists"; "If"; "Distinct";
   "true"; "false"].


(** The atom a fact is about. *)
Definition atom_of (rel : RelationshipsPy.Relationship) : RelationshipsPy.BoolRef :=
  RelationshipsPy.App (RelationshipsPy.Function (RelationshipsPy.relation rel))
    (RelationshipsPy.Const (RelationshipsPy.person1 rel))
    (RelationshipsPy.Const (RelationshipsPy.person2 rel)).

(** [name] is an endpoint of some fact. *)
Definition endpoint (rels : list RelationshipsPy.Relationship) (name : string) : Prop :=
  ∃ rel, rel ∈ rels
         ∧ (name = RelationshipsPy.person1 rel ∨ name = RelationshipsPy.person2 rel).

(** [name] is the relation of some fact. *)
Definition named_relation (rels : list RelationshipsPy.Relationship) (name : string)
    : Prop :=
  ∃ rel, rel ∈ rels ∧ name = RelationshipsPy.relation rel.

(** The fact [r(a, b) = v]. *)
Definition fact (r a b : string) (v : bool) : RelationshipsPy.Relationship :=
  {| RelationshipsPy.person1 := a; RelationshipsPy.person2 := b;
     RelationshipsPy.relation := r; RelationshipsPy.value := v |}.

(** The query text [name(a1,a2)] with whitespace [w0] .. [w5] around the
    name and the arguments, and [rest] after the closing parenthesis. *)
Definition padded_query (w0 name w1 w2 a1 w3 w4 a2 w5 rest : string) : string :=
  Facts.query_text (w0 ++ name ++ w1)
    ((w2 ++ a1 ++ w3) ++ String "," (w4 ++ a2 ++ w5)) rest.

(** The request dictionary [d] spells the variable [v]. *)
Definition describes (d : gmap string string) (v : SolverPy.Variable_) : Prop :=
  d !! "name" = Some (SolverPy.var_name v)
  ∧ ∃ t, SolverPy.var_type v = SolverPy.member t
         ∧ d !! "type" = Some (ServerPy.VariableType_value t).

(** The request dictionary [d] spells the fact [rel]: the three texts
    under [str], and the truth value, true when left out. *)
Definition states (d : gmap string ServerPy.Scalar)
    (rel : RelationshipsPy.Relationship) : Prop :=
  ServerPy.str_scalar <$> d !! "person1" = Some (RelationshipsPy.person1 rel)
  ∧ ServerPy.str_scalar <$> d !! "person2" = Some (RelationshipsPy.person2 rel)
  ∧ ServerPy.str_scalar <$> d !! "relation" = Some (RelationshipsPy.relation rel)
  ∧ default (ServerPy.SBool true) (d !! "value")
    = ServerPy.SBool (RelationshipsPy.value rel).

(** The four verdicts. *)
Definition four_verdicts : list RelationshipsPy.RelationshipResult :=
  [Facts.verdict false RelationshipsPy.contradictory false;
   Facts.verdict true RelationshipsPy.confirmed true;
   Facts.verdict false RelationshipsPy.contradicted true;
   Facts.verdict false RelationshipsPy.possible true].

End More.


(** ** Requests used in examples *)

Module Requests.

Import More.

(** A stand-in for [json.dumps]: the status, and the explanation. *)
Definition show_solution (solution : SolverPy.Solution) : string :=
  SolverPy.status solution.

Definition show_result (rel_result : RelationshipsPy.RelationshipResult) : string :=
  RelationshipsPy.explanation rel_result.

Definition x_real : gmap string string :=
  <["name" := "x"]> (<["type" := "real"]> ∅).

Definition y_integer : gmap string string :=
  <["name" := "y"]> (<["type" := "integer"]> ∅).

Definition z_number : gmap string string :=
  <["name" := "z"]> (<["type" := "Integer"]> ∅).

Definition nameless : gmap string string := <["type" := "real"]> ∅.

(** Alice and Bob are siblings, the value left out. *)
Definition siblings : gmap string ServerPy.Scalar :=
  <["person1" := ServerPy.SStr "Alice"]>
    (<["person2" := ServerPy.SStr "Bob"]>
       (<["relation" := ServerPy.SStr "sibling"]> ∅)).

(** The same with the value given as the text "yes". *)
Definition siblings_yes : gmap string ServerPy.Scalar :=
  <["value" := ServerPy.SStr "yes"]> siblings.

Definition one_sided : gmap string ServerPy.Scalar :=
  <["person1" := ServerPy.SStr "Alice"]>
    (<["relation" := ServerPy.SStr "sibling"]> ∅).

(** Models binding every symbol to one text. *)
Definition constant_model (text : string) : SolverPy.ModelRef :=
  fun _ => Some {| SolverPy.mv_str := text; SolverPy.mv_is_true := false |}.

(** Variable lists: a name declared twice, and a list whose first two
    entries cannot always be declared. *)
Definition redeclared : list SolverPy.Variable_ :=
  [ {| SolverPy.var_name := "x"; SolverPy.var_type := SolverPy.member SolverPy.REAL |};
    {| SolverPy.var_name := "y"; SolverPy.var_type := SolverPy.member SolverPy.INTEGER |};
    {| SolverPy.var_name := "x"; SolverPy.var_type := SolverPy.member SolverPy.INTEGER |} ].

Definition unsupported : list SolverPy.Variable_ :=
  [ {| SolverPy.var_name := "bad"; SolverPy.var_type := SolverPy.member SolverPy.REAL |};
    {| SolverPy.var_name := "w"; SolverPy.var_type := SolverPy.other "complex" |};
    {| SolverPy.var_name := "y"; SolverPy.var_type := SolverPy.member SolverPy.INTEGER |} ].

Definition unsupported_problem : SolverPy.Problem :=
  {| SolverPy.variables := unsupported;
     SolverPy.constraints := [Backends.constraint "x >"];
     SolverPy.problem_description := EmptyString |}.

Definition parent_fact : RelationshipsPy.Relationship := fact "parent" "Ann" "Bea" true.
Definition likes_fact : RelationshipsPy.Relationship := fact "likes" "Bea" "Cy" true.

(** A relation without a function symbol. *)
Definition bare_relation (name : string) : RelationshipsPy.Relation :=
  {| RelationshipsPy.relation_name := name; RelationshipsPy.z3_func := None |}.

End Requests.

(** * Properties *)

(** ** The Python built-ins on examples *)

Example py_split_ex : Py.split "(" "parent(Alice, Bob)" = ["parent"; "Alice, Bob)"].
Proof. reflexivity. Qed.

Example py_strip_ex : Py.strip "  a b  " = "a b".
Proof. reflexivity. Qed.

Example py_int_ex : Py.int " -1_000 " = Some (-1000).
Proof. reflexivity. Qed.

Example py_int_bad : Py.int "5__0" = None /\ Py.int EmptyString = None /\ Py.int "1.5" = None.
Proof. repeat split; reflexivity. Qed.

Example py_float_ex : Py.float_of_str "2.5" = Some (Prim2SF 2.5%float).
Proof. vm_compute. reflexivity. Qed.

Example py_float_ex2 : Py.float_of_str "-1.25e-1" = Some (Prim2SF (-0.125)%float).
Proof. vm_compute. reflexivity. Qed.

Example py_float_ex3 : Py.float_of_str "0.1" = Some (Prim2SF 0x1.999999999999ap-4%float).
Proof. vm_compute. reflexivity. Qed.

Example py_float_bad : Py.float_of_str "1.4142135623?" = None.
Proof. reflexivity. Qed.

(** Whitespace outside ASCII: [strip] removes NBSP and NEL, [int] and
    [float] skip them; FS is removed by [strip] and refused by [int] and
    [float]. *)
Example py_strip_nbsp :
  Py.strip (String Inputs.nbsp (" Alice" ++ String Inputs.nel EmptyString)) = "Alice"
  ∧ Py.strip (String Inputs.fs "Alice") = "Alice".
Proof. split; reflexivity. Qed.

Example py_int_nbsp :
  Py.int (String Inputs.nbsp ("5" ++ String Inputs.nel EmptyString)) = Some 5
  ∧ Py.int (String Inputs.fs "5") = None
  ∧ Py.float_of_str (String Inputs.nbsp "2.5") = Some (Prim2SF 2.5%float)
  ∧ Py.float_of_str (String Inputs.fs "2.5") = None.
Proof. vm_compute. done. Qed.

Example parse_query_nbsp :
  RelationshipsPy.parse_query ("sibling(Bob," ++ String Inputs.nbsp "Alice)")
    (Facts.entities_of [Backends.sibling_fact])
    (Facts.relations_of [Backends.sibling_fact])
  = Success (RelationshipsPy.App (RelationshipsPy.Function "sibling")
               (RelationshipsPy.Const "Bob") (RelationshipsPy.Const "Alice"))
  ∧ Semantics.clean_name (String Inputs.nbsp "Alice") = false.
Proof. vm_compute. done. Qed.

(** ** Text lemmas *)

Section Text.

Lemma all_chars_app P s t :
  all_chars P (s ++ t) = all_chars P s && all_chars P t.
Proof. induction s as [|c s IH]; simpl; [done|]. by rewrite IH, andb_assoc. Qed.

Lemma all_chars_impl (P Q : ascii -> bool) s :
  (∀ c, P c = true → Q c = true) → all_chars P s = true → all_chars Q s = true.
Proof.
  intros HPQ. induction s as [|c s IH]; simpl; [done|].
  intros [Hc Hs]%andb_true_iff. rewrite (HPQ c Hc). by apply IH.
Qed.

Lemma contains_app sep s t :
  Py.contains sep (s ++ t) = Py.contains sep s || Py.contains sep t.
Proof. induction s as [|c s IH]; simpl; [done|]. by rewrite IH, orb_assoc. Qed.

Lemma contains_all_chars sep s :
  Py.contains sep s = negb (all_chars (fun c => negb (Ascii.eqb c sep)) s).
Proof.
  induction s as [|c s IH]; simpl; [done|].
  rewrite IH. by destruct (Ascii.eqb c sep), (all_chars _ s).
Qed.

Lemma rstrip_id s :
  all_chars (fun c => negb (Py.isspace c)) s = true → Py.rstrip s = s.
Proof.
  induction s as [|c s IH]; simpl; [done|].
  intros [Hc Hs]%andb_true_iff. rewrite (IH Hs).
  destruct s; [|done]. apply negb_true_iff in Hc. by rewrite Hc.
Qed.

Lemma lstrip_id s :
  all_chars (fun c => negb (Py.isspace c)) s = true → Py.lstrip s = s.
Proof.
  destruct s as [|c s]; simpl; [done|].
  intros [Hc _]%andb_true_iff. apply negb_true_iff in Hc. by rewrite Hc.
Qed.

Lemma strip_id s :
  all_chars (fun c => negb (Py.isspace c)) s = true → Py.strip s = s.
Proof. intros H. unfold Py.strip. by rewrite (lstrip_id s H), (rstrip_id s H). Qed.

(** A text of visible ASCII characters is read by [int()] and [float()] as
    it stands. *)
Lemma number_text_id s : all_chars plain s = true → Py.number_text s = s.
Proof.
  intros H. unfold Py.number_text.
  assert (Hascii : Py.to_ascii s = s).
  { induction s as [|c s IH]; [done|]. simpl in *.
    apply andb_true_iff in H as [Hc Hs]. rewrite (IH Hs).
    unfold plain in Hc. apply andb_true_iff in Hc as [_ Hc]. by rewrite Hc. }
  assert (Hleft : Py.c_lstrip s = s).
  { destruct s as [|c s]; [done|]. simpl in *.
    apply andb_true_iff in H as [Hc _].
    unfold plain in Hc. apply andb_true_iff in Hc as [Hc _].
    apply negb_true_iff in Hc. by rewrite Hc. }
  assert (Hright : Py.c_rstrip s = s).
  { clear Hascii Hleft. induction s as [|c s IH]; [done|]. simpl in *.
    apply andb_true_iff in H as [Hc Hs]. rewrite (IH Hs).
    destruct s; [|done].
    unfold plain in Hc. apply andb_true_iff in Hc as [Hc _].
    apply negb_true_iff in Hc. by rewrite Hc. }
  by rewrite Hascii, Hleft, Hright.
Qed.

(** [split] at a separator that occurs: the part before its first
    occurrence comes first. *)
Lemma split_app sep s t :
  Py.contains sep s = false →
  Py.split sep (s ++ String sep t) = s :: Py.split sep t.
Proof.
  induction s as [|c s IH]; simpl.
  - by rewrite Ascii.eqb_refl.
  - intros [Hc Hs]%orb_false_iff. by rewrite Hc, (IH Hs).
Qed.

Lemma split_none sep s :
  Py.contains sep s = false → Py.split sep s = [s].
Proof.
  induction s as [|c s IH]; simpl; [done|].
  intros [Hc Hs]%orb_false_iff. by rewrite Hc, (IH Hs).
Qed.

Lemma split_nonempty sep s : Py.split sep s ≠ [].
Proof.
  induction s as [|c s IH]; simpl; [done|].
  destruct (Ascii.eqb c sep); [done|]. by destruct (Py.split sep s).
Qed.

(** A separator that occurs has a first occurrence. *)
Lemma contains_first sep s :
  Py.contains sep s = true →
  ∃ a b, s = a ++ String sep b ∧ Py.contains sep a = false.
Proof.
  induction s as [|c s IH]; simpl; [done|].
  destruct (Ascii.eqb c sep) eqn:Hc.
  - intros _. apply Ascii.eqb_eq in Hc as ->. by exists EmptyString, s.
  - simpl. intros Hs. destruct (IH Hs) as (a & b & -> & Ha).
    exists (String c a), b. split; [done|]. simpl. by rewrite Hc, Ha.
Qed.

(** A two-part split determines the text. *)
Lemma split_two_inv sep s a b :
  Py.split sep s = [a; b] →
  s = a ++ String sep b ∧ Py.contains sep a = false ∧ Py.contains sep b = false.
Proof.
  destruct (Py.contains sep s) eqn:Hs.
  - destruct (contains_first sep s Hs) as (a' & b' & -> & Ha').
    rewrite (split_app sep a' b' Ha').
    destruct (Py.contains sep b') eqn:Hb'.
    + destruct (contains_first sep b' Hb') as (a2 & b2 & -> & Ha2).
      rewrite (split_app sep a2 b2 Ha2).
      intros [= <- _ Hnil]. by destruct (split_nonempty sep b2).
    + rewrite (split_none sep b' Hb'). by intros [= <- <-].
  - by rewrite (split_none sep s Hs).
Qed.

(** *** Decimal text of integers *)

Import Canonical.

Lemma digit_val_char d : 0 <= d < 10 → Py.digit_val (digit_char d) = Some d.
Proof.
  intros Hd.
  assert (d = 0 ∨ d = 1 ∨ d = 2 ∨ d = 3 ∨ d = 4 ∨ d = 5 ∨ d = 6 ∨ d = 7
          ∨ d = 8 ∨ d = 9) as Hcases by lia.
  repeat (destruct Hcases as [->|Hcases]; [reflexivity|]). by subst.
Qed.

Lemma digits_of_parse fuel : ∀ n rest,
  0 <= n < 2 ^ Z.of_nat (S fuel) →
  ∃ k, 1 <= k ∧ (k = 1 ∨ 10 ^ (k - 1) <= n) ∧
    ∀ a cnt ad,
      Py.digitpart_from a cnt ad (digits_of (S fuel) n rest)
      = Py.digitpart_from (a * 10 ^ k + n) (cnt + k) true rest.
Proof.
  assert (Hone : ∀ fuel n rest, 0 <= n < 10 →
    ∀ a cnt ad,
      Py.digitpart_from a cnt ad (digits_of (S fuel) n rest)
      = Py.digitpart_from (a * 10 ^ 1 + n) (cnt + 1) true rest).
  { intros f n rest Hn a cnt ad. cbn [digits_of].
    destruct (Z.ltb_spec n 10) as [_|?]; [|lia].
    cbn [Py.digitpart_from].
    rewrite Z.mod_small by lia. rewrite (digit_val_char n) by lia.
    f_equal; lia. }
  induction fuel as [|fuel IH]; intros n rest Hn.
  - exists 1. split; [lia|]. split; [left; reflexivity|].
    apply Hone. change (2 ^ Z.of_nat 1) with 2 in Hn. lia.
  - destruct (Z.ltb_spec n 10) as [Hlt|Hge].
    + exists 1. split; [lia|]. split; [left; reflexivity|]. apply Hone; lia.
    + assert (Hdiv : 0 <= n / 10 < 2 ^ Z.of_nat (S fuel)).
      { split; [apply Z.div_pos; lia|].
        apply Z.div_lt_upper_bound; [lia|].
        rewrite (Nat2Z.inj_succ (S fuel)), Z.pow_succ_r in Hn by lia. lia. }
      destruct (IH (n / 10) (String (digit_char (n mod 10)) rest) Hdiv)
        as (k & Hk1 & Hk & Hparse).
      exists (k + 1). split; [lia|]. split.
      * right. replace (k + 1 - 1) with k by lia.
        destruct Hk as [->|Hk]; [simpl; lia|].
        replace k with (Z.succ (k - 1)) by lia.
        rewrite Z.pow_succ_r by lia.
        pose proof (Z.div_mod n 10). pose proof (Z.mod_pos_bound n 10). lia.
      * intros a cnt ad. change (digits_of (S (S fuel)) n rest)
          with (let acc' := String (digit_char (n mod 10)) rest in
                if n <? 10 then acc' else digits_of (S fuel) (n / 10) acc').
        cbv zeta. destruct (Z.ltb_spec n 10) as [?|_]; [lia|].
        rewrite Hparse. cbn [Py.digitpart_from].
        rewrite digit_val_char by (apply Z.mod_pos_bound; lia).
        rewrite Z.pow_add_r by lia.
        pose proof (Z.div_mod n 10). f_equal; lia.
Qed.

Lemma digits_of_all_chars (P : ascii -> bool) fuel : ∀ n rest,
  (∀ d, 0 <= d < 10 → P (digit_char d) = true) →
  0 <= n →
  all_chars P rest = true → all_chars P (digits_of fuel n rest) = true.
Proof.
  induction fuel as [|fuel IH]; intros n rest HP Hn Hrest; [done|].
  cbn [digits_of].
  assert (all_chars P (String (digit_char (n mod 10)) rest) = true) as Hacc.
  { simpl. rewrite HP by (apply Z.mod_pos_bound; lia). done. }
  destruct (n <? 10); [done|]. apply IH; [done| |done].
  apply Z.div_pos; lia.
Qed.

Lemma digits_fuel_ok n : 0 <= n → 0 <= n < 2 ^ Z.of_nat (S (Z.to_nat (Z.log2 n))).
Proof.
  intros Hn. split; [done|].
  rewrite Nat2Z.inj_succ, Z2Nat.id by apply Z.log2_nonneg.
  destruct (decide (n = 0)) as [->|Hne]; [done|].
  apply Z.log2_spec. lia.
Qed.

Ltac each_ascii c :=
  destruct c as [[] [] [] [] [] [] [] []]; vm_compute; try reflexivity; try discriminate.

Lemma is_digit_char d : 0 <= d < 10 → is_digit (digit_char d) = true.
Proof. intros Hd. unfold is_digit. by rewrite digit_val_char. Qed.

Lemma is_digit_not_space c : is_digit c = true → negb (Py.isspace c) = true.
Proof. each_ascii c. Qed.

Lemma is_digit_plain c : is_digit c = true → plain c = true.
Proof. each_ascii c. Qed.

Lemma is_digit_not_slash c : is_digit c = true → negb (Ascii.eqb c "/") = true.
Proof. each_ascii c. Qed.

Lemma split_sign_digit c r :
  is_digit c = true → Py.split_sign (String c r) = (false, String c r).
Proof. destruct c as [[] [] [] [] [] [] [] []]; vm_compute; (discriminate || reflexivity). Qed.

Lemma digits_all_digit n : 0 <= n → all_chars is_digit (digits n) = true.
Proof.
  intros Hn. apply digits_of_all_chars; [apply is_digit_char|done|done].
Qed.

(** The digits of [n] parse back to [n]. *)
Lemma digitpart_digits n :
  0 <= n →
  ∃ k, (k = 1 ∨ 10 ^ (k - 1) <= n) ∧ Py.digitpart (digits n) = Some (n, k).
Proof.
  intros Hn.
  destruct (digits_of_parse (Z.to_nat (Z.log2 n)) n EmptyString (digits_fuel_ok n Hn))
    as (k & _ & Hk & Hparse).
  exists k. split; [done|]. unfold Py.digitpart, digits. rewrite Hparse.
  simpl. f_equal.
Qed.

Lemma digits_head n :
  0 <= n → ∃ c r, digits n = String c r ∧ is_digit c = true.
Proof.
  intros Hn. pose proof (digits_all_digit n Hn) as Hall.
  destruct (digitpart_digits n Hn) as (k & _ & Hparse).
  destruct (digits n) as [|c r]; [discriminate|].
  simpl in Hall. apply andb_true_iff in Hall as [Hc _]. eauto.
Qed.

Lemma digit_count_bound n k :
  0 <= n < 10 ^ Py.int_max_str_digits → k = 1 ∨ 10 ^ (k - 1) <= n →
  (Py.int_max_str_digits <? k) = false.
Proof.
  assert (1 <= Py.int_max_str_digits) as Hcap by done.
  generalize dependent Py.int_max_str_digits. intros cap Hcap Hn Hk.
  apply Z.ltb_ge. destruct Hk as [->|Hk]; [done|].
  destruct (Z.le_gt_cases k cap) as [|Hbig]; [done|].
  assert (10 ^ cap <= 10 ^ (k - 1)) by (apply Z.pow_le_mono_r; lia).
  lia.
Qed.

(** [int] reads back what [str_int] prints. *)
Lemma int_str_int p :
  Z.abs p < 10 ^ Py.int_max_str_digits → Py.int (str_int p) = Some p.
Proof.
  intros Hp. unfold str_int. destruct (Z.ltb_spec p 0) as [Hneg|Hpos].
  - assert (0 <= - p) as Hn by lia.
    destruct (digitpart_digits (- p) Hn) as (k & Hk & Hparse).
    unfold Py.int. rewrite number_text_id.
    + cbn [Py.split_sign]. rewrite Hparse, (digit_count_bound (- p) k) by (done || lia).
      f_equal. lia.
    + simpl. apply (all_chars_impl is_digit); [apply is_digit_plain|].
      by apply digits_all_digit.
  - destruct (digitpart_digits p Hpos) as (k & Hk & Hparse).
    destruct (digits_head p Hpos) as (c & r & Hd & Hc).
    unfold Py.int. rewrite number_text_id.
    + rewrite Hd, (split_sign_digit c r Hc), <- Hd, Hparse.
      by rewrite (digit_count_bound p k) by (done || lia).
    + apply (all_chars_impl is_digit); [apply is_digit_plain|].
      by apply digits_all_digit.
Qed.

(** Beyond the digit limit [int] raises; it never reads another integer. *)
Lemma int_str_int_or_none p :
  Py.int (str_int p) = Some p ∨ Py.int (str_int p) = None.
Proof.
  unfold str_int. destruct (Z.ltb_spec p 0) as [Hneg|Hpos].
  - assert (0 <= - p) as Hn by lia.
    destruct (digitpart_digits (- p) Hn) as (k & Hk & Hparse).
    unfold Py.int. rewrite number_text_id.
    + cbn [Py.split_sign]. rewrite Hparse.
      destruct (Py.int_max_str_digits <? k); [by right|left]. f_equal. lia.
    + simpl. apply (all_chars_impl is_digit); [apply is_digit_plain|].
      by apply digits_all_digit.
  - destruct (digitpart_digits p Hpos) as (k & Hk & Hparse).
    destruct (digits_head p Hpos) as (c & r & Hd & Hc).
    unfold Py.int. rewrite number_text_id.
    + rewrite Hd, (split_sign_digit c r Hc), <- Hd, Hparse.
      destruct (Py.int_max_str_digits <? k); [by right|by left].
    + apply (all_chars_impl is_digit); [apply is_digit_plain|].
      by apply digits_all_digit.
Qed.

Lemma str_int_no_slash p : Py.contains "/" (str_int p) = false.
Proof.
  rewrite contains_all_chars. apply negb_false_iff.
  unfold str_int. destruct (Z.ltb_spec p 0).
  - simpl. apply (all_chars_impl is_digit); [apply is_digit_not_slash|].
    apply digits_all_digit. lia.
  - apply (all_chars_impl is_digit); [apply is_digit_not_slash|].
    by apply digits_all_digit.
Qed.

Lemma split_ratio p q :
  Py.contains "/" (ratio p q) = true
  ∧ Py.split "/" (ratio p q) = [str_int p; str_int q].
Proof.
  unfold ratio. split.
  - rewrite contains_app. simpl. by rewrite orb_true_r.
  - change (str_int p ++ "/" ++ str_int q) with (str_int p ++ String "/" (str_int q)).
    rewrite split_app by apply str_int_no_slash.
    by rewrite split_none by apply str_int_no_slash.
Qed.

End Text.

Example str_int_ex : Canonical.ratio (-5) 2 = "-5/2" ∧ Canonical.str_int 0 = "0" ∧ Canonical.str_int 1234567890 = "1234567890".
Proof. repeat split; reflexivity. Qed.

(** ** The constraint pipeline *)

Section SolverFacts.

Import SolverPy.

Variable BoolRef : Type.
Variable py_eval : string -> gmap string Binding -> Raises BoolRef.
Variable z3_add : list BoolRef -> Raises unit.
Variable z3_check : list BoolRef -> Raises CheckSatResult.
Variable z3_model : list BoolRef -> Raises ModelRef.
Variable z3_declare : Z3Ref -> Raises unit.

Local Abbreviation create_constraints := (create_constraints BoolRef py_eval).
Local Abbreviation create_constraints_loop := (create_constraints_loop BoolRef py_eval).
Local Abbreviation parse_constraint := (parse_constraint BoolRef py_eval).
Local Abbreviation solve := (solve BoolRef z3_add z3_check z3_model).
Local Abbreviation solve_problem :=
  (solve_problem BoolRef py_eval z3_add z3_check z3_model z3_declare).
Local Abbreviation create_variable := (create_variable z3_declare).
Local Abbreviation create_variables_loop := (create_variables_loop z3_declare).
Local Abbreviation create_variables := (create_variables z3_declare).

(** A declaration that succeeds returns the variable's own name. *)
Lemma create_variable_name v name r :
  create_variable v = Success (name, r) → name = var_name v.
Proof.
  unfold SolverPy.create_variable, new_symbol.
  destruct (var_type v) as [[]|text]; [| | | |done];
    destruct (z3_declare _); congruence.
Qed.

Lemma create_variables_loop_spec vs : ∀ d vars,
  create_variables_loop d vs = Success vars →
  ∀ name, is_Some (vars !! name) ↔
          (name ∈ var_name <$> vs ∨ is_Some (d !! name)).
Proof.
  induction vs as [|v vs IH]; intros d vars; simpl.
  - intros [= <-] name. rewrite elem_of_nil. tauto.
  - destruct (create_variable v) as [[n r]|] eqn:Hv; [|done].
    apply create_variable_name in Hv as ->.
    intros Hloop name. rewrite (IH _ _ Hloop), elem_of_cons.
    destruct (decide (var_name v = name)) as [<-|Hne].
    + rewrite lookup_insert_eq. split; [eauto|]. intros _. right; eauto.
    + rewrite lookup_insert_ne by done. split; [tauto|].
      intros [[?|?]|?]; [congruence|tauto|tauto].
Qed.

(** A symbol table that is returned has exactly the declared names. *)
Lemma create_variables_spec vs vars :
  create_variables vs = Success vars →
  ∀ name, is_Some (vars !! name) ↔ name ∈ var_name <$> vs.
Proof.
  intros H name. rewrite (create_variables_loop_spec vs ∅ vars H), lookup_empty.
  split; [|tauto]. intros [?|[? ?]]; [done|discriminate].
Qed.

(** The loop of [extract_solution], by lookups. *)
Lemma extract_values_lookup (model : ModelRef) (vars : gmap string Z3Ref) name :
  map_fold (fun name z3_var (values : gmap string Z3Value) =>
              match get_z3_value model z3_var with
              | Some value => <[name := value]> values
              | None => values
              end) ∅ vars !! name
  = vars !! name ≫= get_z3_value model.
Proof.
  revert name.
  apply (map_fold_weak_ind (fun (r : gmap string Z3Value) (m : gmap string Z3Ref) =>
           ∀ name, r !! name = m !! name ≫= get_z3_value model)).
  - intros name. by rewrite !lookup_empty.
  - intros i x m r Hi IH name.
    destruct (decide (i = name)) as [->|Hne].
    + rewrite lookup_insert_eq. simpl.
      destruct (get_z3_value model x) eqn:Hx.
      * by rewrite lookup_insert_eq.
      * rewrite IH, Hi. done.
    + rewrite (lookup_insert_ne m) by done. rewrite <- IH.
      destruct (get_z3_value model x); [by rewrite lookup_insert_ne|done].
Qed.

Lemma extract_solution_total r m vars :
  ∃ sol, extract_solution r m vars = Success sol
    ∧ status sol = str_result r
    ∧ is_satisfiable sol = bool_decide (r = sat)
    ∧ (∀ name, values sol !! name =
         match bool_decide (r = sat), m with
         | true, Some model => vars !! name ≫= get_z3_value model
         | _, _ => None
         end).
Proof.
  unfold extract_solution. eexists. split; [reflexivity|]. simpl.
  split; [done|]. split; [done|]. intros name.
  destruct (bool_decide (r = sat)); [|apply lookup_empty].
  destruct m; [apply extract_values_lookup|apply lookup_empty].
Qed.

Lemma solve_problem_inv problem sol :
  solve_problem problem = Success sol →
  ∃ vars cs r m,
    create_variables (variables problem) = Success vars
    ∧ fst (create_constraints (constraints problem) vars []) = Success cs
    ∧ solve vars cs = Success (r, m)
    ∧ extract_solution r m vars = Success sol.
Proof.
  unfold SolverPy.solve_problem. intros H.
  destruct (create_variables _) as [vars|]; [|discriminate].
  destruct (fst _) as [cs|] eqn:Hcs; [|discriminate].
  destruct (SolverPy.solve _ _ _ _ _ _) as [[r m]|] eqn:Hsolve; [|discriminate].
  exists vars, cs, r, m. auto.
Qed.

Lemma solve_inv vars cs r m :
  solve vars cs = Success (r, m) →
  z3_check cs = Ret r
  ∧ (r = sat → ∃ model, z3_model cs = Ret model ∧ m = Some model)
  ∧ (r ≠ sat → m = None).
Proof.
  unfold SolverPy.solve. destruct (z3_add cs); [|discriminate].
  destruct (z3_check cs) as [r'|]; [|discriminate].
  destruct (decide (r' = sat)) as [->|Hne].
  - destruct (z3_model cs) as [model|]; [|discriminate].
    intros [= <- <-]. split; [done|]. split; [eauto|done].
  - intros [= <- <-]. split; [done|]. split; [done|done].
Qed.

(** *** Compilation of a batch *)

Lemma create_constraints_loop_prefix vars pre : ∀ acc rest log,
  Forall (fun c => ∃ v, py_eval (expression c) (local_dict vars) = Ret v) pre →
  ∃ vs, length vs = length pre ∧
    create_constraints_loop acc (pre ++ rest)%list vars log
    = create_constraints_loop (acc ++ vs)%list rest vars
        (log ++ (expression <$> pre))%list.
Proof.
  induction pre as [|c pre IH]; intros acc rest log Hok.
  - exists []. by rewrite !app_nil_r.
  - inversion Hok as [|? ? [v Hv] Hpre]; subst.
    destruct (IH (acc ++ [v])%list rest (log ++ [expression c])%list Hpre)
      as (vs & Hlen & Heq).
    exists (v :: vs). split; [simpl; by rewrite Hlen|].
    simpl. unfold SolverPy.parse_constraint. rewrite Hv. cbn [fst snd].
    rewrite Heq. by rewrite <- !app_assoc.
Qed.

Lemma first_failing_constraint vars (cs : list Constraint_) :
  (∃ c, c ∈ cs ∧ ∃ e, py_eval (expression c) (local_dict vars) = Raise e) →
  ∃ pre c post e,
    cs = (pre ++ c :: post)%list
    ∧ Forall (fun c' => ∃ v, py_eval (expression c') (local_dict vars) = Ret v) pre
    ∧ py_eval (expression c) (local_dict vars) = Raise e.
Proof.
  induction cs as [|c0 cs IH]; intros (c & Hin & e & He).
  - by apply elem_of_nil in Hin.
  - destruct (py_eval (expression c0) (local_dict vars)) as [v0|e0] eqn:H0.
    + apply elem_of_cons in Hin as [->|Hin]; [congruence|].
      destruct IH as (pre & c' & post & e' & -> & Hpre & He'); [eauto|].
      exists (c0 :: pre), c', post, e'. split; [done|]. split; [|done].
      constructor; eauto.
    + exists [], c0, cs, e0. split; [done|]. split; [constructor|done].
Qed.

(** C7. Fail-fast compilation: when some constraint of a batch does not
    evaluate, the batch stops at the first such constraint [c]: the result
    is the failure "Error parsing constraint 'EXPR': ..." naming the
    expression of [c], the only expressions evaluated are those before [c]
    and [c] itself, no list of constraints is returned, and [solve_problem]
    returns that same failure. *)
Theorem create_constraints_fail_fast (cs : list Constraint_)
    (vars : gmap string Z3Ref) (log : EvalLog) :
  (∃ c, c ∈ cs ∧ ∃ e, py_eval (expression c) (local_dict vars) = Raise e) →
  ∃ pre c post e,
    cs = (pre ++ c :: post)%list
    ∧ Forall (fun c' => ∃ v, py_eval (expression c') (local_dict vars) = Ret v) pre
    ∧ py_eval (expression c) (local_dict vars) = Raise e
    ∧ create_constraints cs vars log
      = (Failure ("Error parsing constraint '" ++ expression c ++ "': " ++ e),
         (log ++ (expression <$> pre) ++ [expression c])%list)
    ∧ ∀ problem,
        create_variables (variables problem) = Success vars →
        constraints problem = cs →
        solve_problem problem
        = Failure ("Error parsing constraint '" ++ expression c ++ "': " ++ e).
Proof.
  intros Hbad.
  destruct (first_failing_constraint vars cs Hbad) as (pre & c & post & e & -> & Hpre & He).
  exists pre, c, post, e. split; [done|]. split; [done|]. split; [done|].
  assert (Hrun : ∀ log', create_constraints (pre ++ c :: post)%list vars log'
      = (Failure ("Error parsing constraint '" ++ expression c ++ "': " ++ e),
         (log' ++ (expression <$> pre) ++ [expression c])%list)).
  { intros log'. unfold SolverPy.create_constraints.
    destruct (create_constraints_loop_prefix vars pre [] (c :: post) log' Hpre)
      as (vs & _ & ->).
    simpl. unfold SolverPy.parse_constraint. rewrite He.
    by rewrite <- app_assoc. }
  split; [apply Hrun|].
  intros problem Hvars Hcs. unfold SolverPy.solve_problem.
  rewrite Hvars, Hcs, Hrun. done.
Qed.

(** *** The solution record *)

(** C5. When the solve step returns the verdict [r], [solve_problem]
    returns a solution whose [status] is the text of [r], whose
    [is_satisfiable] is true exactly when [r] is [sat]; for [unknown] the
    status is "unknown" and [is_satisfiable] is false. The verdict is the
    one [check] gave. *)
Theorem solution_status_is_result problem vars cs r m :
  create_variables (variables problem) = Success vars →
  fst (create_constraints (constraints problem) vars []) = Success cs →
  solve vars cs = Success (r, m) →
  ∃ sol,
    solve_problem problem = Success sol
    ∧ z3_check cs = Ret r
    ∧ status sol = str_result r
    ∧ (is_satisfiable sol = true ↔ r = sat)
    ∧ (r = unknown → is_satisfiable sol = false ∧ status sol = "unknown")
    ∧ (r = unsat → is_satisfiable sol = false ∧ status sol = "unsat").
Proof.
  intros Hvars Hcs Hsolve.
  destruct (extract_solution_total r m vars) as (sol & Hsol & Hst & Hsat & _).
  exists sol. unfold SolverPy.solve_problem. rewrite Hvars, Hcs, Hsolve.
  split; [done|]. split; [by apply (solve_inv vars cs r m)|].
  split; [done|]. rewrite Hst, Hsat.
  split; [by rewrite bool_decide_eq_true|].
  split; intros ->; done.
Qed.

(** C10. The keys of [values] are names of declared variables, whatever
    the model holds, and [values] is empty unless the verdict is [sat]. *)
Theorem values_keys_are_declared problem sol :
  solve_problem problem = Success sol →
  (∀ name, is_Some (values sol !! name) → name ∈ var_name <$> variables problem)
  ∧ (is_satisfiable sol = false → values sol = ∅)
  ∧ ∃ cs r, z3_check cs = Ret r ∧ status sol = str_result r
            ∧ (r ≠ sat → values sol = ∅).
Proof.
  intros H. destruct (solve_problem_inv problem sol H) as (vars & cs & r & m & Hv & Hc & Hs & He).
  destruct (extract_solution_total r m vars) as (sol' & Hsol & Hst & Hsat & Hval).
  assert (sol' = sol) as -> by congruence.
  pose proof (create_variables_spec (variables problem) vars Hv) as Hdom.
  assert (Hempty : r ≠ sat → values sol = ∅).
  { intros Hr. apply map_eq. intros name. rewrite Hval, lookup_empty.
    by rewrite bool_decide_eq_false_2. }
  split; [|split].
  - intros name [v Hname]. apply Hdom. rewrite Hval in Hname.
    destruct (bool_decide (r = sat)); [|discriminate].
    destruct m as [model|]; [|discriminate].
    destruct (vars !! name); [eauto|discriminate].
  - rewrite Hsat. intros Hr. apply Hempty. by apply bool_decide_eq_false in Hr.
  - exists cs, r. split; [by apply (solve_inv vars cs r m)|]. done.
Qed.

End SolverFacts.


(** ** Conversion of integers to doubles *)

Section IntToFloat.

Ltac float_consts :=
  change (SpecFloat.emin prec emax) with (-1074) in *;
  change prec with 53 in *; change emax with 1024 in *.

Lemma digits2_pos_size p : digits2_pos p = Pos.size p.
Proof. induction p as [p IH|p IH|]; simpl; by rewrite ?IH. Qed.

(** A positive number of [d] binary digits lies in [2^(d-1), 2^d). *)
Lemma Zdigits2_bounds m :
  0 < m → 0 < Zdigits2 m ∧ 2 ^ (Zdigits2 m - 1) <= m < 2 ^ Zdigits2 m.
Proof.
  destruct m as [|p|p]; try lia. intros _. simpl. rewrite digits2_pos_size.
  split; [lia|]. split.
  - pose proof (Pos.size_le p) as H.
    assert (2 ^ Z.pos (Pos.size p) <= 2 * Z.pos p) as H'.
    { rewrite <- Pos2Z.inj_pow. change 2 with (Z.pos 2). rewrite <- Pos2Z.inj_mul. lia. }
    replace (Z.pos (Pos.size p)) with (Z.succ (Z.pos (Pos.size p) - 1)) in H' by lia.
    rewrite Z.pow_succ_r in H' by lia. lia.
  - pose proof (Pos.size_gt p) as H. rewrite <- Pos2Z.inj_pow. lia.
Qed.

Lemma shr_1_m mrs : 0 <= shr_m mrs → shr_m (shr_1 mrs) = shr_m mrs / 2.
Proof.
  destruct mrs as [m r s]. simpl. destruct m as [|[p|p|]|p]; intros H; try lia; simpl.
  - done.
  - rewrite (Pos2Z.inj_xI p). apply Z.div_unique with 1; lia.
  - rewrite (Pos2Z.inj_xO p). apply Z.div_unique with 0; lia.
  - done.
Qed.

Lemma iter_shr_1_m p : ∀ mrs,
  0 <= shr_m mrs → shr_m (SpecFloat.iter_pos shr_1 p mrs) = shr_m mrs / 2 ^ Z.pos p.
Proof.
  assert (Hnn : ∀ m k, 0 <= m → 0 <= m / 2 ^ Z.pos k).
  { intros m k Hm. apply Z.div_pos; [done|]. apply Z.pow_pos_nonneg; lia. }
  assert (H2 : ∀ m, 0 <= m → 0 <= m / 2) by (intros; apply Z.div_pos; lia).
  induction p as [p IH|p IH|]; intros mrs Hm; simpl.
  - assert (Ha : 0 <= shr_m (shr_1 mrs)) by (rewrite shr_1_m; auto).
    assert (Hb : 0 <= shr_m (SpecFloat.iter_pos shr_1 p (shr_1 mrs)))
      by (rewrite IH; auto).
    rewrite (IH _ Hb), (IH _ Ha), (shr_1_m _ Hm).
    rewrite !Z.div_div
      by first [apply Z.pow_pos_nonneg; lia | apply Z.pow_nonzero; lia | lia].
    assert (2 ^ Z.pos p~1 = 2 * 2 ^ Z.pos p * 2 ^ Z.pos p) as ->.
    { rewrite (Pos2Z.inj_xI p).
      replace (2 * Z.pos p + 1) with (Z.succ (Z.pos p + Z.pos p)) by lia.
      rewrite Z.pow_succ_r, Z.pow_add_r by lia. lia. }
    f_equal. lia.
  - assert (Hb : 0 <= shr_m (SpecFloat.iter_pos shr_1 p mrs)) by (rewrite IH; auto).
    rewrite (IH _ Hb), (IH _ Hm).
    rewrite !Z.div_div
      by first [apply Z.pow_pos_nonneg; lia | apply Z.pow_nonzero; lia | lia].
    assert (2 ^ Z.pos p~0 = 2 ^ Z.pos p * 2 ^ Z.pos p) as ->.
    { rewrite (Pos2Z.inj_xO p), <- (Z.add_diag (Z.pos p)).
      by rewrite Z.pow_add_r by lia. }
    done.
  - by rewrite shr_1_m.
Qed.

(** Rounding to the format's exponent keeps a positive mantissa positive,
    when the number is above the smallest subnormal. *)
Lemma shr_fexp_pos m e l :
  0 < m → emin < e + Zdigits2 m →
  0 < shr_m (fst (shr_fexp prec emax m e l))
  ∧ (shr_m (fst (shr_fexp prec emax m e l)) = m ∧ snd (shr_fexp prec emax m e l) = e
     ∨ emin <= snd (shr_fexp prec emax m e l)).
Proof.
  intros Hm He. destruct (Zdigits2_bounds m Hm) as (Hd & Hlo & Hhi).
  unfold shr_fexp, shr.
  assert (Hrec : shr_m (shr_record_of_loc m l) = m) by (by destruct l as [|[]]).
  set (n := fexp prec emax (Zdigits2 m + e) - e).
  assert (Hn : n = Z.max (Zdigits2 m + e - prec) emin - e) by done.
  destruct n as [|p|p] eqn:Hp; simpl.
  - rewrite Hrec. auto.
  - rewrite iter_shr_1_m by lia. rewrite Hrec. split.
    + apply Z.div_str_pos. split; [apply Z.pow_pos_nonneg; lia|].
      assert (2 ^ Z.pos p <= 2 ^ (Zdigits2 m - 1)); [|lia].
      apply Z.pow_le_mono_r; [lia|]. float_consts. lia.
    + right. lia.
  - rewrite Hrec. auto.
Qed.

Lemma round_nearest_even_ge m l : m <= round_nearest_even m l.
Proof. destruct l as [|[]]; simpl; try lia. destruct (Z.even m); lia. Qed.

Lemma Zdigits2_mono a b : 0 < a → a <= b → Zdigits2 a <= Zdigits2 b.
Proof.
  intros Ha Hab.
  destruct (Zdigits2_bounds a Ha) as (_ & Hlo & _).
  destruct (Zdigits2_bounds b ltac:(lia)) as (Hdb & _ & Hhi).
  destruct (Z.le_gt_cases (Zdigits2 a) (Zdigits2 b)) as [|Hgt]; [done|].
  assert (2 ^ Zdigits2 b <= 2 ^ (Zdigits2 a - 1)) by (apply Z.pow_le_mono_r; lia).
  lia.
Qed.

Lemma binary_round_aux_nonzero sx m e l s :
  0 < m → emin < e + Zdigits2 m →
  binary_round_aux prec emax sx m e l ≠ S754_zero s.
Proof.
  intros Hm He. unfold binary_round_aux.
  destruct (shr_fexp_pos m e l Hm He) as (H1 & Hcase).
  destruct (shr_fexp prec emax m e l) as [mrs' e'] eqn:Hshr. simpl in H1, Hcase.
  set (m2 := round_nearest_even (shr_m mrs') (loc_of_shr_record mrs')).
  assert (Hm2 : shr_m mrs' <= m2) by apply round_nearest_even_ge.
  assert (He2 : emin < e' + Zdigits2 m2).
  { destruct Hcase as [[Heq ->]|Hmin].
    - pose proof (Zdigits2_mono (shr_m mrs') m2 H1 Hm2). rewrite Heq in *. lia.
    - destruct (Zdigits2_bounds m2 ltac:(lia)). lia. }
  destruct (shr_fexp_pos m2 e' loc_Exact ltac:(lia) He2) as (H3 & _).
  destruct (shr_fexp prec emax m2 e' loc_Exact) as [mrs'' e''].
  simpl in H3. destruct (shr_m mrs'') as [|p|p]; try lia.
  by destruct (e'' <=? emax - prec).
Qed.

(** A nonzero integer does not convert to a zero. *)
Lemma float_of_int_nonzero q fq :
  q ≠ 0 → Py.float_of_int q = Some fq → ∀ s, fq ≠ S754_zero s.
Proof.
  intros Hq Hf s. unfold Py.float_of_int in Hf.
  destruct (Py.is_finite _); [|done]. injection Hf as <-.
  assert (Hround : ∀ sx p, binary_round prec emax sx p 0 ≠ S754_zero s).
  { intros sx p. unfold binary_round.
    destruct (shl_align p 0 (fexp prec emax (Z.pos (digits2_pos p) + 0)))
      as [mz ez] eqn:Hal.
    apply binary_round_aux_nonzero; [lia|].
    destruct (Zdigits2_bounds (Z.pos mz) ltac:(lia)) as (Hd & _).
    unfold shl_align in Hal.
    destruct (fexp prec emax (Z.pos (digits2_pos p) + 0) - 0) as [|d|d] eqn:Hdiff;
      injection Hal as <- <-; unfold fexp in *; float_consts; lia. }
  destruct q as [|p|p]; [done| |]; apply Hround.
Qed.


Lemma shr_fexp_exponent m e l :
  snd (shr_fexp prec emax m e l) = Z.max e (fexp prec emax (Zdigits2 m + e)).
Proof.
  unfold shr_fexp, shr.
  destruct (fexp prec emax (Zdigits2 m + e) - e) as [|p|p] eqn:Hn; simpl; lia.
Qed.

(** An integer of more than 1024 binary digits does not convert. *)
Lemma float_of_int_bound p fp :
  Py.float_of_int p = Some fp → Z.abs p < 2 ^ 1024.
Proof.
  intros Hf. destruct (Z.lt_ge_cases (Z.abs p) (2 ^ 1024)) as [|Hbig]; [done|].
  exfalso. unfold Py.float_of_int in Hf.
  assert (Hinf : ∀ sx m, 2 ^ 1024 <= Z.pos m →
            Py.is_finite (binary_round prec emax sx m 0) = false).
  { intros sx m Hm.
    destruct (Zdigits2_bounds (Z.pos m) ltac:(lia)) as (_ & _ & Hhi).
    assert (Hd : 1024 < Z.pos (digits2_pos m)).
    { destruct (Z.lt_ge_cases 1024 (Z.pos (digits2_pos m))) as [|Hle]; [done|].
      assert (2 ^ Z.pos (digits2_pos m) <= 2 ^ 1024)
        by (apply Z.pow_le_mono_r; lia).
      simpl in Hhi. lia. }
    unfold binary_round.
    assert (Hal : shl_align m 0 (fexp prec emax (Z.pos (digits2_pos m) + 0)) = (m, 0)).
    { unfold shl_align.
      destruct (fexp prec emax (Z.pos (digits2_pos m) + 0) - 0) as [|d|d] eqn:Hdiff;
        try done.
      unfold fexp in Hdiff. float_consts. lia. }
    rewrite Hal.
    pose proof (binary_round_aux_nonzero sx (Z.pos m) 0 loc_Exact) as Hnz.
    unfold binary_round_aux in *.
    pose proof (shr_fexp_exponent (Z.pos m) 0 loc_Exact) as He1.
    destruct (shr_fexp prec emax (Z.pos m) 0 loc_Exact) as [mrs' e'].
    set (m2 := round_nearest_even (shr_m mrs') (loc_of_shr_record mrs')) in *.
    pose proof (shr_fexp_exponent m2 e' loc_Exact) as He2.
    destruct (shr_fexp prec emax m2 e' loc_Exact) as [mrs'' e''].
    simpl in He1, He2.
    assert (972 <= e'').
    { unfold fexp in He1. simpl Zdigits2 in He1. float_consts. lia. }
    destruct (shr_m mrs'') as [|q|q].
    - exfalso. apply (Hnz sx); [lia| |done].
      simpl. float_consts. lia.
    - destruct (Z.leb_spec e'' (emax - prec)) as [Hle|_]; [|done].
      float_consts. lia.
    - done. }
  destruct p as [|m|m]; simpl in Hbig.
  - assert (0 < 2 ^ 1024) by (apply Z.pow_pos_nonneg; lia). lia.
  - simpl in Hf. by rewrite Hinf in Hf.
  - simpl in Hf. by rewrite Hinf in Hf.
Qed.

Lemma float_of_int_digits p fp :
  Py.float_of_int p = Some fp → Z.abs p < 10 ^ Py.int_max_str_digits.
Proof.
  intros Hf%float_of_int_bound.
  assert (2 ^ 1024 < 10 ^ Py.int_max_str_digits)
    by (apply Z.ltb_lt; vm_compute; reflexivity).
  lia.
Qed.

End IntToFloat.

(** ** Typed value extraction of reals *)

Section RealExtraction.

Import SolverPy.

(** The model value text "p/q" of a real symbol, when both integers convert
    to doubles and [q] is not zero, extracts as the quotient of the two
    doubles. *)
Lemma get_z3_value_ratio (model : ModelRef) (z3_var : Z3Ref) (v : ModelValue)
    (p q : Z) (fp fq : Py.float) :
  ref_sort z3_var = RealSort → model z3_var = Some v →
  mv_str v = Canonical.ratio p q →
  Py.float_of_int p = Some fp → Py.float_of_int q = Some fq → q ≠ 0 →
  get_z3_value model z3_var = Some (VFloat (SFdiv prec emax fp fq)).
Proof.
  intros Hsort Hm Hstr Hfp Hfq Hq.
  unfold get_z3_value, is_bool, is_int, is_real. rewrite Hm, Hsort, Hstr.
  destruct (split_ratio p q) as [-> ->].
  rewrite (int_str_int p (float_of_int_digits p fp Hfp)).
  rewrite (int_str_int q (float_of_int_digits q fq Hfq)). simpl.
  rewrite Hfp, Hfq. simpl. unfold Py.truediv.
  pose proof (float_of_int_nonzero q fq Hq Hfq) as Hnz.
  destruct fq; try done. by destruct (Hnz s).
Qed.

(** When one of the two integers does not convert to a double, nothing is
    extracted. *)
Lemma get_z3_value_overflow (model : ModelRef) (z3_var : Z3Ref) (v : ModelValue)
    (p q : Z) :
  ref_sort z3_var = RealSort → model z3_var = Some v →
  mv_str v = Canonical.ratio p q →
  Py.float_of_int p = None ∨ Py.float_of_int q = None →
  get_z3_value model z3_var = None.
Proof.
  intros Hsort Hm Hstr Hover.
  unfold get_z3_value, is_bool, is_int, is_real. rewrite Hm, Hsort, Hstr.
  destruct (split_ratio p q) as [-> ->].
  destruct (int_str_int_or_none p) as [-> | ->]; [|done]. simpl.
  destruct (Py.float_of_int p) as [fp|] eqn:Hp; [|done]. simpl.
  destruct (int_str_int_or_none q) as [-> | ->]; [|done]. simpl.
  destruct Hover as [?|Hq]; [done|]. by rewrite Hq.
Qed.

(** C6, as the code has it. For a real-sorted symbol bound in the model:
    if the canonical text is "p/q" for integers [p], [q] that convert to
    doubles [fp], [fq] without overflow, [q] not zero, the extracted value
    is the double quotient [fp / fq] of the two doubles; if [p] or [q]
    does not convert to a double, nothing is extracted, whatever the
    quotient of [p] and [q] is; if the text has no "/", the value is
    [float] of the text; and the text "5/2" extracts as the double 2.5. *)
Theorem real_value_extraction (model : ModelRef) (z3_var : Z3Ref) (v : ModelValue) :
  ref_sort z3_var = RealSort → model z3_var = Some v →
  (∀ p q fp fq,
     mv_str v = Canonical.ratio p q →
     Py.float_of_int p = Some fp → Py.float_of_int q = Some fq → q ≠ 0 →
     get_z3_value model z3_var = Some (VFloat (SFdiv prec emax fp fq)))
  ∧ (∀ p q,
       mv_str v = Canonical.ratio p q →
       Py.float_of_int p = None ∨ Py.float_of_int q = None →
       get_z3_value model z3_var = None)
  ∧ (Py.contains "/" (mv_str v) = false →
     get_z3_value model z3_var = VFloat <$> Py.float_of_str (mv_str v))
  ∧ (mv_str v = Canonical.ratio 5 2 →
     get_z3_value model z3_var = Some (VFloat (Prim2SF 2.5%float))).
Proof.
  intros Hsort Hm. split; [|split; [|split]].
  - intros p q fp fq. by apply get_z3_value_ratio.
  - intros p q. by apply get_z3_value_overflow.
  - intros Hno. unfold get_z3_value, is_bool, is_int, is_real.
    by rewrite Hm, Hsort, Hno.
  - intros Hstr.
    by rewrite (get_z3_value_ratio model z3_var v 5 2
                  (S754_finite false 5629499534213120 (-50))
                  (S754_finite false 4503599627370496 (-51))).
Qed.

End RealExtraction.

(** C6 as stated fails, in two ways. The ratio (2^53 + 1) / 7 is in
    lowest terms and extracts as 1286742750677284.5, the quotient of the
    doubles nearest to numerator and denominator, although the double
    1286742750677284.75 is closer to the quotient of the two integers. The
    ratio (10^309 + 1) / (10^309 - 1) is in lowest terms and within 2^-60
    of 1, yet nothing is extracted for it, since its numerator does not
    convert to a double. *)
Lemma quotient_is_rounded_twice_or_omitted :
  Z.gcd (2 ^ 53 + 1) 7 = 1
  ∧ SolverPy.get_z3_value (Inputs.ratio_model (2 ^ 53 + 1) 7) (SolverPy.Real "x")
    = Some (SolverPy.VFloat (Prim2SF 1286742750677284.5%float))
  ∧ Exact.closer_to_quotient (2 ^ 53 + 1) 7
      (Prim2SF 1286742750677284.75%float) (Prim2SF 1286742750677284.5%float) = true
  ∧ Z.gcd (10 ^ 309 + 1) (10 ^ 309 - 1) = 1
  ∧ Exact.closer_to_quotient (10 ^ 309 + 1) (10 ^ 309 - 1)
      (Prim2SF 1%float) (Prim2SF 0x1.0000000000001p0%float) = true
  ∧ Z.abs (1 * (10 ^ 309 - 1) - (10 ^ 309 + 1)) * 2 ^ 60 < 10 ^ 309 - 1
  ∧ Py.float_of_int (10 ^ 309 + 1) = None
  ∧ SolverPy.get_z3_value (Inputs.ratio_model (10 ^ 309 + 1) (10 ^ 309 - 1))
      (SolverPy.Real "x") = None.
Proof. vm_compute. done. Qed.

Lemma real_value_extraction_witness :
  SolverPy.get_z3_value Inputs.five_halves_model (SolverPy.Real "x")
  = Some (SolverPy.VFloat (Prim2SF 2.5%float))
  ∧ SolverPy.get_z3_value (Inputs.ratio_model (10 ^ 309) 3) (SolverPy.Real "x") = None.
Proof.
  split.
  - apply (real_value_extraction Inputs.five_halves_model (SolverPy.Real "x")
             {| SolverPy.mv_str := "5/2"; SolverPy.mv_is_true := false |});
      reflexivity.
  - apply (proj1 (proj2 (real_value_extraction (Inputs.ratio_model (10 ^ 309) 3)
                           (SolverPy.Real "x") _ eq_refl eq_refl)) (10 ^ 309) 3);
      [reflexivity|left; vm_compute; reflexivity].
Defined.

(** ** The entailment pipeline *)

Section RelationshipFacts.

Import SolverPy (CheckSatResult, sat, unsat, unknown).
Import RelationshipsPy Facts.

Lemma entity_names_foldl (rels : list Relationship) : ∀ (acc : gset string) n,
  n ∈ foldl (fun names rel => {[person2 rel]} ∪ ({[person1 rel]} ∪ names)) acc rels
  ↔ n ∈ acc ∨ ∃ rel, rel ∈ rels ∧ (n = person1 rel ∨ n = person2 rel).
Proof.
  induction rels as [|rel rels IH]; intros acc n; simpl.
  - split; [auto|]. intros [?|(rel & Hin & _)]; [done|]. by apply elem_of_nil in Hin.
  - rewrite IH. rewrite !elem_of_union, !elem_of_singleton. split.
    + intros [[?|[?|?]]|(rel' & Hin & H)]; [right|right|left|right].
      * exists rel. split; [apply elem_of_cons; auto|auto].
      * exists rel. split; [apply elem_of_cons; auto|auto].
      * done.
      * exists rel'. split; [apply elem_of_cons; auto|auto].
    + intros [?|(rel' & Hin & H)]; [auto|].
      apply elem_of_cons in Hin as [->|Hin]; [|right; eauto].
      left. destruct H; auto.
Qed.

Lemma relation_names_foldl (rels : list Relationship) : ∀ (acc : gset string) n,
  n ∈ foldl (fun names rel => {[relation rel]} ∪ names) acc rels
  ↔ n ∈ acc ∨ ∃ rel, rel ∈ rels ∧ n = relation rel.
Proof.
  induction rels as [|rel rels IH]; intros acc n; simpl.
  - split; [auto|]. intros [?|(rel & Hin & _)]; [done|]. by apply elem_of_nil in Hin.
  - rewrite IH. rewrite !elem_of_union, !elem_of_singleton. split.
    + intros [[?|?]|(rel' & Hin & H)]; [right|left|right].
      * exists rel. split; [apply elem_of_cons; auto|auto].
      * done.
      * exists rel'. split; [apply elem_of_cons; auto|auto].
    + intros [?|(rel' & Hin & H)]; [auto|].
      apply elem_of_cons in Hin as [->|Hin]; [auto|right; eauto].
Qed.

(** A dictionary built from a set of names by one insertion per name. *)
Lemma set_fold_insert {A} (mk : string -> Result A) (obj : string -> A) (X : gset string) :
  (∀ n, mk n = Success (obj n)) →
  ∃ d : gmap string A,
    set_fold (fun name acc =>
                match acc with
                | Failure e => Failure e
                | Success d =>
                    match mk name with
                    | Success o => Success (<[name := o]> d)
                    | Failure e => Failure e
                    end
                end) (Success ∅) X = Success d
    ∧ ∀ n, d !! n = if decide (n ∈ X) then Some (obj n) else None.
Proof.
  intros Hmk. revert X.
  apply (set_fold_ind_L (fun (acc : Result (gmap string A)) (Y : gset string) =>
    ∃ d, acc = Success d ∧ ∀ n, d !! n = if decide (n ∈ Y) then Some (obj n) else None)).
  - exists ∅. split; [done|]. intros n. rewrite lookup_empty.
    by rewrite decide_False by set_solver.
  - intros x Y r Hx (d & -> & Hd). rewrite Hmk. eexists. split; [done|].
    intros n. destruct (decide (x = n)) as [->|Hne].
    + rewrite lookup_insert_eq. by rewrite decide_True by set_solver.
    + rewrite lookup_insert_ne by done. rewrite Hd.
      destruct (decide (n ∈ Y)).
      * by rewrite decide_True by set_solver.
      * rewrite decide_False; [done|].
        rewrite elem_of_union, elem_of_singleton. intros [?|?]; [congruence|done].
Qed.

(** Declaration creates one entity per endpoint of a fact and nothing
    else. *)
Lemma create_entities_spec rels :
  ∃ ents, create_entities rels = Success ents
    ∧ (∀ rel, rel ∈ rels → ents !! person1 rel = Some (entity (person1 rel))
                           ∧ ents !! person2 rel = Some (entity (person2 rel)))
    ∧ (∀ n e, ents !! n = Some e →
         e = entity n ∧ ∃ rel, rel ∈ rels ∧ (n = person1 rel ∨ n = person2 rel)).
Proof.
  unfold create_entities.
  destruct (set_fold_insert create_entity entity
              (foldl (fun names rel => {[person2 rel]} ∪ ({[person1 rel]} ∪ names)) ∅ rels))
    as (d & -> & Hd); [done|].
  exists d. split; [done|]. split.
  - intros rel Hin. rewrite !Hd.
    rewrite !decide_True; [done| |]; apply entity_names_foldl; right; eauto.
  - intros n e. rewrite Hd. destruct (decide _) as [Hn|]; [|done].
    intros [= <-]. split; [done|].
    apply entity_names_foldl in Hn as [Hn|Hn]; [set_solver|done].
Qed.

Lemma create_relations_spec rels :
  ∃ relmap, create_relations rels = Success relmap
    ∧ (∀ rel, rel ∈ rels → relmap !! relation rel = Some (relation_ (relation rel)))
    ∧ (∀ n r, relmap !! n = Some r →
         r = relation_ n ∧ ∃ rel, rel ∈ rels ∧ n = relation rel).
Proof.
  unfold create_relations.
  destruct (set_fold_insert create_relation relation_
              (foldl (fun names rel => {[relation rel]} ∪ names) ∅ rels))
    as (d & -> & Hd); [done|].
  exists d. split; [done|]. split.
  - intros rel Hin. rewrite Hd.
    rewrite decide_True; [done|]. apply relation_names_foldl; right; eauto.
  - intros n e. rewrite Hd. destruct (decide _) as [Hn|]; [|done].
    intros [= <-]. split; [done|].
    apply relation_names_foldl in Hn as [Hn|Hn]; [set_solver|done].
Qed.


Variable z3_check : list BoolRef -> Raises CheckSatResult.

Local Abbreviation check := (check z3_check).
Local Abbreviation evaluate_query := (evaluate_query z3_check).
Local Abbreviation analyze_relationships_run := (analyze_relationships_run z3_check).
Local Abbreviation analyze_relationships := (analyze_relationships z3_check).

Lemma names_sibling_spec rels :
  names_sibling rels = true ↔ ∃ rel, rel ∈ rels ∧ relation rel = "sibling".
Proof.
  unfold names_sibling. rewrite existsb_exists. split.
  - intros (rel & Hin & Heq). exists rel. split; [by apply list_elem_of_In|].
    by apply String.eqb_eq.
  - intros (rel & Hin & Heq). exists rel. split; [by apply list_elem_of_In|].
    by apply String.eqb_eq.
Qed.

(** Asserting facts whose symbols are declared adds one formula per fact,
    in order. *)
Lemma assert_facts_run ents relmap continue (rels : list Relationship) : ∀ s,
  (∀ rel, rel ∈ rels →
     relmap !! relation rel = Some (relation_ (relation rel))
     ∧ ents !! person1 rel = Some (entity (person1 rel))
     ∧ ents !! person2 rel = Some (entity (person2 rel))) →
  assert_facts rels ents relmap continue s
  = continue {| assertions := (assertions s ++ (fact_formula <$> rels))%list;
                scopes := scopes s;
                history := (history s ++ (OpAdd <$> (fact_formula <$> rels)))%list |}.
Proof.
  induction rels as [|rel rels IH]; intros s Hdecl; simpl.
  - rewrite !app_nil_r. by destruct s.
  - destruct (Hdecl rel) as (Hr & H1 & H2); [apply elem_of_cons; auto|].
    unfold bind at 1, getitem at 1. rewrite Hr.
    unfold bind at 1, getitem at 1. rewrite H1.
    unfold bind at 1, getitem at 1. rewrite H2.
    cbn [z3_func z3_const relation_ entity].
    unfold bind at 1.
    assert (Hadd : ∀ e, add e s = (Ret tt,
       {| assertions := (assertions s ++ [e])%list; scopes := scopes s;
          history := (history s ++ [OpAdd e])%list |})) by done.
    assert (Hstep : (if value rel
                     then add (App (Function (relation rel)) (Const (person1 rel)) (Const (person2 rel)))
                     else add (Not (App (Function (relation rel)) (Const (person1 rel)) (Const (person2 rel))))) s
                    = (Ret tt, {| assertions := (assertions s ++ [fact_formula rel])%list;
                                  scopes := scopes s;
                                  history := (history s ++ [OpAdd (fact_formula rel)])%list |})).
    { unfold fact_formula. destruct (value rel); apply Hadd. }
    rewrite Hstep. rewrite IH.
    + cbn [assertions scopes history]. by rewrite <- !app_assoc.
    + intros rel' Hin. apply Hdecl. apply elem_of_cons; auto.
Qed.

(** After declaration from the facts, assertion succeeds and leaves the
    fact base on the solver. *)
Lemma add_relationship_assertions_run rels ents relmap :
  create_entities rels = Success ents →
  create_relations rels = Success relmap →
  add_relationship_assertions rels ents relmap new_solver
  = (Success tt, loaded (fact_base rels)).
Proof.
  intros Hents Hrels.
  destruct (create_entities_spec rels) as (ents' & He & Hein & _).
  destruct (create_relations_spec rels) as (relmap' & Hr & Hrin & Hrout).
  assert (ents' = ents) as -> by congruence.
  assert (relmap' = relmap) as -> by congruence.
  unfold add_relationship_assertions. rewrite assert_facts_run.
  2:{ intros rel Hin. destruct (Hein rel Hin). auto. }
  cbn [new_solver assertions scopes history app].
  unfold loaded, fact_base.
  destruct (names_sibling rels) eqn:Hsib.
  - apply names_sibling_spec in Hsib as (rel & Hin & Hname).
    pose proof (Hrin rel Hin) as Hlook. rewrite Hname in Hlook.
    rewrite decide_True by (rewrite Hlook; eauto).
    unfold bind, getitem. rewrite Hlook. cbn.
    by rewrite fmap_app.
  - rewrite decide_False.
    + cbn. by rewrite !app_nil_r.
    + intros [r Hlook]. destruct (Hrout _ _ Hlook) as (_ & rel & Hin & Hname).
      assert (names_sibling rels = true) by (apply names_sibling_spec; eauto).
      congruence.
Qed.

(** What [evaluate_query] does, by the answers of the two probes. *)
Lemma evaluate_query_run Q s :
  evaluate_query Q s =
  match z3_check (assertions s ++ [Not Q])%list with
  | Raise e =>
      (Failure ("Error evaluating query: " ++ e),
       inside_probe (Not Q) [OpPush; OpAdd (Not Q); OpCheck] s)
  | Ret neg_result =>
      if decide (neg_result = unsat)
      then (Success (true, confirmed, true),
            after [OpPush; OpAdd (Not Q); OpCheck; OpPop] s)
      else
        match z3_check (assertions s ++ [Q])%list with
        | Raise e =>
            (Failure ("Error evaluating query: " ++ e),
             inside_probe Q [OpPush; OpAdd (Not Q); OpCheck; OpPop;
                             OpPush; OpAdd Q; OpCheck] s)
        | Ret pos_result =>
            (Success (false, if decide (pos_result = unsat) then contradicted else possible, true),
             after [OpPush; OpAdd (Not Q); OpCheck; OpPop;
                    OpPush; OpAdd Q; OpCheck; OpPop] s)
        end
  end.
Proof.
  unfold RelationshipsPy.evaluate_query, bind, push, add, RelationshipsPy.check, pop, record, ret.
  cbn [assertions scopes history].
  destruct (z3_check (assertions s ++ [Not Q])%list) as [r1|e1].
  - cbn [assertions scopes history]. rewrite take_app_length.
    destruct (decide (r1 = unsat)).
    + unfold after. by rewrite <- !app_assoc.
    + cbn [assertions scopes history].
      destruct (z3_check (assertions s ++ [Q])%list) as [r2|e2].
      * cbn [assertions scopes history]. rewrite take_app_length.
        unfold after. rewrite <- !app_assoc.
        by destruct (decide (r2 = unsat)).
      * unfold inside_probe. by rewrite <- !app_assoc.
  - unfold inside_probe. by rewrite <- !app_assoc.
Qed.

(** What [analyze_relationships] does once the query has parsed. *)
Lemma analyze_relationships_run_parsed query ents relmap Q :
  create_entities (relationships query) = Success ents →
  create_relations (relationships query) = Success relmap →
  parse_query query.(RelationshipsPy.query) ents relmap = Success Q →
  analyze_relationships_run query =
  let s := after [OpCheck] (loaded (fact_base (relationships query))) in
  match z3_check (fact_base (relationships query)) with
  | Raise e => (Failure ("Error analyzing relationships: " ++ e), s)
  | Ret base_result =>
      if decide (base_result = unsat)
      then (Success (verdict false contradictory false), s)
      else
        match evaluate_query Q s with
        | (Failure error, s') => (Failure error, s')
        | (Success (r, e, b), s') => (Success (verdict r e b), s')
        end
  end.
Proof.
  intros Hents Hrels Hparse. unfold RelationshipsPy.analyze_relationships_run.
  rewrite Hents, Hrels, (add_relationship_assertions_run _ _ _ Hents Hrels), Hparse.
  unfold RelationshipsPy.check, record. cbn [loaded assertions scopes history].
  reflexivity.
Qed.


Lemma create_entities_of rels : create_entities rels = Success (entities_of rels).
Proof.
  unfold entities_of. by destruct (create_entities_spec rels) as (ents & -> & _).
Qed.

Lemma create_relations_of rels : create_relations rels = Success (relations_of rels).
Proof.
  unfold relations_of. by destruct (create_relations_spec rels) as (relmap & -> & _).
Qed.

(** *** The three checks *)

(** C1. For a query that parses to [Q] against the symbols declared from
    the facts, with [F] the fact base: if the check of [F] answers unsat,
    the result is (false, contradictory, not satisfiable) and no further
    call is made on the solver; otherwise, if the check of [F] with [Not Q]
    answers unsat, the result is (true, confirmed, satisfiable); otherwise,
    if the check of [F] with [Q] answers unsat, it is (false, contradicted,
    satisfiable); otherwise it is (false, possible, satisfiable). *)
Theorem three_check_protocol (query : RelationshipQuery) (Q : BoolRef) :
  let rels := relationships query in
  let F := fact_base rels in
  parse_query query.(RelationshipsPy.query) (entities_of rels) (relations_of rels)
    = Success Q →
  (z3_check F = Ret unsat →
     analyze_relationships_run query
     = (Success (verdict false contradictory false), after [OpCheck] (loaded F)))
  ∧ (∀ r0, z3_check F = Ret r0 → r0 ≠ unsat →
       z3_check (F ++ [Not Q])%list = Ret unsat →
       analyze_relationships query = Success (verdict true confirmed true))
  ∧ (∀ r0 r1, z3_check F = Ret r0 → r0 ≠ unsat →
       z3_check (F ++ [Not Q])%list = Ret r1 → r1 ≠ unsat →
       z3_check (F ++ [Q])%list = Ret unsat →
       analyze_relationships query = Success (verdict false contradicted true))
  ∧ (∀ r0 r1 r2, z3_check F = Ret r0 → r0 ≠ unsat →
       z3_check (F ++ [Not Q])%list = Ret r1 → r1 ≠ unsat →
       z3_check (F ++ [Q])%list = Ret r2 → r2 ≠ unsat →
       analyze_relationships query = Success (verdict false possible true)).
Proof.
  intros rels F Hparse.
  pose proof (analyze_relationships_run_parsed query _ _ Q
                (create_entities_of rels) (create_relations_of rels) Hparse) as Hrun.
  fold rels F in Hrun. cbv zeta in Hrun.
  unfold RelationshipsPy.analyze_relationships. rewrite Hrun.
  split; [|split; [|split]].
  - intros ->. by rewrite decide_True.
  - intros r0 -> Hr0 Hneg. rewrite decide_False by done.
    rewrite evaluate_query_run. cbn [after loaded assertions].
    rewrite Hneg. by rewrite decide_True.
  - intros r0 r1 -> Hr0 Hneg Hr1 Hpos. rewrite decide_False by done.
    rewrite evaluate_query_run. cbn [after loaded assertions].
    rewrite Hneg, decide_False, Hpos by done. by rewrite decide_True.
  - intros r0 r1 r2 -> Hr0 Hneg Hr1 Hpos Hr2. rewrite decide_False by done.
    rewrite evaluate_query_run. cbn [after loaded assertions].
    rewrite Hneg, decide_False, Hpos by done. by rewrite decide_False.
Qed.

(** *** Scopes of the probes *)

(** C3, as the code has it. A probe whose check returns is the sequence
    push, add, check, pop, and leaves the assertions and scopes of the
    solver as they were: one probe when the first check answers unsat, two
    otherwise. When a check raises, the failure "Error evaluating query:
    ..." is returned with no pop: the solver is left inside the probe, its
    scope open and the probed formula asserted. *)
Theorem probe_scope_closed_only_on_return (Q : BoolRef) (s : Solver) :
  let A := assertions s in
  (z3_check (A ++ [Not Q])%list = Ret unsat →
     evaluate_query Q s
     = (Success (true, confirmed, true),
        after [OpPush; OpAdd (Not Q); OpCheck; OpPop] s))
  ∧ (∀ r1 r2, z3_check (A ++ [Not Q])%list = Ret r1 → r1 ≠ unsat →
       z3_check (A ++ [Q])%list = Ret r2 →
       snd (evaluate_query Q s)
       = after [OpPush; OpAdd (Not Q); OpCheck; OpPop;
                OpPush; OpAdd Q; OpCheck; OpPop] s)
  ∧ (∀ e, z3_check (A ++ [Not Q])%list = Raise e →
       evaluate_query Q s
       = (Failure ("Error evaluating query: " ++ e),
          inside_probe (Not Q) [OpPush; OpAdd (Not Q); OpCheck] s))
  ∧ (∀ r1 e, z3_check (A ++ [Not Q])%list = Ret r1 → r1 ≠ unsat →
       z3_check (A ++ [Q])%list = Raise e →
       evaluate_query Q s
       = (Failure ("Error evaluating query: " ++ e),
          inside_probe Q [OpPush; OpAdd (Not Q); OpCheck; OpPop;
                          OpPush; OpAdd Q; OpCheck] s)).
Proof.
  intros A. rewrite evaluate_query_run. fold A.
  split; [|split; [|split]].
  - intros ->. by rewrite decide_True.
  - intros r1 r2 -> Hr1 ->. by rewrite decide_False.
  - by intros e ->.
  - intros r1 e -> Hr1 ->. by rewrite decide_False.
Qed.

End RelationshipFacts.

(** *** Unknown answers *)

Section UnknownAnswers.

Import SolverPy (CheckSatResult, sat, unsat, unknown).
Import RelationshipsPy Facts.

Variable z3_check : list BoolRef -> Raises CheckSatResult.

(** C4, as the code has it. Only the answer unsat is tested: an unknown
    answer, at the base check or at a probe, has the effect of a sat
    answer, so the pipeline returns for a backend the result it returns for
    that backend with every unknown replaced by sat; and when the query
    parses and all three checks answer unknown the result is the verdict
    (false, possible, satisfiable), not a failure. *)
Theorem unknown_is_handled_as_sat (query : RelationshipQuery) :
  analyze_relationships_run (unknown_as_sat z3_check) query
  = analyze_relationships_run z3_check query
  ∧ ∀ Q,
      let rels := relationships query in
      let F := fact_base rels in
      parse_query query.(RelationshipsPy.query) (entities_of rels) (relations_of rels)
        = Success Q →
      z3_check F = Ret unknown →
      z3_check (F ++ [Not Q])%list = Ret unknown →
      z3_check (F ++ [Q])%list = Ret unknown →
      analyze_relationships z3_check query = Success (verdict false possible true).
Proof.
  split.
  - unfold RelationshipsPy.analyze_relationships_run.
    destruct (create_entities _) as [ents|]; [|done].
    destruct (create_relations _) as [relmap|]; [|done].
    destruct (add_relationship_assertions _ _ _ _) as [[[]|] s]; [|done].
    destruct (parse_query _ _ _) as [Q|]; [|done].
    unfold RelationshipsPy.check. rewrite !evaluate_query_run.
    unfold unknown_as_sat. cbn [record assertions].
    destruct (z3_check (assertions s)) as [[]|]; try done.
    + cbn. destruct (z3_check (assertions s ++ [Not Q])%list) as [[]|]; try done;
        cbn; by destruct (z3_check (assertions s ++ [Q])%list) as [[]|].
    + cbn. destruct (z3_check (assertions s ++ [Not Q])%list) as [[]|]; try done;
        cbn; by destruct (z3_check (assertions s ++ [Q])%list) as [[]|].
  - intros Q rels F Hparse H0 H1 H2.
    unfold analyze_relationships.
    rewrite (analyze_relationships_run_parsed z3_check query _ _ Q
               (create_entities_of rels) (create_relations_of rels) Hparse).
    fold rels F. cbv zeta. rewrite H0, decide_False by done.
    rewrite evaluate_query_run. cbn [after loaded assertions].
    rewrite H1, decide_False, H2 by done. by rewrite decide_False.
Qed.

End UnknownAnswers.

Lemma three_check_protocol_witness :
  RelationshipsPy.analyze_relationships Backends.always_unknown Backends.sibling_query
  = Success (Facts.verdict false RelationshipsPy.possible true).
Proof.
  apply (three_check_protocol Backends.always_unknown Backends.sibling_query
           (RelationshipsPy.App (RelationshipsPy.Function "sibling")
              (RelationshipsPy.Const "Bob") (RelationshipsPy.Const "Alice"))
           ltac:(vm_compute; reflexivity))
    with (r0 := SolverPy.unknown) (r1 := SolverPy.unknown) (r2 := SolverPy.unknown);
    (reflexivity || discriminate).
Defined.

(** C3 as stated fails: when the check raises, the failure is returned
    with the probe's scope still open on the solver. *)
Lemma raising_check_leaves_scope_open :
  let fact := RelationshipsPy.App (RelationshipsPy.Function "sibling")
                (RelationshipsPy.Const "Alice") (RelationshipsPy.Const "Bob") in
  let Q := RelationshipsPy.App (RelationshipsPy.Function "sibling")
             (RelationshipsPy.Const "Bob") (RelationshipsPy.Const "Alice") in
  let s := Facts.loaded [fact] in
  let out := RelationshipsPy.evaluate_query Backends.always_raises Q s in
  fst out = Failure "Error evaluating query: canceled"
  ∧ RelationshipsPy.scopes s = []
  ∧ RelationshipsPy.scopes (snd out) = [1%nat]
  ∧ RelationshipsPy.assertions (snd out) = [fact; RelationshipsPy.Not Q]
  ∧ RelationshipsPy.history (snd out)
    = [RelationshipsPy.OpAdd fact; RelationshipsPy.OpPush;
       RelationshipsPy.OpAdd (RelationshipsPy.Not Q); RelationshipsPy.OpCheck].
Proof. vm_compute. done. Qed.

(** C4 as stated fails: with every check answering unknown, the caller
    gets the verdict "possible but not confirmed", not an error. *)
Lemma unknown_yields_possible :
  RelationshipsPy.analyze_relationships Backends.always_unknown Backends.sibling_query
  = Success {| RelationshipsPy.result := false;
               RelationshipsPy.explanation :=
                 "The relationship is possible but not confirmed by the given facts.";
               RelationshipsPy.is_satisfiable := true |}.
Proof. vm_compute. reflexivity. Qed.

(** *** Query parsing *)

Lemma length_split sep s : length (Py.split sep s) = S (count_char sep s).
Proof.
  induction s as [|c s IH]; simpl; [done|].
  destruct (Ascii.eqb c sep); simpl; [by rewrite IH|].
  destruct (Py.split sep s); simpl in *; done.
Qed.

Section QueryParsing.

Import RelationshipsPy Facts.

Variable ents : gmap string Entity.
Variable relmap : gmap string Relation.

Lemma split_query_text name inner rest :
  well_cut name inner rest →
  Py.split "(" (query_text name inner rest) = [name; inner ++ String ")" rest]
  ∧ Py.contains ")" (inner ++ String ")" rest) = true
  ∧ hd EmptyString (Py.split ")" (inner ++ String ")" rest)) = inner.
Proof.
  intros (Hname & Hinner & Hrest & Hclose). unfold query_text. split; [|split].
  - rewrite split_app by done. rewrite split_none; [done|].
    rewrite contains_app. simpl. by rewrite Hinner, Hrest.
  - rewrite contains_app. simpl. by rewrite orb_true_r.
  - by rewrite split_app.
Qed.

(** A text the parser does not reject for its shape is of that shape. *)
Lemma query_text_inv q part0 part1 :
  Py.split "(" q = [part0; part1] → Py.contains ")" part1 = true →
  ∃ inner rest, q = query_text part0 inner rest ∧ well_cut part0 inner rest.
Proof.
  intros Hsplit Hclose.
  destruct (split_two_inv "(" q part0 part1 Hsplit) as (-> & H0 & H1).
  destruct (contains_first ")" part1 Hclose) as (inner & rest & -> & Hinner).
  rewrite contains_app in H1. simpl in H1.
  apply orb_false_iff in H1 as [Hi Hr].
  exists inner, rest. split; [done|]. by repeat split.
Qed.

Lemma first_unknown_entity_two a1 a2 :
  first_unknown_entity [a1; a2] ents =
  match ents !! a1, ents !! a2 with
  | None, _ => Some a1
  | Some _, None => Some a2
  | Some _, Some _ => None
  end.
Proof.
  simpl. destruct (ents !! a1) as [e1|].
  - rewrite decide_True by eauto. destruct (ents !! a2) as [e2|].
    + by rewrite decide_True by eauto.
    + rewrite decide_False; [done|]. by intros [? ?].
  - rewrite decide_False; [done|]. by intros [? ?].
Qed.

(** What [parse_query] returns on a text of the accepted shape. *)
Lemma parse_query_well_cut name inner rest :
  well_cut name inner rest →
  parse_query (query_text name inner rest) ents relmap =
  match Py.strip <$> Py.split "," (Py.strip inner) with
  | [a1; a2] =>
      match relmap !! Py.strip name with
      | None => Failure ("Unknown relation: " ++ Py.strip name)
      | Some r =>
          match ents !! a1, ents !! a2 with
          | None, _ => Failure ("Unknown entity: " ++ a1)
          | Some _, None => Failure ("Unknown entity: " ++ a2)
          | Some e1, Some e2 =>
              match z3_func r, z3_const e1, z3_const e2 with
              | None, _, _ =>
                  Failure ("Relation " ++ Py.strip name ++ " has no Z3 function")
              | _, None, _ => Failure ("Entity " ++ a1 ++ " has no Z3 constant")
              | _, _, None => Failure ("Entity " ++ a2 ++ " has no Z3 constant")
              | Some f, Some c1, Some c2 => Success (App f c1 c2)
              end
          end
      end
  | _ => Failure ("Query must involve exactly two entities: "
                  ++ query_text name inner rest)
  end.
Proof.
  intros Hcut. destruct (split_query_text name inner rest Hcut) as (Hs & Hc & Hh).
  unfold parse_query. rewrite Hs, Hc, Hh. cbn [negb].
  destruct (Py.strip <$> Py.split "," (Py.strip inner)) as [|a1 [|a2 [|a3 l]]]; try done.
  destruct (relmap !! Py.strip name) as [r|]; [|done].
  rewrite first_unknown_entity_two.
  destruct (ents !! a1) as [e1|]; [|done].
  destruct (ents !! a2) as [e2|]; done.
Qed.


(** C8, as the code has it. Parsing succeeds exactly on texts with one "("
    and a ")" after it, where the text between the "(" and the first ")"
    has exactly two comma-separated parts which, trimmed, are declared
    entities, and the trimmed text before the "(" is a declared relation;
    whatever follows the first ")" is not looked at. A text with no or
    several "(", or no ")" after it, fails with "Invalid query format";
    another number of parts with "Query must involve exactly two entities";
    an undeclared relation with "Unknown relation"; the first undeclared
    entity with "Unknown entity". A failure of the parse is the result of
    the whole request. *)
Theorem parse_query_outcomes (q : string) :
  (count_char "(" q ≠ 1%nat →
     parse_query q ents relmap = Failure ("Invalid query format: " ++ q))
  ∧ (∀ name tail,
       q = name ++ String "(" tail →
       Py.contains "(" name = false → Py.contains "(" tail = false →
       Py.contains ")" tail = false →
       parse_query q ents relmap = Failure ("Invalid query format: " ++ q))
  ∧ (∀ name inner rest,
       q = query_text name inner rest → well_cut name inner rest →
       let args := Py.strip <$> Py.split "," (Py.strip inner) in
       (length args ≠ 2%nat →
          parse_query q ents relmap
          = Failure ("Query must involve exactly two entities: " ++ q))
       ∧ ∀ a1 a2, args = [a1; a2] →
           (relmap !! Py.strip name = None →
              parse_query q ents relmap
              = Failure ("Unknown relation: " ++ Py.strip name))
           ∧ (is_Some (relmap !! Py.strip name) → ents !! a1 = None →
              parse_query q ents relmap = Failure ("Unknown entity: " ++ a1))
           ∧ (is_Some (relmap !! Py.strip name) → is_Some (ents !! a1) →
              ents !! a2 = None →
              parse_query q ents relmap = Failure ("Unknown entity: " ++ a2))
           ∧ (∀ r e1 e2 f c1 c2,
                relmap !! Py.strip name = Some r → ents !! a1 = Some e1 →
                ents !! a2 = Some e2 → z3_func r = Some f →
                z3_const e1 = Some c1 → z3_const e2 = Some c2 →
                parse_query q ents relmap = Success (App f c1 c2)))
  ∧ (∀ e, parse_query q ents relmap = Success e →
       ∃ name inner rest a1 a2 r e1 e2 f c1 c2,
         q = query_text name inner rest ∧ well_cut name inner rest
         ∧ Py.strip <$> Py.split "," (Py.strip inner) = [a1; a2]
         ∧ relmap !! Py.strip name = Some r ∧ ents !! a1 = Some e1
         ∧ ents !! a2 = Some e2 ∧ z3_func r = Some f
         ∧ z3_const e1 = Some c1 ∧ z3_const e2 = Some c2
         ∧ e = App f c1 c2)
  ∧ (∀ z3_check rels error,
       ents = entities_of rels → relmap = relations_of rels →
       parse_query q ents relmap = Failure error →
       analyze_relationships z3_check {| relationships := rels; query := q |}
       = Failure error).
Proof.
  split; [|split; [|split; [|split]]].
  - intros Hcount. unfold parse_query.
    pose proof (length_split "(" q) as Hlen.
    destruct (Py.split "(" q) as [|p0 [|p1 [|p2 l]]]; try done.
    simpl in Hlen. congruence.
  - intros name tail -> Hname Htail Hclose. unfold parse_query.
    rewrite split_app, split_none by done. by rewrite Hclose.
  - intros name inner rest -> Hcut args. subst args.
    rewrite (parse_query_well_cut name inner rest Hcut). split.
    + intros Hlen.
      by destruct (Py.strip <$> Py.split "," (Py.strip inner)) as [|a1 [|a2 [|a3 l]]].
    + intros a1 a2 ->. split; [|split; [|split]].
      * by intros ->.
      * intros [r ->] ->. done.
      * intros [r ->] [e1 ->] ->. done.
      * intros r e1 e2 f c1 c2 -> -> -> -> -> ->. done.
  - intros e Hparse.
    assert (∃ part0 part1, Py.split "(" q = [part0; part1]
                           ∧ Py.contains ")" part1 = true) as (p0 & p1 & Hs & Hc).
    { unfold parse_query in Hparse.
      destruct (Py.split "(" q) as [|p0 [|p1 [|p2 l]]]; try done.
      destruct (Py.contains ")" p1) eqn:Hc; [by exists p0, p1|done]. }
    destruct (query_text_inv q p0 p1 Hs Hc) as (inner & rest & -> & Hcut).
    rewrite (parse_query_well_cut p0 inner rest Hcut) in Hparse.
    destruct (Py.strip <$> Py.split "," (Py.strip inner)) as [|a1 [|a2 [|a3 l]]] eqn:Hargs;
      try done.
    destruct (relmap !! Py.strip p0) as [r|] eqn:Hr; [|done].
    destruct (ents !! a1) as [e1|] eqn:H1; [|done].
    destruct (ents !! a2) as [e2|] eqn:H2; [|done].
    destruct (z3_func r) as [f|] eqn:Hf; [|done].
    destruct (z3_const e1) as [c1|] eqn:Hc1; [|done].
    destruct (z3_const e2) as [c2|] eqn:Hc2; [|done].
    injection Hparse as <-.
    exists p0, inner, rest, a1, a2, r, e1, e2, f, c1, c2. split; [done|]. split; [done|]. by repeat split.
  - intros z3_check rels error -> -> Hparse.
    unfold analyze_relationships, analyze_relationships_run. cbn [relationships].
    rewrite (create_entities_of rels), (create_relations_of rels).
    rewrite (add_relationship_assertions_run rels _ _
               (create_entities_of rels) (create_relations_of rels)).
    cbn [RelationshipsPy.query]. by rewrite Hparse.
Qed.

End QueryParsing.

(** C8 as stated fails: a second ")" and further text after the
    arguments do not make the parse fail. *)
Lemma trailing_text_is_accepted :
  RelationshipsPy.parse_query "sibling(Bob, Alice)) or not"
    (Facts.entities_of [Backends.sibling_fact])
    (Facts.relations_of [Backends.sibling_fact])
  = Success (RelationshipsPy.App (RelationshipsPy.Function "sibling")
               (RelationshipsPy.Const "Bob") (RelationshipsPy.Const "Alice")).
Proof. vm_compute. reflexivity. Qed.

(** *** A reference backend *)

Section ReferenceBackend.

Import SolverPy (CheckSatResult, sat, unsat, unknown).
Import RelationshipsPy Facts Semantics.

Lemma positive_inv e f a b :
  positive e = Some (f, a, b) → e = App (Function f) (Const a) (Const b).
Proof. destruct e as [[g] [x] [y]| | |]; simpl; congruence. Qed.

Lemma negative_inv e f a b :
  negative e = Some (f, a, b) → e = Not (App (Function f) (Const a) (Const b)).
Proof.
  destruct e as [|e| |]; simpl; try done.
  destruct e as [[g] [x] [y]| | |]; simpl; congruence.
Qed.

(** The symmetry axiom lets an atom be turned around. *)
Lemma symmetry_axiom_turns R rho f a b :
  holds R rho (symmetry_axiom (Function f)) →
  R f (rho b) (rho a) → R f (rho a) (rho b).
Proof.
  intros Hsym Hba.
  specialize (Hsym (fun n => if String.eqb n "x" then rho b
                             else if String.eqb n "y" then rho a else rho n)).
  simpl in Hsym. apply Hsym; [|done].
  intros n Hn.
  destruct (String.eqb_spec n "x") as [->|_]; [destruct Hn; set_solver|].
  destruct (String.eqb_spec n "y") as [->|_]; [destruct Hn; set_solver|done].
Qed.

Lemma derivable_holds R rho fs f a b :
  Forall (holds R rho) fs → derivable fs (f, a, b) = true → R f (rho a) (rho b).
Proof.
  intros Hall. rewrite Forall_forall in Hall. unfold derivable, symmetric.
  intros [Hpos|[Hsym Hpos]%andb_true_iff]%orb_true_iff.
  - apply bool_decide_eq_true in Hpos.
    apply list_elem_of_omap in Hpos as (e & He & Hp%positive_inv). subst e.
    by apply (Hall _ He).
  - apply bool_decide_eq_true in Hsym. apply bool_decide_eq_true in Hpos.
    apply list_elem_of_omap in Hpos as (e & He & Hp%positive_inv). subst e.
    apply (symmetry_axiom_turns R rho f a b); [by apply (Hall _ Hsym)|].
    by apply (Hall _ He).
Qed.

Lemma reference_check_sound fs :
  reference_check fs = Ret unsat → ¬ satisfiable fs.
Proof.
  unfold reference_check. destruct (forallb in_fragment fs); [|done].
  destruct (existsb _ _) eqn:Hex; [|done]. intros _ (R & rho & Hall).
  apply existsb_exists in Hex as ([[f a] b] & Hneg & Hder).
  apply list_elem_of_In, list_elem_of_omap in Hneg as (e & He & Hn%negative_inv).
  subst e. pose proof Hall as Hall'. rewrite Forall_forall in Hall'.
  apply (Hall' _ He). simpl. by apply (derivable_holds R rho fs).
Qed.

(** Without a derivable negated atom, the positive facts closed under the
    asserted symmetries are a model. *)
Lemma reference_check_model fs :
  forallb in_fragment fs = true →
  existsb (derivable fs) (omap negative fs) = false →
  satisfiable fs.
Proof.
  intros Hfrag Hnone.
  exists (fun f a b => derivable fs (f, a, b) = true), (fun n => n).
  rewrite forallb_forall in Hfrag. apply Forall_forall. intros e He.
  specialize (Hfrag e (proj1 (list_elem_of_In _ _) He)).
  destruct e as [[f] [a] [b]|e|p q|vs body]; simpl in Hfrag; try done.
  - simpl. unfold derivable. apply orb_true_iff. left. apply bool_decide_eq_true.
    apply list_elem_of_omap. by exists (App (Function f) (Const a) (Const b)).
  - destruct e as [[f] [a] [b]| | |]; try done. simpl. intros Hder.
    assert (existsb (derivable fs) (omap negative fs) = true); [|congruence].
    apply existsb_exists. exists (f, a, b). split; [|done].
    apply list_elem_of_In, list_elem_of_omap.
    by exists (Not (App (Function f) (Const a) (Const b))).
  - destruct body as [| |p q|]; try done.
    destruct p as [[f] a b| | |]; try done.
    apply bool_decide_eq_true in Hfrag. rewrite Hfrag in He |- *.
    simpl. intros rho' _. unfold derivable, symmetric.
    rewrite (bool_decide_eq_true_2 _ He). simpl.
    intros [H|H]%orb_true_iff; apply orb_true_iff; auto.
Qed.

Lemma reference_check_adequate : adequate reference_check.
Proof.
  split; [apply reference_check_sound|]. split.
  - intros fs Hfrag. unfold reference_check. rewrite Hfrag.
    destruct (existsb _ _); eauto.
  - intros fs Hfrag Hunsat. unfold reference_check. rewrite Hfrag.
    destruct (existsb _ _) eqn:Hex; [done|].
    destruct Hunsat. by apply reference_check_model.
Qed.

End ReferenceBackend.

(** *** The sibling axiom *)

Section SiblingSymmetry.

Import SolverPy (CheckSatResult, sat, unsat, unknown).
Import RelationshipsPy Facts Semantics.

Lemma length_lstrip s : (String.length (Py.lstrip s) <= String.length s)%nat.
Proof. induction s as [|c s IH]; simpl; [done|]. destruct (Py.isspace c); simpl; lia. Qed.

Lemma lstrip_fixed_head c s :
  Py.lstrip (String c s) = String c s → Py.isspace c = false.
Proof.
  simpl. destruct (Py.isspace c); [|done]. intros H.
  pose proof (length_lstrip s) as Hlen. rewrite H in Hlen. simpl in Hlen. lia.
Qed.

Lemma rstrip_cons_nonspace c r :
  Py.isspace c = false → Py.rstrip (String c r) = String c (Py.rstrip r).
Proof. intros Hc. simpl. rewrite Hc. by destruct (Py.rstrip r). Qed.

Lemma rstrip_app_nonempty a b :
  Py.rstrip b ≠ EmptyString → Py.rstrip (a ++ b) = a ++ Py.rstrip b.
Proof.
  intros Hb. induction a as [|c a IH]; [done|].
  simpl. rewrite IH.
  change (String c a ++ Py.rstrip b) with (String c (a ++ Py.rstrip b)).
  destruct (a ++ Py.rstrip b) eqn:Heq; [|done].
  destruct a; [change (Py.rstrip b = EmptyString) in Heq; congruence|].
  change (String a (a0 ++ Py.rstrip b) = EmptyString) in Heq. discriminate.
Qed.

Lemma contains_rstrip sep s :
  Py.contains sep s = false → Py.contains sep (Py.rstrip s) = false.
Proof.
  induction s as [|c s IH]; [done|]. simpl.
  intros [Hc Hs]%orb_false_iff. specialize (IH Hs).
  destruct (Py.rstrip s) eqn:Hr.
  - destruct (Py.isspace c); simpl; [done|]. by rewrite Hc.
  - cbn [Py.contains] in *. by rewrite Hc, IH.
Qed.

Lemma clean_name_spec X :
  clean_name X = true →
  Py.lstrip X = X ∧ Py.rstrip X = X ∧ Py.contains "(" X = false
  ∧ Py.contains ")" X = false ∧ Py.contains "," X = false.
Proof.
  unfold clean_name. rewrite !andb_true_iff, !negb_true_iff, !String.eqb_eq. tauto.
Qed.

(** The argument text "Y, X" is cut back into [Y] and [X]. *)
Lemma arguments_of_pair X Y :
  clean_name X = true → clean_name Y = true →
  Py.strip <$> Py.split "," (Py.strip (Y ++ ", " ++ X)) = [Y; X].
Proof.
  intros (HlX & HrX & _ & _ & HcX)%clean_name_spec
         (HlY & HrY & _ & _ & HcY)%clean_name_spec.
  change (Y ++ ", " ++ X) with (Y ++ String "," (String " " X)).
  assert (Hl : Py.lstrip (Y ++ String "," (String " " X))
               = Y ++ String "," (String " " X)).
  { destruct Y as [|c Y]; [done|].
    change (String c Y ++ String "," (String " " X))
      with (String c (Y ++ String "," (String " " X))).
    simpl. by rewrite (lstrip_fixed_head c Y HlY). }
  unfold Py.strip at 2. rewrite Hl.
  assert (Hr : Py.rstrip (String "," (String " " X))
               = String "," (Py.rstrip (String " " X)))
    by (by apply rstrip_cons_nonspace).
  rewrite rstrip_app_nonempty by (by rewrite Hr). rewrite Hr.
  rewrite split_app by done.
  rewrite split_none by (apply contains_rstrip; simpl; done).
  cbn [fmap list_fmap]. f_equal.
  - unfold Py.strip. by rewrite HlY, HrY.
  - f_equal. destruct X as [|c X]; [done|].
    assert (Py.rstrip (String " " (String c X)) = String " " (String c X)) as ->.
    { change (Py.rstrip (String " " (String c X)))
        with (match Py.rstrip (String c X) with
              | EmptyString => EmptyString
              | r' => String " " r' end).
      by rewrite HrX. }
    unfold Py.strip. change (Py.lstrip (String " " (String c X)))
      with (Py.lstrip (String c X)). by rewrite HlX, HrX.
Qed.

Lemma append_assoc (a b c : string) : (a ++ b) ++ c = a ++ (b ++ c).
Proof.
  induction a as [|x a IH]; [done|].
  change (String x ((a ++ b) ++ c) = String x (a ++ (b ++ c))). by rewrite IH.
Qed.

Lemma converse_query_text X Y :
  RelationshipsPy.query (converse_query X Y)
  = query_text "sibling" (Y ++ ", " ++ X) EmptyString.
Proof.
  unfold query_text. rewrite !append_assoc. reflexivity.
Qed.

Lemma in_singleton_rels (rel : Relationship) : rel ∈ [rel].
Proof. apply elem_of_cons. by left. Qed.

(** The converse query parses to the converse atom. *)
Lemma parse_converse_query X Y :
  clean_name X = true → clean_name Y = true →
  parse_query (RelationshipsPy.query (converse_query X Y))
    (entities_of [sibling_of X Y]) (relations_of [sibling_of X Y])
  = Success (App (Function "sibling") (Const Y) (Const X)).
Proof.
  intros HX HY.
  destruct (clean_name_spec X HX) as (_ & _ & HoX & HcX & _).
  destruct (clean_name_spec Y HY) as (_ & _ & HoY & HcY & _).
  destruct (create_entities_spec [sibling_of X Y]) as (ents & He & Hein & _).
  destruct (create_relations_spec [sibling_of X Y]) as (relmap & Hr & Hrin & _).
  unfold entities_of, relations_of. rewrite He, Hr.
  destruct (Hein _ (in_singleton_rels _)) as [H1 H2].
  pose proof (Hrin _ (in_singleton_rels _)) as H0. cbn in H0, H1, H2.
  rewrite converse_query_text, parse_query_well_cut.
  - rewrite (arguments_of_pair X Y HX HY).
    change (Py.strip "sibling") with "sibling". by rewrite H0, H1, H2.
  - split; [reflexivity|]. split; [|split; [reflexivity|]].
    + rewrite !contains_app, HoY, HoX. reflexivity.
    + rewrite !contains_app, HcY, HcX. reflexivity.
Qed.

Variable z3_check : list BoolRef -> Raises CheckSatResult.

(** C2. When some fact names the relation "sibling", the assertion step
    succeeds and leaves on the solver the formulas of the facts, in order,
    followed by the symmetry axiom of "sibling", whatever the facts say.
    Hence, for a backend that is adequate (its unsat answers are right and
    it answers, refuting what has no model, on the formulas of the
    pipeline), the single fact sibling(X, Y) makes every query that parses
    to sibling(Y, X) confirmed: the result is (true, confirmed,
    satisfiable). The text "sibling(Y, X)" is such a query when the two
    names have no outer whitespace, parenthesis or comma. *)
Theorem sibling_symmetry_is_asserted :
  adequate z3_check →
  (∀ rels,
     (∃ rel, rel ∈ rels ∧ relation rel = "sibling") →
     add_relationship_assertions rels (entities_of rels) (relations_of rels) new_solver
     = (Success tt,
        loaded ((fact_formula <$> rels) ++ [symmetry_axiom (Function "sibling")])%list))
  ∧ (∀ X Y q,
       parse_query q (entities_of [sibling_of X Y]) (relations_of [sibling_of X Y])
       = Success (App (Function "sibling") (Const Y) (Const X)) →
       analyze_relationships z3_check
         {| relationships := [sibling_of X Y]; query := q |}
       = Success (verdict true confirmed true))
  ∧ (∀ X Y,
       clean_name X = true → clean_name Y = true →
       analyze_relationships z3_check (converse_query X Y)
       = Success (verdict true confirmed true)).
Proof.
  intros (Hsound & Htotal & Hcomplete).
  assert (Hconfirmed : ∀ X Y q,
    parse_query q (entities_of [sibling_of X Y]) (relations_of [sibling_of X Y])
    = Success (App (Function "sibling") (Const Y) (Const X)) →
    analyze_relationships z3_check
      {| relationships := [sibling_of X Y]; query := q |}
    = Success (verdict true confirmed true)).
  { intros X Y q Hparse.
    set (fact := App (Function "sibling") (Const X) (Const Y)).
    set (Q := App (Function "sibling") (Const Y) (Const X)) in *.
    set (axiom := symmetry_axiom (Function "sibling")).
    assert (Hbase : ∃ r0, z3_check [fact; axiom] = Ret r0 ∧ r0 ≠ unsat).
    { destruct (Htotal [fact; axiom]) as [r0 Hr0]; [done|].
      exists r0. split; [done|]. intros ->. apply (Hsound _ Hr0).
      exists (fun _ _ _ => True), (fun n => n).
      repeat constructor. }
    assert (Hneg : z3_check [fact; axiom; Not Q] = Ret unsat).
    { apply Hcomplete; [done|]. intros (R & rho & Hall).
      inversion Hall as [|? ? Hfact Hall1]; subst.
      inversion Hall1 as [|? ? Haxiom Hall2]; subst.
      inversion Hall2 as [|? ? HnotQ _]; subst.
      apply HnotQ. simpl. by apply (symmetry_axiom_turns R rho "sibling" Y X). }
    destruct Hbase as (r0 & Hr0 & Hne).
    unfold analyze_relationships.
    rewrite (analyze_relationships_run_parsed z3_check
               {| relationships := [sibling_of X Y]; query := q |} _ _ Q
               (create_entities_of _) (create_relations_of _) Hparse).
    cbv zeta.
    change (fact_base (relationships {| relationships := [sibling_of X Y]; query := q |}))
      with [fact; axiom].
    rewrite Hr0, decide_False by done.
    rewrite evaluate_query_run. cbn [after loaded assertions app].
    rewrite Hneg. by rewrite decide_True. }
  split; [|split; [done|]].
  - intros rels Hsib. apply names_sibling_spec in Hsib.
    rewrite (add_relationship_assertions_run rels _ _
               (create_entities_of rels) (create_relations_of rels)).
    unfold fact_base. by rewrite Hsib.
  - intros X Y HX HY. apply Hconfirmed. by apply parse_converse_query.
Qed.

End SiblingSymmetry.

Lemma sibling_symmetry_is_asserted_witness :
  Semantics.adequate Semantics.reference_check
  ∧ RelationshipsPy.analyze_relationships Semantics.reference_check
      (Semantics.converse_query "Alice" "Bob")
    = Success (Facts.verdict true RelationshipsPy.confirmed true).
Proof.
  split; [apply reference_check_adequate|].
  apply (sibling_symmetry_is_asserted Semantics.reference_check
           reference_check_adequate); reflexivity.
Defined.

Example sibling_symmetry_runs :
  RelationshipsPy.analyze_relationships Semantics.reference_check
    (Semantics.converse_query "Alice" "Bob")
  = Success (Facts.verdict true RelationshipsPy.confirmed true).
Proof. vm_compute. reflexivity. Qed.
(** ** Values left out of a solution *)

Lemma count_char_absent sep s :
  Py.contains sep s = false → count_char sep s = 0%nat.
Proof.
  induction s as [|c s IH]; [done|]. simpl.
  intros [-> Hs]%orb_false_iff. by rewrite IH.
Qed.

Section ValueOmission.

Import SolverPy.

Variable BoolRef : Type.
Variable py_eval : string -> gmap string Binding -> Raises BoolRef.
Variable z3_add : list BoolRef -> Raises unit.
Variable z3_check : list BoolRef -> Raises CheckSatResult.
Variable z3_model : list BoolRef -> Raises ModelRef.
Variable z3_declare : Z3Ref -> Raises unit.

(** Extraction of a real symbol whose text has exactly one "/". *)
Lemma get_z3_value_parts (model : ModelRef) (z3_var : Z3Ref) (mv : ModelValue)
    (num den : string) :
  ref_sort z3_var = RealSort → model z3_var = Some mv →
  mv_str mv = num ++ String "/" den →
  Py.contains "/" num = false → Py.contains "/" den = false →
  get_z3_value model z3_var
  = (p ← Py.int num; fp ← Py.float_of_int p;
     q ← Py.int den; fq ← Py.float_of_int q;
     VFloat <$> Py.truediv fp fq).
Proof.
  intros Hsort Hm Hstr Hnum Hden.
  unfold get_z3_value, is_bool, is_int, is_real. rewrite Hm, Hsort, Hstr.
  rewrite contains_app. simpl. rewrite orb_true_r.
  by rewrite split_app, split_none by done.
Qed.

(** C9. On a satisfiable solve with model [model] the solve succeeds,
    every declared variable has a symbol, and for a name with symbol
    [z3_var]: when the model does not bind the symbol the name is left
    out of [values]; when it binds it to a value with text [text], a
    boolean symbol gets the truth value and a string symbol the text; an
    integer symbol is left out when [int(text)] raises and gets the
    integer otherwise; a real symbol without "/" in its text is left out
    when [float(text)] raises and gets the double otherwise; a real symbol
    with more than one "/" is left out; a real symbol with text
    "num/den" is left out when [int(num)] or [int(den)] raises, when
    either integer does not convert to a double, and when the denominator
    is zero, and gets the quotient of the two doubles otherwise. *)
Theorem unconvertible_values_are_omitted problem vars cs model :
  create_variables z3_declare (variables problem) = Success vars →
  fst (create_constraints BoolRef py_eval (constraints problem) vars []) = Success cs →
  z3_add cs = Ret tt →
  z3_check cs = Ret sat →
  z3_model cs = Ret model →
  ∃ sol,
    solve_problem BoolRef py_eval z3_add z3_check z3_model z3_declare problem
    = Success sol
    ∧ is_satisfiable sol = true
    ∧ (∀ v, v ∈ variables problem → is_Some (vars !! var_name v))
    ∧ ∀ name z3_var,
        vars !! name = Some z3_var →
        (model z3_var = None → values sol !! name = None)
        ∧ ∀ mv,
            model z3_var = Some mv →
            (ref_sort z3_var = BoolSort →
               values sol !! name = Some (VBool (mv_is_true mv)))
            ∧ (ref_sort z3_var = StringSort →
               values sol !! name = Some (VStr (mv_str mv)))
            ∧ (ref_sort z3_var = IntSort →
               (Py.int (mv_str mv) = None → values sol !! name = None)
               ∧ (∀ n, Py.int (mv_str mv) = Some n →
                       values sol !! name = Some (VInt n)))
            ∧ (ref_sort z3_var = RealSort →
               (Py.contains "/" (mv_str mv) = false →
                  (Py.float_of_str (mv_str mv) = None → values sol !! name = None)
                  ∧ (∀ f, Py.float_of_str (mv_str mv) = Some f →
                          values sol !! name = Some (VFloat f)))
               ∧ ((2 <= count_char "/" (mv_str mv))%nat → values sol !! name = None)
               ∧ (∀ num den,
                    mv_str mv = num ++ String "/" den →
                    Py.contains "/" num = false → Py.contains "/" den = false →
                    (Py.int num = None ∨ Py.int den = None →
                       values sol !! name = None)
                    ∧ (∀ p q,
                         Py.int num = Some p → Py.int den = Some q →
                         (Py.float_of_int p = None ∨ Py.float_of_int q = None ∨ q = 0 →
                            values sol !! name = None)
                         ∧ (∀ fp fq,
                              Py.float_of_int p = Some fp →
                              Py.float_of_int q = Some fq → q ≠ 0 →
                              values sol !! name
                              = Some (VFloat (SFdiv prec emax fp fq)))))).
Proof.
  intros Hvars Hcs Hadd Hcheck Hmodel.
  destruct (extract_solution_total sat (Some model) vars)
    as (sol & Hsol & _ & Hsat & Hval).
  exists sol. unfold SolverPy.solve_problem, SolverPy.solve.
  rewrite Hvars, Hcs, Hadd, Hcheck, Hmodel. simpl.
  split; [done|]. split; [done|]. simpl in Hval. split.
  { intros v Hv.
    apply (create_variables_spec BoolRef py_eval z3_declare (variables problem) vars
             Hvars).
    apply list_elem_of_fmap. by exists v. }
  intros name z3_var Hname.
  assert (Hget : values sol !! name = get_z3_value model z3_var)
    by (by rewrite Hval, Hname).
  rewrite Hget. clear Hget Hval. split.
  { intros Hnone. unfold get_z3_value. by rewrite Hnone. }
  intros mv Hm. split; [|split; [|split]].
  - intros Hsort. unfold get_z3_value, is_bool. by rewrite Hm, Hsort.
  - intros Hsort. unfold get_z3_value, is_bool, is_int, is_real. by rewrite Hm, Hsort.
  - intros Hsort. unfold get_z3_value, is_bool, is_int. rewrite Hm, Hsort.
    split; [by intros ->|]. by intros n ->.
  - intros Hsort. split; [|split].
    + intros Hno. unfold get_z3_value, is_bool, is_int, is_real.
      rewrite Hm, Hsort, Hno. split; [by intros ->|]. by intros f ->.
    + intros Hcount. unfold get_z3_value, is_bool, is_int, is_real.
      rewrite Hm, Hsort. pose proof (length_split "/" (mv_str mv)) as Hlen.
      destruct (Py.contains "/" (mv_str mv)) eqn:Hc.
      * destruct (Py.split "/" (mv_str mv)) as [|a [|b [|c l]]]; try done.
        simpl in Hlen. lia.
      * rewrite (count_char_absent _ _ Hc) in Hcount. lia.
    + intros num den Hstr Hnum Hden.
      rewrite (get_z3_value_parts model z3_var mv num den) by done. split.
      * intros [-> | Hd]; [done|]. rewrite Hd.
        destruct (Py.int num) as [p|]; [|done]. simpl.
        by destruct (Py.float_of_int p).
      * intros p q -> ->. simpl. split.
        -- intros [-> | [-> | ->]]; [done| |].
           ++ by destruct (Py.float_of_int p).
           ++ by destruct (Py.float_of_int p).
        -- intros fp fq -> Hfq Hq. simpl. rewrite Hfq. simpl.
           unfold Py.truediv. pose proof (float_of_int_nonzero q fq Hq Hfq) as Hnz.
           destruct fq; try done. by destruct (Hnz s).
Qed.

End ValueOmission.

(** ** The statements at concrete inputs *)

Lemma create_constraints_fail_fast_witness :
  ∃ pre c post e,
    Backends.constraint <$> ["x > 0"; "x >"; "x < 1"] = (pre ++ c :: post)%list
    ∧ Forall (fun c' => ∃ v, Backends.demo_eval (SolverPy.expression c')
                               (SolverPy.local_dict ∅) = Ret v) pre
    ∧ Backends.demo_eval (SolverPy.expression c) (SolverPy.local_dict ∅) = Raise e
    ∧ SolverPy.create_constraints string Backends.demo_eval
        (Backends.constraint <$> ["x > 0"; "x >"; "x < 1"]) ∅ []
      = (Failure ("Error parsing constraint '" ++ SolverPy.expression c ++ "': " ++ e),
         ([] ++ (SolverPy.expression <$> pre) ++ [SolverPy.expression c])%list)
    ∧ ∀ problem,
        SolverPy.create_variables Backends.demo_declare (SolverPy.variables problem)
        = Success ∅ →
        SolverPy.constraints problem = Backends.constraint <$> ["x > 0"; "x >"; "x < 1"] →
        SolverPy.solve_problem string Backends.demo_eval Backends.demo_add
          Backends.demo_check Backends.demo_model
      Backends.demo_declare problem
        = Failure ("Error parsing constraint '" ++ SolverPy.expression c ++ "': " ++ e).
Proof.
  apply (create_constraints_fail_fast string Backends.demo_eval Backends.demo_add
           Backends.demo_check Backends.demo_model
      Backends.demo_declare).
  exists (Backends.constraint "x >"). split.
  - apply list_elem_of_In. simpl. auto.
  - exists "invalid syntax". reflexivity.
Defined.

Lemma solution_status_is_result_witness :
  ∃ sol,
    SolverPy.solve_problem string Backends.demo_eval Backends.demo_add
      Backends.demo_check Backends.demo_model
      Backends.demo_declare
      (Backends.demo_problem ["x > 0"; "x < 1"]) = Success sol
    ∧ Backends.demo_check ["x > 0"; "x < 1"] = Ret SolverPy.unknown
    ∧ SolverPy.status sol = SolverPy.str_result SolverPy.unknown
    ∧ (SolverPy.is_satisfiable sol = true ↔ SolverPy.unknown = SolverPy.sat)
    ∧ (SolverPy.unknown = SolverPy.unknown →
       SolverPy.is_satisfiable sol = false ∧ SolverPy.status sol = "unknown")
    ∧ (SolverPy.unknown = SolverPy.unsat →
       SolverPy.is_satisfiable sol = false ∧ SolverPy.status sol = "unsat").
Proof.
  apply (solution_status_is_result string Backends.demo_eval Backends.demo_add
           Backends.demo_check Backends.demo_model
      Backends.demo_declare
           (Backends.demo_problem ["x > 0"; "x < 1"])
           (<["y" := SolverPy.Int "y"]> (<["x" := SolverPy.Real "x"]> ∅))
           ["x > 0"; "x < 1"] SolverPy.unknown None); reflexivity.
Defined.

Lemma unconvertible_values_are_omitted_witness :
  ∃ sol,
    SolverPy.solve_problem string Backends.demo_eval Backends.demo_add
      Backends.demo_check Inputs.overflow_model Backends.demo_declare
      Inputs.overflow_problem = Success sol
    ∧ SolverPy.is_satisfiable sol = true
    ∧ Inputs.overflow_values (SolverPy.Real "x")
      = Some {| SolverPy.mv_str := Canonical.ratio (10 ^ 309) 3;
                SolverPy.mv_is_true := false |}
    ∧ SolverPy.values sol !! "x" = None
    ∧ SolverPy.values sol !! "y" = Some (SolverPy.VInt 7)
    ∧ Inputs.overflow_values (SolverPy.Bool "z") = None
    ∧ SolverPy.values sol !! "z" = None.
Proof.
  destruct (unconvertible_values_are_omitted string Backends.demo_eval Backends.demo_add
              Backends.demo_check Inputs.overflow_model Backends.demo_declare
              Inputs.overflow_problem
              (<["z" := SolverPy.Bool "z"]>
                 (<["y" := SolverPy.Int "y"]> (<["x" := SolverPy.Real "x"]> ∅)))
              ["3 * x == 10 ** 309"] Inputs.overflow_values
              eq_refl eq_refl eq_refl eq_refl eq_refl)
    as (sol & Hsol & Hsat & _ & Hval).
  exists sol. split; [exact Hsol|]. split; [exact Hsat|].
  split; [reflexivity|]. split; [|split; [|split; [reflexivity|]]].
  - destruct (Hval "x" (SolverPy.Real "x") ltac:(vm_compute; reflexivity))
      as [_ Hbound].
    destruct (Hbound _ eq_refl) as (_ & _ & _ & Hreal).
    destruct (Hreal eq_refl) as (_ & _ & Hparts).
    destruct (Hparts (Canonical.str_int (10 ^ 309)) (Canonical.str_int 3)
                ltac:(vm_compute; reflexivity) ltac:(vm_compute; reflexivity)
                ltac:(vm_compute; reflexivity)) as [_ Hints].
    destruct (Hints (10 ^ 309) 3 ltac:(vm_compute; reflexivity)
                ltac:(vm_compute; reflexivity)) as [Hover _].
    apply Hover. left. vm_compute. reflexivity.
  - destruct (Hval "y" (SolverPy.Int "y") ltac:(vm_compute; reflexivity))
      as [_ Hbound].
    destruct (Hbound _ eq_refl) as (_ & _ & Hint & _).
    apply (proj2 (Hint eq_refl)). vm_compute. reflexivity.
  - destruct (Hval "z" (SolverPy.Bool "z") ltac:(vm_compute; reflexivity))
      as [Hunbound _].
    apply Hunbound. reflexivity.
Defined.

Lemma values_keys_are_declared_witness :
  let sol := {| SolverPy.values := <["x" := SolverPy.VFloat (Prim2SF 2.5%float)]> ∅;
                SolverPy.is_satisfiable := true;
                SolverPy.status := "sat" |} in
  SolverPy.solve_problem string Backends.demo_eval Backends.demo_add
    Backends.demo_check Backends.demo_model
      Backends.demo_declare
    (Backends.demo_problem ["2 * x == 5"]) = Success sol
  ∧ ∀ name, is_Some (SolverPy.values sol !! name) → name ∈ ["x"; "y"].
Proof.
  intros sol.
  assert (Hsol : SolverPy.solve_problem string Backends.demo_eval Backends.demo_add
                   Backends.demo_check Backends.demo_model
      Backends.demo_declare
                   (Backends.demo_problem ["2 * x == 5"]) = Success sol)
    by (vm_compute; reflexivity).
  split; [exact Hsol|].
  apply (values_keys_are_declared string Backends.demo_eval Backends.demo_add
           Backends.demo_check Backends.demo_model
      Backends.demo_declare
           (Backends.demo_problem ["2 * x == 5"]) sol Hsol).
Defined.

(** * Further properties *)

(** ** Declaration and compilation *)

Section MoreSolverFacts.

Import SolverPy More.

Variable BoolRef : Type.
Variable py_eval : string -> gmap string Binding -> Raises BoolRef.
Variable z3_add : list BoolRef -> Raises unit.
Variable z3_check : list BoolRef -> Raises CheckSatResult.
Variable z3_model : list BoolRef -> Raises ModelRef.
Variable z3_declare : Z3Ref -> Raises unit.

Local Abbreviation create_constraints := (create_constraints BoolRef py_eval).
Local Abbreviation solve := (solve BoolRef z3_add z3_check z3_model).
Local Abbreviation solve_problem :=
  (solve_problem BoolRef py_eval z3_add z3_check z3_model z3_declare).
Local Abbreviation create_variable := (create_variable z3_declare).
Local Abbreviation create_variables_loop := (create_variables_loop z3_declare).
Local Abbreviation create_variables := (create_variables z3_declare).

Lemma create_variable_declarable v r :
  symbol_of v = Some r → z3_declare r = Ret tt →
  create_variable v = Success (var_name v, r).
Proof.
  unfold SolverPy.create_variable, symbol_of, new_symbol.
  destruct (var_type v) as [[]|]; [| | | |done]; intros [= <-] Hd;
    unfold Int, Real, Bool, String_; simpl in Hd; by rewrite Hd.
Qed.

Lemma create_variable_other v text :
  var_type v = other text →
  create_variable v = Failure ("Unsupported variable type: " ++ text).
Proof. unfold SolverPy.create_variable. by intros ->. Qed.

Lemma create_variable_raises v r err :
  symbol_of v = Some r → z3_declare r = Raise err →
  create_variable v = Failure ("Error creating variable " ++ var_name v ++ ": " ++ err).
Proof.
  unfold SolverPy.create_variable, symbol_of, new_symbol.
  destruct (var_type v) as [[]|]; [| | | |done]; intros [= <-] Hd;
    unfold Int, Real, Bool, String_; simpl in Hd; by rewrite Hd.
Qed.

Lemma create_variable_success v name r :
  create_variable v = Success (name, r) →
  name = var_name v ∧ symbol_of v = Some r ∧ z3_declare r = Ret tt.
Proof.
  unfold SolverPy.create_variable, symbol_of, new_symbol.
  destruct (var_type v) as [[]|]; [| | | |done];
    unfold Int, Real, Bool, String_; simpl;
    (destruct (z3_declare _) as [[]|] eqn:Hd; [|done]);
    intros [= <- <-]; auto.
Qed.

Lemma create_variable_failure v e :
  create_variable v = Failure e →
  (∃ text, var_type v = other text ∧ e = "Unsupported variable type: " ++ text)
  ∨ (∃ r err, symbol_of v = Some r ∧ z3_declare r = Raise err
              ∧ e = "Error creating variable " ++ var_name v ++ ": " ++ err).
Proof.
  unfold SolverPy.create_variable, symbol_of, new_symbol.
  destruct (var_type v) as [[]|text]; [| | | |intros [= <-]; left; eauto];
    unfold Int, Real, Bool, String_; simpl;
    (destruct (z3_declare _) as [[]|err] eqn:Hd; [done|]);
    intros [= <-]; right; eauto.
Qed.

Lemma create_variables_loop_foldl vs : ∀ d,
  Forall (declarable z3_declare) vs →
  create_variables_loop d vs = Success (foldl declare_into d vs).
Proof.
  induction vs as [|v vs IH]; intros d Hall; simpl; [done|].
  inversion Hall as [|? ? (r & Hr & Hd) Hrest]; subst.
  rewrite (create_variable_declarable v r Hr Hd), IH by done.
  f_equal. f_equal. unfold declare_into. by rewrite Hr.
Qed.

Lemma create_variables_loop_stops pre v post e : ∀ d,
  Forall (declarable z3_declare) pre → create_variable v = Failure e →
  create_variables_loop d (pre ++ v :: post) = Failure e.
Proof.
  induction pre as [|w pre IH]; intros d Hall Hv; simpl.
  - by rewrite Hv.
  - inversion Hall as [|? ? (r & Hr & Hd) Hrest]; subst.
    rewrite (create_variable_declarable w r Hr Hd). by apply IH.
Qed.

Lemma create_variables_loop_inv vs : ∀ d vars,
  create_variables_loop d vs = Success vars → Forall (declarable z3_declare) vs.
Proof.
  induction vs as [|v vs IH]; intros d vars; simpl; [constructor|].
  destruct (create_variable v) as [[name r]|] eqn:Hv; [|done].
  apply create_variable_success in Hv as (-> & Hr & Hd).
  intros Hloop. constructor; [by exists r|by eapply IH].
Qed.

Lemma create_variables_loop_failure vs : ∀ d e,
  create_variables_loop d vs = Failure e →
  ∃ v, v ∈ vs ∧ create_variable v = Failure e.
Proof.
  induction vs as [|v vs IH]; intros d e; simpl; [done|].
  destruct (create_variable v) as [[name r]|e'] eqn:Hv.
  - intros (w & Hw & He)%IH. exists w. split; [apply elem_of_cons; auto|done].
  - intros [= <-]. exists v. split; [apply elem_of_cons; auto|done].
Qed.

Lemma foldl_insert_later (post : list Variable_) : ∀ (d : gmap string Z3Ref) name,
  (∀ w, w ∈ post → var_name w ≠ name) →
  foldl declare_into d post !! name = d !! name.
Proof.
  induction post as [|w post IH]; intros d name Hpost; simpl; [done|].
  rewrite IH by (intros; apply Hpost; apply elem_of_cons; auto).
  unfold declare_into. destruct (symbol_of w); [|done].
  apply lookup_insert_ne. apply Hpost. apply elem_of_cons. auto.
Qed.

(** X1. A batch of variables is declared exactly when each has one of the
    four types and the library returns its symbol; the symbol table then
    maps a name to the symbol of the last variable declared with that
    name, with the sort of that variable's type, and holds no other name.
    Otherwise the batch stops at the first variable that cannot be
    declared and returns its failure, "Unsupported variable type: ..." or
    "Error creating variable ...", and no symbol table. *)
Theorem create_variables_last_declaration_wins (vs : list Variable_) :
  (Forall (declarable z3_declare) vs →
     ∃ vars,
       create_variables vs = Success vars
       ∧ (∀ pre v post,
            vs = (pre ++ v :: post)%list →
            (∀ w, w ∈ post → var_name w ≠ var_name v) →
            vars !! var_name v = symbol_of v)
       ∧ (∀ name, name ∉ var_name <$> vs → vars !! name = None))
  ∧ ((∃ vars, create_variables vs = Success vars) →
     Forall (declarable z3_declare) vs)
  ∧ (∀ pre v post,
       vs = (pre ++ v :: post)%list → Forall (declarable z3_declare) pre →
       (∀ text,
          var_type v = other text →
          create_variables vs = Failure ("Unsupported variable type: " ++ text))
       ∧ (∀ r err,
            symbol_of v = Some r → z3_declare r = Raise err →
            create_variables vs
            = Failure ("Error creating variable " ++ var_name v ++ ": " ++ err))).
Proof.
  split; [|split].
  - intros Hall. eexists. split; [by apply create_variables_loop_foldl|]. split.
    + intros pre v post -> Hpost. rewrite foldl_app. simpl.
      rewrite foldl_insert_later by done.
      apply Forall_app in Hall as [_ Hall].
      inversion Hall as [|? ? (r & Hr & _) _]; subst.
      unfold declare_into. rewrite Hr. apply lookup_insert_eq.
    + intros name Hname. rewrite foldl_insert_later; [apply lookup_empty|].
      intros w Hw Heq. apply Hname. apply list_elem_of_fmap. by exists w.
  - intros [vars Hvars]. by apply (create_variables_loop_inv vs ∅ vars).
  - intros pre v post -> Hpre. split.
    + intros text Hty. apply create_variables_loop_stops; [done|].
      by apply create_variable_other.
    + intros r err Hr Hd. apply create_variables_loop_stops; [done|].
      by apply (create_variable_raises v r err).
Qed.

(** X2. In the environment of [eval] the ten fixed names always denote
    the combinators and literals, also when a variable of that name is
    declared; every other name denotes the variable of that name, if
    any. *)
Theorem fixed_names_shadow_variables (vars : gmap string Z3Ref) (name : string) :
  (name ∈ fixed_names →
     ∃ b, local_dict vars !! name = Some b ∧ combinators !! name = Some b
          ∧ ∀ r, b ≠ BVar r)
  ∧ (name ∉ fixed_names → local_dict vars !! name = BVar <$> vars !! name).
Proof.
  unfold local_dict. split.
  - intros Hin. unfold fixed_names in Hin.
    repeat (apply elem_of_cons in Hin as [->|Hin]);
      [eexists; split; [apply lookup_union_Some_l|]; split; try reflexivity; done ..|].
    by apply elem_of_nil in Hin.
  - intros Hout.
    assert (Hne : ∀ k, In k fixed_names → k ≠ name).
    { intros k Hk <-. apply Hout. by apply list_elem_of_In. }
    rewrite lookup_union_r; [apply lookup_fmap|].
    unfold combinators.
    rewrite !lookup_insert_ne by (apply Hne; simpl; tauto).
    apply lookup_empty.
Qed.

Lemma create_constraints_loop_all vars (cs : list Constraint_) : ∀ vs acc log,
  Forall2 (fun c v => py_eval (expression c) (local_dict vars) = Ret v) cs vs →
  create_constraints_loop BoolRef py_eval acc cs vars log
  = (Success (acc ++ vs)%list, (log ++ (expression <$> cs))%list).
Proof.
  induction cs as [|c cs IH]; intros vs acc log Hall.
  - inversion Hall; subst. simpl. by rewrite !app_nil_r.
  - inversion Hall as [|? v ? vs' Hv Hrest]; subst. simpl.
    unfold parse_constraint. rewrite Hv.
    rewrite (IH vs') by done. by rewrite <- !app_assoc.
Qed.

(** X3. When every constraint of a batch evaluates, compilation returns
    the values in the order of the constraints, one per constraint, and
    has evaluated every expression once, in order. *)
Theorem create_constraints_keeps_order (cs : list Constraint_) (vs : list BoolRef)
    (vars : gmap string Z3Ref) (log : EvalLog) :
  Forall2 (fun c v => py_eval (expression c) (local_dict vars) = Ret v) cs vs →
  create_constraints cs vars log
  = (Success vs, (log ++ (expression <$> cs))%list)
  ∧ length vs = length cs.
Proof.
  intros Hall. split.
  - unfold SolverPy.create_constraints. by rewrite (create_constraints_loop_all vars cs vs).
  - symmetry. by eapply Forall2_length.
Qed.

(** Compilation succeeds only when every constraint evaluates. *)
Lemma create_constraints_loop_inv vars (cs : list Constraint_) : ∀ acc log out,
  fst (create_constraints_loop BoolRef py_eval acc cs vars log) = Success out →
  ∃ vs, out = (acc ++ vs)%list
        ∧ Forall2 (fun c v => py_eval (expression c) (local_dict vars) = Ret v) cs vs.
Proof.
  induction cs as [|c cs IH]; intros acc log out; simpl.
  - intros [= <-]. exists []. by rewrite app_nil_r.
  - unfold parse_constraint.
    destruct (py_eval (expression c) (local_dict vars)) as [v|e] eqn:Hv; [|done].
    intros (vs & -> & Hall)%IH. exists (v :: vs).
    split; [by rewrite <- app_assoc|]. by constructor.
Qed.

Lemma create_constraints_loop_failure vars (cs : list Constraint_) : ∀ acc log e,
  fst (create_constraints_loop BoolRef py_eval acc cs vars log) = Failure e →
  ∃ c err, c ∈ cs ∧ py_eval (expression c) (local_dict vars) = Raise err
           ∧ e = "Error parsing constraint '" ++ expression c ++ "': " ++ err.
Proof.
  induction cs as [|c cs IH]; intros acc log e; simpl; [done|].
  unfold parse_constraint.
  destruct (py_eval (expression c) (local_dict vars)) as [v|err] eqn:Hv.
  - intros (c' & err & Hin & H1 & H2)%IH. exists c', err.
    split; [apply elem_of_cons; auto|done].
  - intros [= <-]. exists c, err. split; [apply elem_of_cons; auto|done].
Qed.

(** X4. The whole solve succeeds exactly when every constraint evaluates,
    [add] and [check] return, and, when the verdict is sat, [model]
    returns; on every other verdict the model is not asked for, so a
    raising [model] does no harm. *)
Theorem solve_problem_succeeds_iff (problem : Problem) :
  (∃ sol, solve_problem problem = Success sol)
  ↔ ∃ vars cs r,
      create_variables (variables problem) = Success vars
      ∧ Forall2 (fun c v => py_eval (expression c) (local_dict vars) = Ret v)
          (constraints problem) cs
      ∧ z3_add cs = Ret tt
      ∧ z3_check cs = Ret r
      ∧ (r = sat → ∃ model, z3_model cs = Ret model).
Proof.
  split.
  - intros [sol Hsol]. unfold SolverPy.solve_problem in Hsol.
    destruct (create_variables (variables problem)) as [vars|] eqn:Hvars; [|done].
    destruct (fst _) as [cs|] eqn:Hcs; [|done].
    apply create_constraints_loop_inv in Hcs as (vs & -> & Hall).
    unfold SolverPy.solve in Hsol.
    destruct (z3_add _) as [[]|] eqn:Hadd; [|done].
    destruct (z3_check _) as [r|] eqn:Hcheck; [|done].
    exists vars, vs, r. repeat split; try done.
    intros ->. rewrite decide_True in Hsol by done.
    destruct (z3_model _) as [model|]; [eauto|done].
  - intros (vars & cs & r & Hvars & Hall & Hadd & Hcheck & Hmodel).
    unfold SolverPy.solve_problem, SolverPy.create_constraints. rewrite Hvars.
    rewrite (create_constraints_loop_all vars _ cs) by done. cbn [fst app].
    unfold SolverPy.solve. rewrite Hadd, Hcheck.
    destruct (decide (r = sat)) as [Hr|Hr].
    + destruct (Hmodel Hr) as [model ->]. unfold extract_solution. eauto.
    + unfold extract_solution. eauto.
Qed.

(** X5. A failure of the whole solve is the failure of a variable that
    cannot be declared, "Unsupported variable type: ..." or "Error
    creating variable ...", the failure of a constraint that does not
    evaluate, or "Error solving constraints: ..." from the backend. *)
Theorem solve_problem_failures (problem : Problem) (e : string) :
  solve_problem problem = Failure e →
  (∃ v text,
     v ∈ variables problem ∧ var_type v = other text
     ∧ e = "Unsupported variable type: " ++ text)
  ∨ (∃ v err,
       v ∈ variables problem
       ∧ e = "Error creating variable " ++ var_name v ++ ": " ++ err)
  ∨ (∃ c err,
       c ∈ constraints problem
       ∧ e = "Error parsing constraint '" ++ expression c ++ "': " ++ err)
  ∨ (∃ err, e = "Error solving constraints: " ++ err).
Proof.
  unfold SolverPy.solve_problem.
  destruct (create_variables (variables problem)) as [vars|e'] eqn:Hvars.
  - destruct (fst _) as [cs|e'] eqn:Hcs.
    + unfold SolverPy.solve, extract_solution.
      destruct (z3_add cs); [|intros [= <-]; eauto 6].
      destruct (z3_check cs) as [r|]; [|intros [= <-]; eauto 6].
      destruct (decide (r = sat)); [|done].
      destruct (z3_model cs); [done|intros [= <-]; eauto 6].
    + intros [= <-].
      apply create_constraints_loop_failure in Hcs as (c & err & Hin & _ & ->).
      right. right. left. eauto.
  - intros [= <-].
    apply create_variables_loop_failure in Hvars as (v & Hin & Hv).
    apply create_variable_failure in Hv as [(text & Hty & ->)|(r & err & _ & _ & ->)].
    + left. eauto.
    + right. left. eauto.
Qed.

End MoreSolverFacts.

(** ** Extraction by sort *)

Section MoreExtraction.

Import SolverPy More.

(** X6. An integer-sorted symbol whose model value has the decimal text
    of [n] extracts as the integer [n], for every [n] of at most 4300
    digits; whatever text does not read as an integer leaves the symbol
    out. *)
Theorem integer_value_round_trip (model : ModelRef) (z3_var : Z3Ref) (v : ModelValue) :
  ref_sort z3_var = IntSort → model z3_var = Some v →
  (∀ n, Z.abs n < 10 ^ Py.int_max_str_digits →
        mv_str v = Canonical.str_int n →
        get_z3_value model z3_var = Some (VInt n))
  ∧ (Py.int (mv_str v) = None → get_z3_value model z3_var = None)
  ∧ (∀ x, get_z3_value model z3_var = Some x →
          ∃ n, x = VInt n ∧ Py.int (mv_str v) = Some n).
Proof.
  intros Hsort Hm. unfold get_z3_value, is_bool, is_int. rewrite Hm, Hsort.
  split; [|split].
  - intros n Hn ->. by rewrite int_str_int.
  - by intros ->.
  - intros x. destruct (Py.int (mv_str v)) as [n|]; [|done].
    intros [= <-]. eauto.
Qed.

(** X7. For a symbol the model binds, extraction always yields a value
    when the sort is boolean (the truth value) or string (the canonical
    text as it is, quoting included); only integer and real symbols can be
    left out. *)
Theorem extraction_fails_only_on_numbers (model : ModelRef) (z3_var : Z3Ref)
    (v : ModelValue) :
  model z3_var = Some v →
  (ref_sort z3_var = BoolSort →
     get_z3_value model z3_var = Some (VBool (mv_is_true v)))
  ∧ (ref_sort z3_var = StringSort →
     get_z3_value model z3_var = Some (VStr (mv_str v)))
  ∧ (get_z3_value model z3_var = None →
     ref_sort z3_var = IntSort ∨ ref_sort z3_var = RealSort).
Proof.
  intros Hm. unfold get_z3_value, is_bool, is_int, is_real. rewrite Hm.
  destruct (ref_sort z3_var); repeat split; try done; auto.
Qed.

Lemma truediv_by_zero_text num den :
  Py.int den = Some 0 →
  (num' ← Py.int num; fnum ← Py.float_of_int num';
   den' ← Py.int den; fden ← Py.float_of_int den';
   VFloat <$> Py.truediv fnum fden) = None.
Proof.
  intros ->. destruct (Py.int num) as [n|]; [|done]. simpl.
  by destruct (Py.float_of_int n).
Qed.

(** X8. A real-sorted symbol is left out when its text has a zero
    denominator, whatever the numerator, and when it has more than one
    "/". *)
Theorem real_value_edge_cases (model : ModelRef) (z3_var : Z3Ref) (v : ModelValue) :
  ref_sort z3_var = RealSort → model z3_var = Some v →
  (∀ num den,
     mv_str v = num ++ String "/" den →
     Py.contains "/" num = false → Py.contains "/" den = false →
     Py.int den = Some 0 →
     get_z3_value model z3_var = None)
  ∧ ((2 <= count_char "/" (mv_str v))%nat → get_z3_value model z3_var = None).
Proof.
  intros Hsort Hm. unfold get_z3_value, is_bool, is_int, is_real.
  rewrite Hm, Hsort. split.
  - intros num den -> Hnum Hden Hzero.
    rewrite contains_app. simpl. rewrite orb_true_r.
    rewrite split_app, split_none by done.
    by apply truediv_by_zero_text.
  - intros Hcount. pose proof (length_split "/" (mv_str v)) as Hlen.
    destruct (Py.contains "/" (mv_str v)) eqn:Hc.
    + destruct (Py.split "/" (mv_str v)) as [|a [|b [|c l]]]; try done.
      simpl in Hlen. lia.
    + rewrite (count_char_absent _ _ Hc) in Hcount. lia.
Qed.

End MoreExtraction.

(** ** Declaration and assertion of facts *)

Section MoreRelationshipFacts.

Import SolverPy (CheckSatResult, sat, unsat, unknown).
Import RelationshipsPy Facts More.

Lemma entities_of_lookup rels n :
  (endpoint rels n → entities_of rels !! n = Some (entity n))
  ∧ (¬ endpoint rels n → entities_of rels !! n = None).
Proof.
  unfold entities_of, endpoint.
  destruct (create_entities_spec rels) as (ents & -> & Hin & Hout). split.
  - intros (rel & Hrel & [->| ->]); by destruct (Hin rel Hrel).
  - intros Hno. destruct (ents !! n) as [e|] eqn:He; [|done].
    destruct (Hout n e He) as (_ & Hex). by destruct Hno.
Qed.

Lemma relations_of_lookup rels n :
  (named_relation rels n → relations_of rels !! n = Some (relation_ n))
  ∧ (¬ named_relation rels n → relations_of rels !! n = None).
Proof.
  unfold relations_of, named_relation.
  destruct (create_relations_spec rels) as (relmap & -> & Hin & Hout). split.
  - intros (rel & Hrel & ->). by apply Hin.
  - intros Hno. destruct (relmap !! n) as [r|] eqn:Hr; [|done].
    destruct (Hout n r Hr) as (_ & Hex). by destruct Hno.
Qed.

(** X9. Declaration is idempotent per name: a name has an entity exactly
    when it is an endpoint of some fact, a relation exactly when some fact
    names it, each carrying its own name and its own symbol; so fact lists
    with the same endpoints (the same relation names) get the same
    dictionary, whatever their order, repetitions or truth values. *)
Theorem declaration_depends_on_names_only (rels : list Relationship) :
  (∀ n e, entities_of rels !! n = Some e ↔ e = entity n ∧ endpoint rels n)
  ∧ (∀ n r, relations_of rels !! n = Some r ↔ r = relation_ n ∧ named_relation rels n)
  ∧ (∀ rels', (∀ n, endpoint rels n ↔ endpoint rels' n) →
        create_entities rels = create_entities rels')
  ∧ (∀ rels', (∀ n, named_relation rels n ↔ named_relation rels' n) →
        create_relations rels = create_relations rels').
Proof.
  assert (He : ∀ rs n e,
    entities_of rs !! n = Some e ↔ e = entity n ∧ endpoint rs n).
  { intros rs n e. destruct (entities_of_lookup rs n) as [Hyes Hno]. split.
    - intros Hlook. destruct (create_entities_spec rs) as (ents & Hc & _ & Hout).
      unfold entities_of in Hlook. rewrite Hc in Hlook.
      destruct (Hout n e Hlook) as [-> Hend]. done.
    - intros [-> Hend]. by apply Hyes. }
  assert (Hr : ∀ rs n r,
    relations_of rs !! n = Some r ↔ r = relation_ n ∧ named_relation rs n).
  { intros rs n r. destruct (relations_of_lookup rs n) as [Hyes Hno]. split.
    - intros Hlook. destruct (create_relations_spec rs) as (relmap & Hc & _ & Hout).
      unfold relations_of in Hlook. rewrite Hc in Hlook.
      destruct (Hout n r Hlook) as [-> Hnamed]. done.
    - intros [-> Hnamed]. by apply Hyes. }
  split; [apply He|]. split; [apply Hr|]. split.
  - intros rels' Hsame. rewrite !create_entities_of. f_equal.
    apply map_eq. intros n. apply option_eq. intros e.
    rewrite !He, Hsame. done.
  - intros rels' Hsame. rewrite !create_relations_of. f_equal.
    apply map_eq. intros n. apply option_eq. intros r.
    rewrite !Hr, Hsame. done.
Qed.

Lemma assert_facts_app ents relmap continue (pre rest : list Relationship) : ∀ s,
  assert_facts (pre ++ rest) ents relmap continue s
  = assert_facts pre ents relmap (assert_facts rest ents relmap continue) s.
Proof.
  induction pre as [|p pre IH]; intros s; [done|].
  simpl. unfold bind, getitem.
  destruct (relmap !! relation p) as [r|]; [|done].
  destruct (ents !! person1 p) as [e1|]; [|done].
  destruct (ents !! person2 p) as [e2|]; [|done].
  destruct (z3_func r), (z3_const e1), (z3_const e2); try done.
  destruct (value p); simpl; apply IH.
Qed.

(** X10. Assertion is not all-or-nothing: when a fact names a relation
    that the dictionary lacks or that has no function symbol, the failure
    is returned with the formulas of the facts before it already asserted
    on the solver, and without the symmetry axiom. *)
Theorem assertion_failure_keeps_earlier_facts
    (ents : gmap string Entity) (relmap : gmap string Relation)
    (pre post : list Relationship) (rel : Relationship) :
  (∀ rel', rel' ∈ pre →
     relmap !! relation rel' = Some (relation_ (relation rel'))
     ∧ ents !! person1 rel' = Some (entity (person1 rel'))
     ∧ ents !! person2 rel' = Some (entity (person2 rel'))) →
  (relmap !! relation rel = None →
     ∃ msg,
       add_relationship_assertions (pre ++ rel :: post) ents relmap new_solver
       = (Failure ("Error adding relationship assertions: " ++ msg),
          loaded (fact_formula <$> pre)))
  ∧ (∀ r e1 e2,
       relmap !! relation rel = Some r → z3_func r = None →
       ents !! person1 rel = Some e1 → ents !! person2 rel = Some e2 →
       add_relationship_assertions (pre ++ rel :: post) ents relmap new_solver
       = (Failure ("Relation " ++ relation rel ++ " has no Z3 function"),
          loaded (fact_formula <$> pre))).
Proof.
  intros Hpre.
  assert (Hsplit : ∀ continue s,
    assert_facts (pre ++ rel :: post) ents relmap continue s
    = assert_facts (rel :: post) ents relmap continue
        {| assertions := (assertions s ++ (fact_formula <$> pre))%list;
           scopes := scopes s;
           history := (history s ++ (OpAdd <$> (fact_formula <$> pre)))%list |}).
  { intros continue s. rewrite assert_facts_app. by apply assert_facts_run. }
  split.
  - intros Hnone. exists (key_error (relation rel)).
    unfold add_relationship_assertions. rewrite Hsplit.
    simpl. unfold bind at 1, getitem at 1. by rewrite Hnone.
  - intros r e1 e2 Hr Hf H1 H2.
    unfold add_relationship_assertions. rewrite Hsplit.
    simpl. unfold bind, getitem. rewrite Hr, H1, H2, Hf. done.
Qed.

End MoreRelationshipFacts.

(** ** Verdicts *)

Section MoreVerdicts.

Import SolverPy (CheckSatResult, sat, unsat, unknown).
Import RelationshipsPy Facts Semantics More.

Variable z3_check : list BoolRef -> Raises CheckSatResult.

(** The whole request, by the outcome of the parse and the answers of the
    three checks. *)
Lemma analyze_relationships_unfold (query : RelationshipQuery) :
  let rels := relationships query in
  let F := fact_base rels in
  analyze_relationships z3_check query =
  match parse_query query.(RelationshipsPy.query) (entities_of rels) (relations_of rels) with
  | Failure e => Failure e
  | Success Q =>
      match z3_check F with
      | Raise e => Failure ("Error analyzing relationships: " ++ e)
      | Ret r0 =>
          if decide (r0 = unsat) then Success (verdict false contradictory false)
          else
            match z3_check (F ++ [Not Q])%list with
            | Raise e => Failure ("Error evaluating query: " ++ e)
            | Ret r1 =>
                if decide (r1 = unsat) then Success (verdict true confirmed true)
                else
                  match z3_check (F ++ [Q])%list with
                  | Raise e => Failure ("Error evaluating query: " ++ e)
                  | Ret r2 =>
                      Success (verdict false
                                 (if decide (r2 = unsat) then contradicted else possible)
                                 true)
                  end
            end
      end
  end.
Proof.
  intros rels F.
  destruct (parse_query _ _ _) as [Q|e] eqn:Hparse.
  - unfold analyze_relationships.
    rewrite (analyze_relationships_run_parsed z3_check query _ _ Q
               (create_entities_of rels) (create_relations_of rels) Hparse).
    fold rels F. cbv zeta.
    destruct (z3_check F) as [r0|e0]; [|done].
    destruct (decide (r0 = unsat)); [done|].
    rewrite evaluate_query_run. cbn [after loaded assertions].
    destruct (z3_check (F ++ [Not Q])%list) as [r1|e1]; [|done].
    destruct (decide (r1 = unsat)); [done|].
    by destruct (z3_check (F ++ [Q])%list) as [r2|e2].
  - unfold analyze_relationships, analyze_relationships_run. fold rels.
    rewrite (create_entities_of rels), (create_relations_of rels).
    rewrite (add_relationship_assertions_run rels _ _
               (create_entities_of rels) (create_relations_of rels)).
    by rewrite Hparse.
Qed.

(** X11. Whatever the backend answers, a verdict returned is one of four
    fixed records; [result] is true only in the confirmed one, and
    [is_satisfiable] is false only in the contradictory one. *)
Theorem verdict_is_one_of_four (query : RelationshipQuery) (v : RelationshipResult) :
  analyze_relationships z3_check query = Success v →
  v ∈ four_verdicts
  ∧ (result v = true ↔ v = verdict true confirmed true)
  ∧ (is_satisfiable v = false ↔ v = verdict false contradictory false).
Proof.
  rewrite analyze_relationships_unfold. cbv zeta.
  destruct (parse_query _ _ _) as [Q|]; [|done].
  destruct (z3_check _) as [r0|]; [|done].
  assert (Hall : ∀ w, w ∈ four_verdicts →
    w ∈ four_verdicts
    ∧ (result w = true ↔ w = verdict true confirmed true)
    ∧ (is_satisfiable w = false ↔ w = verdict false contradictory false)).
  { intros w Hw. split; [done|]. unfold four_verdicts in Hw.
    repeat (apply elem_of_cons in Hw as [->|Hw]); [by split ..|].
    by apply elem_of_nil in Hw. }
  assert (Hmem : ∀ w, In w four_verdicts → w ∈ four_verdicts)
    by (intros w; apply list_elem_of_In).
  destruct (decide (r0 = unsat)).
  { intros [= <-]. apply Hall, Hmem. simpl. tauto. }
  destruct (z3_check _) as [r1|]; [|done].
  destruct (decide (r1 = unsat)).
  { intros [= <-]. apply Hall, Hmem. simpl. tauto. }
  destruct (z3_check _) as [r2|]; [|done].
  intros [= <-]. apply Hall, Hmem. destruct (decide (r2 = unsat)); simpl; tauto.
Qed.

(** X12. The request fails only with the failure of the parse, with
    "Error analyzing relationships: ..." when the first check raises, or
    with "Error evaluating query: ..." when a probe's check raises; the
    declaration and assertion of the facts never fail. *)
Theorem analyze_relationships_failures (query : RelationshipQuery) (e : string) :
  analyze_relationships z3_check query = Failure e →
  parse_query query.(RelationshipsPy.query)
    (entities_of (relationships query)) (relations_of (relationships query))
  = Failure e
  ∨ (∃ err, z3_check (fact_base (relationships query)) = Raise err
            ∧ e = "Error analyzing relationships: " ++ err)
  ∨ (∃ err, e = "Error evaluating query: " ++ err).
Proof.
  rewrite analyze_relationships_unfold. cbv zeta.
  destruct (parse_query _ _ _) as [Q|e'] eqn:Hp; [|intros [= <-]; by left].
  destruct (z3_check (fact_base _)) as [r0|err]; [|intros [= <-]; eauto].
  destruct (decide (r0 = unsat)); [done|].
  destruct (z3_check _) as [r1|]; [|intros [= <-]; eauto].
  destruct (decide (r1 = unsat)); [done|].
  destruct (z3_check _) as [r2|]; [done|intros [= <-]; eauto].
Qed.

(** X13. With a backend whose unsat answers are right, the verdicts are
    right: the contradictory verdict is returned only when the fact base
    has no model, the confirmed one only when no model of the fact base
    makes the query false, the contradicted one only when no model of the
    fact base makes it true. *)
Theorem verdicts_are_sound (query : RelationshipQuery) (v : RelationshipResult) :
  (∀ fs, z3_check fs = Ret unsat → ¬ satisfiable fs) →
  analyze_relationships z3_check query = Success v →
  let F := fact_base (relationships query) in
  (v = verdict false contradictory false → ¬ satisfiable F)
  ∧ (v = verdict true confirmed true →
     ∃ Q, parse_query query.(RelationshipsPy.query)
            (entities_of (relationships query)) (relations_of (relationships query))
          = Success Q
          ∧ ∀ R rho, Forall (holds R rho) F → ¬ ¬ holds R rho Q)
  ∧ (v = verdict false contradicted true →
     ∃ Q, parse_query query.(RelationshipsPy.query)
            (entities_of (relationships query)) (relations_of (relationships query))
          = Success Q
          ∧ ∀ R rho, Forall (holds R rho) F → ¬ holds R rho Q).
Proof.
  intros Hsound. rewrite analyze_relationships_unfold. cbv zeta.
  destruct (parse_query _ _ _) as [Q|]; [|done].
  destruct (z3_check (fact_base _)) as [r0|] eqn:H0; [|done].
  destruct (decide (r0 = unsat)) as [->|].
  { intros [= <-]. split; [by intros _; apply Hsound|]. by split. }
  destruct (z3_check (_ ++ [Not Q])%list) as [r1|] eqn:H1; [|done].
  destruct (decide (r1 = unsat)) as [->|].
  { intros [= <-]. split; [done|]. split; [|done]. intros _. exists Q.
    split; [done|]. intros R rho HF HQ. apply (Hsound _ H1).
    exists R, rho. apply Forall_app. split; [done|]. by repeat constructor. }
  destruct (z3_check (_ ++ [Q])%list) as [r2|] eqn:H2; [|done].
  intros [= <-]. split; [done|]. split; [by destruct (decide (r2 = unsat))|].
  destruct (decide (r2 = unsat)) as [->|]; [|done]. intros _. exists Q.
  split; [done|]. intros R rho HF HQ. apply (Hsound _ H2).
  exists R, rho. apply Forall_app. split; [done|]. by repeat constructor.
Qed.


Lemma fact_base_fragment rels : forallb in_fragment (fact_base rels) = true.
Proof.
  unfold fact_base. rewrite forallb_app. apply andb_true_iff. split.
  - apply forallb_forall. intros e He.
    apply list_elem_of_In, list_elem_of_fmap in He as (rel & -> & _).
    unfold fact_formula. by destruct (value rel).
  - by destruct (names_sibling rels).
Qed.

Lemma fragment_with_probe rels e :
  in_fragment e = true → forallb in_fragment (fact_base rels ++ [e]) = true.
Proof.
  intros He. rewrite forallb_app, fact_base_fragment. simpl. by rewrite He.
Qed.

Lemma fact_in_base rel rels : rel ∈ rels → fact_formula rel ∈ fact_base rels.
Proof.
  intros Hin. unfold fact_base. apply elem_of_app. left.
  apply list_elem_of_fmap. by exists rel.
Qed.

Lemma axiom_in_base rel rels :
  rel ∈ rels → relation rel = "sibling" →
  symmetry_axiom (Function "sibling") ∈ fact_base rels.
Proof.
  intros Hin Hname. unfold fact_base. apply elem_of_app. right.
  rewrite (proj2 (names_sibling_spec rels)) by eauto. apply elem_of_cons. by left.
Qed.

Lemma model_of_more R rho fs e :
  Forall (holds R rho) fs → holds R rho e → Forall (holds R rho) (fs ++ [e]).
Proof. intros. apply Forall_app. split; [done|]. by repeat constructor. Qed.

Lemma model_of_less R rho fs e :
  Forall (holds R rho) (fs ++ [e]) → Forall (holds R rho) fs ∧ holds R rho e.
Proof.
  intros [H1 H2]%Forall_app. split; [done|]. by inversion H2.
Qed.

(** X14. With an adequate backend, a query that restates a fact is
    settled by the fact base alone: when the fact base has a model, asking
    for a fact stated true gives the confirmed verdict and asking for a
    fact stated false gives the contradicted one; when the fact base has
    no model the verdict is the contradictory one. *)
Theorem restated_fact_is_settled (query : RelationshipQuery) (rel : Relationship) :
  adequate z3_check →
  rel ∈ relationships query →
  parse_query query.(RelationshipsPy.query)
    (entities_of (relationships query)) (relations_of (relationships query))
  = Success (atom_of rel) →
  (satisfiable (fact_base (relationships query)) → value rel = true →
     analyze_relationships z3_check query = Success (verdict true confirmed true))
  ∧ (satisfiable (fact_base (relationships query)) → value rel = false →
     analyze_relationships z3_check query = Success (verdict false contradicted true))
  ∧ (¬ satisfiable (fact_base (relationships query)) →
     analyze_relationships z3_check query
     = Success (verdict false contradictory false)).
Proof.
  intros (Hsound & Htotal & Hcomplete) Hin Hparse.
  rewrite analyze_relationships_unfold. cbv zeta. rewrite Hparse.
  set (F := fact_base (relationships query)).
  pose proof (fact_in_base rel _ Hin) as Hfact. fold F in Hfact.
  assert (HF : ∀ R rho, Forall (holds R rho) F → holds R rho (fact_formula rel)).
  { intros R rho Hall. rewrite Forall_forall in Hall. by apply Hall. }
  assert (Hbase : satisfiable F → ∃ r0, z3_check F = Ret r0 ∧ r0 ≠ unsat).
  { intros Hsat. destruct (Htotal F (fact_base_fragment _)) as [r0 H0].
    exists r0. split; [done|]. intros ->. by apply (Hsound F). }
  split; [|split].
  - intros Hsat Hvalue. destruct (Hbase Hsat) as (r0 & -> & Hr0).
    rewrite decide_False by done.
    rewrite (Hcomplete (F ++ [Not (atom_of rel)])%list).
    + by rewrite decide_True.
    + by apply fragment_with_probe.
    + intros (R & rho & [HallF Hnot]%model_of_less).
      apply Hnot. specialize (HF R rho HallF).
      unfold fact_formula in HF. by rewrite Hvalue in HF.
  - intros Hsat Hvalue. destruct (Hbase Hsat) as (r0 & -> & Hr0).
    rewrite decide_False by done.
    destruct (Htotal (F ++ [Not (atom_of rel)])%list) as [r1 H1];
      [by apply fragment_with_probe|].
    rewrite H1. rewrite decide_False.
    + rewrite (Hcomplete (F ++ [atom_of rel])%list).
      * by rewrite decide_True.
      * by apply fragment_with_probe.
      * intros (R & rho & [HallF Hatom]%model_of_less).
        specialize (HF R rho HallF).
        unfold fact_formula in HF. rewrite Hvalue in HF. by apply HF.
    + intros ->. destruct Hsat as (R & rho & HallF).
      apply (Hsound _ H1). exists R, rho.
      apply model_of_more; [done|]. specialize (HF R rho HallF).
      unfold fact_formula in HF. by rewrite Hvalue in HF.
  - intros Hunsat. rewrite (Hcomplete F (fact_base_fragment _) Hunsat).
    by rewrite decide_True.
Qed.

(** X15. With an adequate backend, a fact base that states a pair both
    true and false, or states two names siblings and denies it for the
    same names in the other order, gives the contradictory verdict for
    every query that parses. *)
Theorem conflicting_facts_are_contradictory (query : RelationshipQuery)
    (Q : BoolRef) (rel1 rel2 : Relationship) :
  adequate z3_check →
  parse_query query.(RelationshipsPy.query)
    (entities_of (relationships query)) (relations_of (relationships query))
  = Success Q →
  rel1 ∈ relationships query → rel2 ∈ relationships query →
  value rel1 = true → value rel2 = false → relation rel1 = relation rel2 →
  (person1 rel1 = person1 rel2 ∧ person2 rel1 = person2 rel2)
  ∨ (relation rel1 = "sibling"
     ∧ person1 rel1 = person2 rel2 ∧ person2 rel1 = person1 rel2) →
  analyze_relationships z3_check query = Success (verdict false contradictory false).
Proof.
  intros (Hsound & Htotal & Hcomplete) Hparse Hin1 Hin2 Hv1 Hv2 Hrel Hsame.
  rewrite analyze_relationships_unfold. cbv zeta. rewrite Hparse.
  rewrite (Hcomplete (fact_base (relationships query)) (fact_base_fragment _)).
  { by rewrite decide_True. }
  intros (R & rho & Hall). rewrite Forall_forall in Hall.
  pose proof (Hall _ (fact_in_base rel1 _ Hin1)) as H1.
  pose proof (Hall _ (fact_in_base rel2 _ Hin2)) as H2.
  unfold fact_formula in H1, H2. rewrite Hv1 in H1. rewrite Hv2 in H2.
  simpl in H1, H2. apply H2. rewrite <- Hrel.
  destruct Hsame as [[<- <-]|(Hsib & Ha & Hb)]; [done|].
  rewrite <- Ha, <- Hb. rewrite Hsib in *.
  apply (symmetry_axiom_turns R rho "sibling" (person2 rel1) (person1 rel1)); [|done].
  apply Hall. by apply (axiom_in_base rel1).
Qed.

(** X16. The symmetry is that of "sibling" alone: with an adequate
    backend, for any other relation and two different names the single
    fact r(a, b) leaves the query r(b, a) possible, neither confirmed nor
    contradicted. *)
Theorem other_relations_are_not_symmetric (r a b q : string) :
  adequate z3_check →
  r ≠ "sibling" → a ≠ b →
  parse_query q (entities_of [fact r a b true]) (relations_of [fact r a b true])
  = Success (App (Function r) (Const b) (Const a)) →
  analyze_relationships z3_check
    {| relationships := [fact r a b true]; query := q |}
  = Success (verdict false possible true).
Proof.
  intros (Hsound & Htotal & Hcomplete) Hr Hab Hparse.
  rewrite analyze_relationships_unfold. cbv zeta. cbn [relationships RelationshipsPy.query].
  rewrite Hparse.
  assert (HF : fact_base [fact r a b true] = [App (Function r) (Const a) (Const b)]).
  { unfold fact_base, names_sibling. simpl.
    destruct (String.eqb_spec r "sibling"); [done|reflexivity]. }
  rewrite HF. cbn [app].
  assert (Hnot_unsat : ∀ fs, forallb in_fragment fs = true → satisfiable fs →
            ∃ x, z3_check fs = Ret x ∧ x ≠ unsat).
  { intros fs Hfrag Hsat. destruct (Htotal fs Hfrag) as [x Hx]. exists x.
    split; [done|]. intros ->. by apply (Hsound _ Hx). }
  destruct (Hnot_unsat [App (Function r) (Const a) (Const b)]) as (r0 & -> & H0);
    [done| |].
  { exists (fun _ _ _ => True), (fun n => n). by repeat constructor. }
  rewrite decide_False by done.
  destruct (Hnot_unsat [App (Function r) (Const a) (Const b);
                        Not (App (Function r) (Const b) (Const a))])
    as (r1 & -> & H1); [done| |].
  { exists (fun _ u v => u = a ∧ v = b), (fun n => n).
    repeat constructor; simpl. intros [Hba _]. by apply Hab. }
  rewrite decide_False by done.
  destruct (Hnot_unsat [App (Function r) (Const a) (Const b);
                        App (Function r) (Const b) (Const a)])
    as (r2 & -> & H2); [done| |].
  { exists (fun _ _ _ => True), (fun n => n). by repeat constructor. }
  by rewrite decide_False.
Qed.

(** X17. The symmetry of "sibling" carries denials too: with an adequate
    backend, the single fact that X and Y are not siblings makes the
    query sibling(Y, X) contradicted. *)
Theorem sibling_symmetry_carries_denials (X Y q : string) :
  adequate z3_check →
  parse_query q (entities_of [fact "sibling" X Y false])
    (relations_of [fact "sibling" X Y false])
  = Success (App (Function "sibling") (Const Y) (Const X)) →
  analyze_relationships z3_check
    {| relationships := [fact "sibling" X Y false]; query := q |}
  = Success (verdict false contradicted true).
Proof.
  intros (Hsound & Htotal & Hcomplete) Hparse.
  rewrite analyze_relationships_unfold. cbv zeta. cbn [relationships RelationshipsPy.query].
  rewrite Hparse.
  set (denial := Not (App (Function "sibling") (Const X) (Const Y))).
  set (axiom := symmetry_axiom (Function "sibling")).
  set (Q := App (Function "sibling") (Const Y) (Const X)).
  change (fact_base [fact "sibling" X Y false]) with [denial; axiom]. cbn [app].
  assert (Hnot_unsat : ∀ fs, forallb in_fragment fs = true → satisfiable fs →
            ∃ x, z3_check fs = Ret x ∧ x ≠ unsat).
  { intros fs Hfrag Hsat. destruct (Htotal fs Hfrag) as [x Hx]. exists x.
    split; [done|]. intros ->. by apply (Hsound _ Hx). }
  assert (Hempty : ∀ fs, Forall (fun e => e = denial ∨ e = axiom ∨ e = Not Q) fs →
            satisfiable fs).
  { intros fs Hfs. exists (fun _ _ _ => False), (fun n => n).
    eapply Forall_impl; [exact Hfs|]. intros e [->|[->| ->]]; simpl; tauto. }
  destruct (Hnot_unsat [denial; axiom]) as (r0 & -> & H0); [done| |].
  { apply Hempty, Forall_forall. intros e He.
    repeat (apply elem_of_cons in He as [->|He]); auto.
    by apply elem_of_nil in He. }
  rewrite decide_False by done.
  destruct (Hnot_unsat [denial; axiom; Not Q]) as (r1 & -> & H1); [done| |].
  { apply Hempty, Forall_forall. intros e He.
    repeat (apply elem_of_cons in He as [->|He]); auto.
    by apply elem_of_nil in He. }
  rewrite decide_False by done.
  rewrite (Hcomplete [denial; axiom; Q]); [by rewrite decide_True|done|].
  intros (R & rho & Hall).
  inversion Hall as [|? ? Hdenial Hall1]; subst.
  inversion Hall1 as [|? ? Haxiom Hall2]; subst.
  inversion Hall2 as [|? ? HQ _]; subst.
  apply Hdenial. simpl. by apply (symmetry_axiom_turns R rho "sibling" X Y).
Qed.

End MoreVerdicts.

(** ** Whitespace in queries *)

Section MoreQueryParsing.

Import RelationshipsPy Facts Semantics More.

Lemma lstrip_spaces w s :
  all_chars Py.isspace w = true → Py.lstrip (w ++ s) = Py.lstrip s.
Proof.
  induction w as [|c w IH]; [done|]. simpl.
  intros [Hc Hw]%andb_true_iff.
  change (String c w ++ s) with (String c (w ++ s)). simpl. rewrite Hc. by apply IH.
Qed.

Lemma rstrip_all_spaces w : all_chars Py.isspace w = true → Py.rstrip w = EmptyString.
Proof.
  induction w as [|c w IH]; [done|]. simpl.
  intros [Hc Hw]%andb_true_iff. by rewrite (IH Hw), Hc.
Qed.

Lemma rstrip_spaces s w :
  all_chars Py.isspace w = true → Py.rstrip (s ++ w) = Py.rstrip s.
Proof.
  intros Hw. induction s as [|c s IH].
  - change (EmptyString ++ w) with w. by rewrite rstrip_all_spaces.
  - change (String c s ++ w) with (String c (s ++ w)). simpl. by rewrite IH.
Qed.

Lemma lstrip_app_trimmed x s :
  Py.lstrip x = x → x ≠ EmptyString → Py.lstrip (x ++ s) = x ++ s.
Proof.
  destruct x as [|c x]; [done|]. intros Hx _.
  change (String c x ++ s) with (String c (x ++ s)). simpl.
  by rewrite (lstrip_fixed_head c x Hx).
Qed.

Lemma lstrip_all_spaces w : all_chars Py.isspace w = true → Py.lstrip w = EmptyString.
Proof.
  induction w as [|c w IH]; [done|]. simpl.
  intros [Hc Hw]%andb_true_iff. rewrite Hc. by apply IH.
Qed.

Lemma append_nil (x : string) : x ++ EmptyString = x.
Proof.
  induction x as [|c x IH]; [done|].
  change (String c x ++ EmptyString) with (String c (x ++ EmptyString)).
  by rewrite IH.
Qed.

(** Padding around a trimmed text is stripped away. *)
Lemma strip_padded w x w' :
  all_chars Py.isspace w = true → all_chars Py.isspace w' = true →
  Py.lstrip x = x → Py.rstrip x = x →
  Py.strip (w ++ x ++ w') = x.
Proof.
  intros Hw Hw' Hl Hr. unfold Py.strip. rewrite lstrip_spaces by done.
  destruct x as [|c x].
  - change (EmptyString ++ w') with w'. by rewrite lstrip_all_spaces.
  - rewrite lstrip_app_trimmed by done. rewrite rstrip_spaces by done. done.
Qed.

Lemma spaces_contain_no c w :
  Py.isspace c = false → all_chars Py.isspace w = true → Py.contains c w = false.
Proof.
  intros Hc. induction w as [|x w IH]; [done|]. simpl.
  intros [Hx Hw]%andb_true_iff. rewrite (IH Hw), orb_false_r.
  destruct (Ascii.eqb_spec x c) as [->|]; [congruence|done].
Qed.

Lemma contains_lstrip sep s :
  Py.contains sep s = false → Py.contains sep (Py.lstrip s) = false.
Proof.
  induction s as [|c s IH]; [done|]. simpl.
  intros [Hc Hs]%orb_false_iff. destruct (Py.isspace c); [by apply IH|].
  simpl. by rewrite Hc, Hs.
Qed.

Lemma lstrip_before_comma u v :
  Py.lstrip (u ++ String "," v) = Py.lstrip u ++ String "," v.
Proof.
  induction u as [|c u IH]; [done|].
  change (String c u ++ String "," v) with (String c (u ++ String "," v)).
  simpl. by destruct (Py.isspace c).
Qed.

(** The two arguments of a padded argument text. *)
Lemma padded_arguments w2 a1 w3 w4 a2 w5 :
  all_chars Py.isspace w2 = true → all_chars Py.isspace w3 = true →
  all_chars Py.isspace w4 = true → all_chars Py.isspace w5 = true →
  clean_name a1 = true → clean_name a2 = true →
  Py.strip <$> Py.split "," (Py.strip ((w2 ++ a1 ++ w3) ++ String "," (w4 ++ a2 ++ w5)))
  = [a1; a2].
Proof.
  intros H2 H3 H4 H5 (Hl1 & Hr1 & _ & _ & Hc1)%clean_name_spec
         (Hl2 & Hr2 & _ & _ & Hc2)%clean_name_spec.
  assert (Hcomma : ∀ w, all_chars Py.isspace w = true → Py.contains "," w = false)
    by (intros w; by apply spaces_contain_no).
  unfold Py.strip at 2. rewrite lstrip_before_comma.
  assert (Hr : Py.rstrip (String "," (w4 ++ a2 ++ w5))
               = String "," (Py.rstrip (w4 ++ a2 ++ w5)))
    by (by apply rstrip_cons_nonspace).
  rewrite rstrip_app_nonempty by (by rewrite Hr). rewrite Hr.
  rewrite split_app.
  2:{ apply contains_lstrip. rewrite !contains_app.
      by rewrite (Hcomma w2), (Hcomma w3), Hc1. }
  rewrite split_none.
  2:{ apply contains_rstrip. rewrite !contains_app.
      by rewrite (Hcomma w4), (Hcomma w5), Hc2. }
  cbn [fmap list_fmap]. f_equal; [|f_equal].
  - rewrite lstrip_spaces by done. destruct a1 as [|c a1].
    + change (EmptyString ++ w3) with w3. by rewrite lstrip_all_spaces.
    + rewrite lstrip_app_trimmed by done.
      apply (strip_padded EmptyString (String c a1) w3); done.
  - rewrite <- append_assoc. rewrite rstrip_spaces by done.
    destruct a2 as [|c a2].
    + by rewrite append_nil, rstrip_all_spaces.
    + rewrite rstrip_app_nonempty by (by rewrite Hr2). rewrite Hr2.
      rewrite <- (append_nil (String c a2)) at 1.
      apply (strip_padded w4 (String c a2) EmptyString); done.
Qed.

(** X18. Whitespace around the relation name and around each argument
    does not matter, nor does text after the closing parenthesis: a padded
    query parses to what the plain text "name(a1,a2)" parses to, success
    or failure alike. *)
Theorem padding_does_not_change_the_parse
    (ents : gmap string Entity) (relmap : gmap string Relation)
    (w0 name w1 w2 a1 w3 w4 a2 w5 rest : string) :
  all_chars Py.isspace w0 = true → all_chars Py.isspace w1 = true →
  all_chars Py.isspace w2 = true → all_chars Py.isspace w3 = true →
  all_chars Py.isspace w4 = true → all_chars Py.isspace w5 = true →
  clean_name name = true → clean_name a1 = true → clean_name a2 = true →
  Py.contains "(" rest = false →
  parse_query (padded_query w0 name w1 w2 a1 w3 w4 a2 w5 rest) ents relmap
  = parse_query (name ++ "(" ++ a1 ++ "," ++ a2 ++ ")") ents relmap.
Proof.
  intros H0 H1 H2 H3 H4 H5 Hname Ha1 Ha2 Hrest.
  assert (Hshape : ∀ v0 v1 v2 v3 v4 v5 tail,
    all_chars Py.isspace v0 = true → all_chars Py.isspace v1 = true →
    all_chars Py.isspace v2 = true → all_chars Py.isspace v3 = true →
    all_chars Py.isspace v4 = true → all_chars Py.isspace v5 = true →
    Py.contains "(" tail = false →
    parse_query (padded_query v0 name v1 v2 a1 v3 v4 a2 v5 tail) ents relmap
    = match relmap !! name with
      | None => Failure ("Unknown relation: " ++ name)
      | Some r =>
          match ents !! a1, ents !! a2 with
          | None, _ => Failure ("Unknown entity: " ++ a1)
          | Some _, None => Failure ("Unknown entity: " ++ a2)
          | Some e1, Some e2 =>
              match z3_func r, z3_const e1, z3_const e2 with
              | None, _, _ => Failure ("Relation " ++ name ++ " has no Z3 function")
              | _, None, _ => Failure ("Entity " ++ a1 ++ " has no Z3 constant")
              | _, _, None => Failure ("Entity " ++ a2 ++ " has no Z3 constant")
              | Some f, Some c1, Some c2 => Success (App f c1 c2)
              end
          end
      end).
  { intros v0 v1 v2 v3 v4 v5 tail G0 G1 G2 G3 G4 G5 Gtail.
    destruct (clean_name_spec name Hname) as (Hln & Hrn & Hon & _ & _).
    destruct (clean_name_spec a1 Ha1) as (_ & _ & Ho1 & Hc1 & _).
    destruct (clean_name_spec a2 Ha2) as (_ & _ & Ho2 & Hc2 & _).
    assert (Hopen : ∀ w, all_chars Py.isspace w = true → Py.contains "(" w = false)
      by (intros w; by apply spaces_contain_no).
    assert (Hclose : ∀ w, all_chars Py.isspace w = true → Py.contains ")" w = false)
      by (intros w; by apply spaces_contain_no).
    unfold padded_query. rewrite parse_query_well_cut.
    - rewrite padded_arguments by done. by rewrite strip_padded by done.
    - split; [|split; [|split]].
      + rewrite !contains_app. by rewrite (Hopen v0), (Hopen v1), Hon.
      + rewrite !contains_app. simpl. rewrite !contains_app.
        by rewrite (Hopen v2), (Hopen v3), (Hopen v4), (Hopen v5), Ho1, Ho2.
      + done.
      + rewrite !contains_app. simpl. rewrite !contains_app.
        by rewrite (Hclose v2), (Hclose v3), (Hclose v4), (Hclose v5), Hc1, Hc2. }
  rewrite Hshape by done.
  rewrite <- (Hshape EmptyString EmptyString EmptyString EmptyString
                EmptyString EmptyString EmptyString) by done.
  f_equal. unfold padded_query, query_text.
  change (EmptyString ++ name ++ EmptyString) with (name ++ EmptyString).
  change (EmptyString ++ a1 ++ EmptyString) with (a1 ++ EmptyString).
  change (EmptyString ++ a2 ++ EmptyString) with (a2 ++ EmptyString).
  rewrite !append_nil. rewrite !append_assoc. reflexivity.
Qed.

End MoreQueryParsing.

(** ** The tool layer *)

Section MoreTools.

Import ServerPy More.

Variable BoolRef : Type.
Variable py_eval : string -> gmap string SolverPy.Binding -> Raises BoolRef.
Variable z3_add : list BoolRef -> Raises unit.
Variable z3_check : list BoolRef -> Raises SolverPy.CheckSatResult.
Variable z3_model : list BoolRef -> Raises SolverPy.ModelRef.
Variable z3_declare : SolverPy.Z3Ref -> Raises unit.
Variable z3_check_facts :
  list RelationshipsPy.BoolRef -> Raises SolverPy.CheckSatResult.
Variable dumps_solution : SolverPy.Solution -> string.
Variable dumps_result : RelationshipsPy.RelationshipResult -> string.

Lemma VariableType_value_round_trip t :
  VariableType_of_value (VariableType_value t) = Some t.
Proof. by destruct t. Qed.

Lemma VariableType_of_value_inv s t :
  VariableType_of_value s = Some t → s = VariableType_value t.
Proof.
  unfold VariableType_of_value. intros [_ H%String.eqb_eq]%find_some. done.
Qed.

Lemma VariableType_of_value_none ty :
  ty ∉ ["integer"; "real"; "boolean"; "string"] → VariableType_of_value ty = None.
Proof.
  intros Hnot. destruct (VariableType_of_value ty) as [t|] eqn:H; [|done].
  apply VariableType_of_value_inv in H as ->. exfalso. apply Hnot.
  destruct t; apply list_elem_of_In; simpl; auto.
Qed.

Lemma convert_variables_app acc ds vs rest :
  Forall2 describes ds vs →
  convert_variables acc (ds ++ rest) = convert_variables (acc ++ vs) rest.
Proof.
  intros H. revert acc.
  induction H as [|d v ds vs [Hn (t & Hty & Ht)] _ IH]; intros acc.
  - by rewrite app_nil_r.
  - cbn [app convert_variables].
    rewrite Hn, Ht, VariableType_value_round_trip, IH, <- app_assoc.
    destruct v as [name ty]. simpl in Hty. by subst ty.
Qed.


Lemma convert_relationships_app acc ds rels rest :
  Forall2 states ds rels →
  convert_relationships acc (ds ++ rest) = convert_relationships (acc ++ rels) rest.
Proof.
  intros H. revert acc.
  induction H as [|d rel ds rels (H1 & H2 & Hr & Hv) _ IH]; intros acc.
  - by rewrite app_nil_r.
  - cbn [app convert_relationships].
    destruct (d !! "person1") as [p1|]; [|done].
    destruct (d !! "person2") as [p2|]; [|done].
    destruct (d !! "relation") as [r|]; [|done].
    cbn [fmap option_fmap option_map] in H1, H2, Hr.
    injection H1 as H1. injection H2 as H2. injection Hr as Hr.
    cbn zeta. rewrite Hv, H1, H2, Hr, IH, <- app_assoc. by destruct rel.
Qed.


(** X19. When every variable dictionary has a name and one of the four
    type texts, the simple solver tool replies what the full tool replies
    on the problem with these variables in order, a constraint with empty
    description per expression, and the given description. *)
Theorem simple_solver_agrees_with_full_tool
    (variables : list (gmap string string)) (vs : list SolverPy.Variable_)
    (constraints : list string) (description : string) :
  Forall2 describes variables vs →
  ServerPy.simple_constraint_solver BoolRef py_eval z3_add z3_check z3_model
      z3_declare
    dumps_solution variables constraints description
  = ServerPy.solve_constraint_problem BoolRef py_eval z3_add z3_check z3_model
      z3_declare
      dumps_solution
      {| SolverPy.variables := vs;
         SolverPy.constraints := Backends.constraint <$> constraints;
         SolverPy.problem_description := description |}.
Proof.
  intros H. unfold ServerPy.simple_constraint_solver, ServerPy.solve_constraint_problem.
  rewrite <- (app_nil_r variables), (convert_variables_app [] variables vs [] H).
  reflexivity.
Qed.

(** X20. The simple solver tool rejects a request at its first variable
    dictionary that lacks a name or a type, or whose type is not one of
    "integer", "real", "boolean", "string" (as written, in lower case),
    with a fixed message; the constraints are not looked at and the
    backend is not called, whatever follows in the request. *)
Theorem simple_solver_rejects_first_bad_variable
    (good rest : list (gmap string string)) (vs : list SolverPy.Variable_)
    (bad : gmap string string) (constraints : list string) (description : string) :
  Forall2 describes good vs →
  (bad !! "name" = None ∨ bad !! "type" = None →
     ServerPy.simple_constraint_solver BoolRef py_eval z3_add z3_check z3_model
      z3_declare
       dumps_solution (good ++ bad :: rest) constraints description
     = text_reply "Each variable must have 'name' and 'type' fields")
  ∧ (∀ name ty,
       bad !! "name" = Some name → bad !! "type" = Some ty →
       ty ∉ ["integer"; "real"; "boolean"; "string"] →
       ServerPy.simple_constraint_solver BoolRef py_eval z3_add z3_check z3_model
      z3_declare
         dumps_solution (good ++ bad :: rest) constraints description
       = text_reply ("Invalid variable type: " ++ ty
                     ++ ". Must be one of: integer, real, boolean, string")).
Proof.
  intros H. unfold ServerPy.simple_constraint_solver.
  rewrite (convert_variables_app [] good vs (bad :: rest) H).
  cbn [convert_variables]. split.
  - intros [-> | ->]; [done|]. by destruct (bad !! "name").
  - intros name ty -> -> Hty. by rewrite (VariableType_of_value_none ty Hty).
Qed.

(** X21. When every relationship dictionary has the three name fields
    and a boolean value or none, the simple analyzer tool replies what the
    full tool replies on the facts in order, each name taken under [str]
    and a value left out read as true. *)
Theorem simple_analyzer_agrees_with_full_tool
    (relationships : list (gmap string Scalar))
    (rels : list RelationshipsPy.Relationship) (query : string) :
  Forall2 states relationships rels →
  ServerPy.simple_relationship_analyzer z3_check_facts dumps_result
    relationships query
  = ServerPy.analyze_relationships_tool z3_check_facts dumps_result
      {| RelationshipsPy.relationships := rels; RelationshipsPy.query := query |}.
Proof.
  intros H.
  unfold ServerPy.simple_relationship_analyzer, ServerPy.analyze_relationships_tool.
  rewrite <- (app_nil_r relationships),
    (convert_relationships_app [] relationships rels [] H).
  reflexivity.
Qed.

(** X22. The simple analyzer tool rejects a request at its first
    relationship dictionary that lacks one of the three name fields, or
    whose value is a text rather than a boolean, with a fixed message; the
    query is not parsed and the backend is not called. *)
Theorem simple_analyzer_rejects_first_bad_relationship
    (good rest : list (gmap string Scalar))
    (rels : list RelationshipsPy.Relationship)
    (bad : gmap string Scalar) (query : string) :
  Forall2 states good rels →
  (bad !! "person1" = None ∨ bad !! "person2" = None ∨ bad !! "relation" = None →
     ServerPy.simple_relationship_analyzer z3_check_facts dumps_result
       (good ++ bad :: rest) query
     = text_reply
         "Each relationship must have 'person1', 'person2', and 'relation' fields")
  ∧ (∀ s,
       is_Some (bad !! "person1") → is_Some (bad !! "person2") →
       is_Some (bad !! "relation") → bad !! "value" = Some (SStr s) →
       ServerPy.simple_relationship_analyzer z3_check_facts dumps_result
         (good ++ bad :: rest) query
       = text_reply ("Relationship value must be a boolean, got: " ++ s)).
Proof.
  intros H. unfold ServerPy.simple_relationship_analyzer.
  rewrite (convert_relationships_app [] good rels (bad :: rest) H).
  cbn [convert_relationships]. split.
  - intros [-> | [-> | ->]]; [done| |].
    + by destruct (bad !! "person1").
    + by destruct (bad !! "person1"), (bad !! "person2").
  - intros s [p1 ->] [p2 ->] [r ->] ->. reflexivity.
Qed.


End MoreTools.

(** ** The further statements at concrete inputs *)

Lemma create_constraints_keeps_order_witness :
  SolverPy.create_constraints string Backends.demo_eval
    (Backends.constraint <$> ["x > 0"; "x < 1"]) ∅ []
  = (Success ["x > 0"; "x < 1"],
     ([] ++ (SolverPy.expression <$> (Backends.constraint <$> ["x > 0"; "x < 1"])))%list)
  ∧ length ["x > 0"; "x < 1"] = length (Backends.constraint <$> ["x > 0"; "x < 1"]).
Proof.
  apply (create_constraints_keeps_order string Backends.demo_eval
           (Backends.constraint <$> ["x > 0"; "x < 1"]) ["x > 0"; "x < 1"] ∅ []).
  repeat constructor.
Defined.

Lemma create_variables_last_declaration_wins_witness :
  (∃ vars,
     SolverPy.create_variables Backends.demo_declare Requests.redeclared = Success vars
     ∧ vars !! "x" = Some (SolverPy.Int "x")
     ∧ vars !! "z" = None)
  ∧ SolverPy.create_variables Backends.demo_declare Requests.unsupported
    = Failure "Unsupported variable type: complex"
  ∧ SolverPy.create_variables Backends.picky_declare Requests.unsupported
    = Failure "Error creating variable bad: symbol rejected".
Proof.
  split; [|split].
  - destruct (proj1 (create_variables_last_declaration_wins Backends.demo_declare
                       Requests.redeclared))
      as (vars & Hvars & Hlast & Hnone).
    + repeat constructor; eexists; split; reflexivity.
    + exists vars. split; [exact Hvars|]. split.
      * apply (Hlast [{| SolverPy.var_name := "x";
                         SolverPy.var_type := SolverPy.member SolverPy.REAL |};
                      {| SolverPy.var_name := "y";
                         SolverPy.var_type := SolverPy.member SolverPy.INTEGER |}]
                 {| SolverPy.var_name := "x";
                    SolverPy.var_type := SolverPy.member SolverPy.INTEGER |} []
                 eq_refl).
        intros w Hw. apply list_elem_of_In in Hw. destruct Hw.
      * apply Hnone. intros Hz. apply list_elem_of_In in Hz. simpl in Hz.
        repeat (destruct Hz as [Hz|Hz]; [discriminate Hz|]). exact Hz.
  - apply (proj1 (proj2 (proj2 (create_variables_last_declaration_wins
                                  Backends.demo_declare Requests.unsupported))
                    [{| SolverPy.var_name := "bad";
                        SolverPy.var_type := SolverPy.member SolverPy.REAL |}]
                    {| SolverPy.var_name := "w";
                       SolverPy.var_type := SolverPy.other "complex" |}
                    [{| SolverPy.var_name := "y";
                        SolverPy.var_type := SolverPy.member SolverPy.INTEGER |}]
                    eq_refl
                    ltac:(repeat constructor; eexists; split; reflexivity))
             "complex" eq_refl).
  - apply (proj2 (proj2 (proj2 (create_variables_last_declaration_wins
                                  Backends.picky_declare Requests.unsupported))
                    []
                    {| SolverPy.var_name := "bad";
                       SolverPy.var_type := SolverPy.member SolverPy.REAL |}
                    [{| SolverPy.var_name := "w";
                        SolverPy.var_type := SolverPy.other "complex" |};
                     {| SolverPy.var_name := "y";
                        SolverPy.var_type := SolverPy.member SolverPy.INTEGER |}]
                    eq_refl ltac:(constructor))
             (SolverPy.Real "bad") "symbol rejected" eq_refl eq_refl).
Defined.

Lemma solve_problem_failures_witness :
  SolverPy.solve_problem string Backends.demo_eval Backends.demo_add
    Backends.demo_check Backends.demo_model Backends.demo_declare
    Requests.unsupported_problem
  = Failure "Unsupported variable type: complex"
  ∧ ((∃ v text,
        v ∈ SolverPy.variables Requests.unsupported_problem
        ∧ SolverPy.var_type v = SolverPy.other text
        ∧ "Unsupported variable type: complex"
          = "Unsupported variable type: " ++ text)
     ∨ (∃ v err,
          v ∈ SolverPy.variables Requests.unsupported_problem
          ∧ "Unsupported variable type: complex"
            = "Error creating variable " ++ SolverPy.var_name v ++ ": " ++ err)
     ∨ (∃ c err,
          c ∈ SolverPy.constraints Requests.unsupported_problem
          ∧ "Unsupported variable type: complex"
            = "Error parsing constraint '" ++ SolverPy.expression c ++ "': " ++ err)
     ∨ (∃ err, "Unsupported variable type: complex"
               = "Error solving constraints: " ++ err)).
Proof.
  split; [reflexivity|].
  apply (solve_problem_failures string Backends.demo_eval Backends.demo_add
           Backends.demo_check Backends.demo_model Backends.demo_declare
           Requests.unsupported_problem).
  reflexivity.
Defined.

Lemma integer_value_round_trip_witness :
  SolverPy.get_z3_value (Requests.constant_model "-42") (SolverPy.Int "n")
  = Some (SolverPy.VInt (-42))
  ∧ SolverPy.get_z3_value (Requests.constant_model "4 2") (SolverPy.Int "n") = None.
Proof.
  split.
  - apply (proj1 (integer_value_round_trip (Requests.constant_model "-42")
                    (SolverPy.Int "n") _ eq_refl eq_refl) (-42));
      [vm_compute; reflexivity|reflexivity].
  - apply (proj1 (proj2 (integer_value_round_trip (Requests.constant_model "4 2")
                           (SolverPy.Int "n") _ eq_refl eq_refl))).
    reflexivity.
Defined.

Lemma extraction_fails_only_on_numbers_witness :
  SolverPy.get_z3_value Inputs.five_halves_model (SolverPy.Bool "b")
  = Some (SolverPy.VBool false)
  ∧ SolverPy.get_z3_value Inputs.five_halves_model (SolverPy.String_ "s")
    = Some (SolverPy.VStr "5/2").
Proof.
  split.
  - apply (proj1 (extraction_fails_only_on_numbers Inputs.five_halves_model
                    (SolverPy.Bool "b") _ eq_refl)).
    reflexivity.
  - apply (proj1 (proj2 (extraction_fails_only_on_numbers Inputs.five_halves_model
                           (SolverPy.String_ "s") _ eq_refl))).
    reflexivity.
Defined.

Lemma real_value_edge_cases_witness :
  SolverPy.get_z3_value (Requests.constant_model "1/0") (SolverPy.Real "x") = None
  ∧ SolverPy.get_z3_value (Requests.constant_model "1/2/3") (SolverPy.Real "x") = None.
Proof.
  split.
  - apply (proj1 (real_value_edge_cases (Requests.constant_model "1/0")
                    (SolverPy.Real "x") _ eq_refl eq_refl) "1" "0");
      reflexivity.
  - apply (proj2 (real_value_edge_cases (Requests.constant_model "1/2/3")
                    (SolverPy.Real "x") _ eq_refl eq_refl)).
    simpl. lia.
Defined.

Lemma assertion_failure_keeps_earlier_facts_witness :
  (∃ msg,
     RelationshipsPy.add_relationship_assertions
       ([Requests.parent_fact] ++ Requests.likes_fact :: [Requests.parent_fact])%list
       (Facts.entities_of [Requests.parent_fact; Requests.likes_fact])
       (Facts.relations_of [Requests.parent_fact]) RelationshipsPy.new_solver
     = (Failure ("Error adding relationship assertions: " ++ msg),
        Facts.loaded (Facts.fact_formula <$> [Requests.parent_fact])))
  ∧ RelationshipsPy.add_relationship_assertions
      ([Requests.parent_fact] ++ Requests.likes_fact :: [Requests.parent_fact])%list
      (Facts.entities_of [Requests.parent_fact; Requests.likes_fact])
      (<["likes" := Requests.bare_relation "likes"]>
         (Facts.relations_of [Requests.parent_fact]))
      RelationshipsPy.new_solver
    = (Failure "Relation likes has no Z3 function",
       Facts.loaded (Facts.fact_formula <$> [Requests.parent_fact])).
Proof.
  split.
  - apply (proj1 (assertion_failure_keeps_earlier_facts
                    (Facts.entities_of [Requests.parent_fact; Requests.likes_fact])
                    (Facts.relations_of [Requests.parent_fact])
                    [Requests.parent_fact] [Requests.parent_fact] Requests.likes_fact
                    ltac:(intros rel' ->%list_elem_of_singleton;
                          repeat split; vm_compute; reflexivity)));
      vm_compute; reflexivity.
  - apply (proj2 (assertion_failure_keeps_earlier_facts
                    (Facts.entities_of [Requests.parent_fact; Requests.likes_fact])
                    (<["likes" := Requests.bare_relation "likes"]>
                       (Facts.relations_of [Requests.parent_fact]))
                    [Requests.parent_fact] [Requests.parent_fact] Requests.likes_fact
                    ltac:(intros rel' ->%list_elem_of_singleton;
                          repeat split; vm_compute; reflexivity))
             (Requests.bare_relation "likes") (Facts.entity "Bea") (Facts.entity "Cy"));
      vm_compute; reflexivity.
Defined.

Lemma verdict_is_one_of_four_witness :
  RelationshipsPy.analyze_relationships Semantics.reference_check Backends.sibling_query
  = Success (Facts.verdict true RelationshipsPy.confirmed true)
  ∧ Facts.verdict true RelationshipsPy.confirmed true ∈ More.four_verdicts
  ∧ (RelationshipsPy.result (Facts.verdict true RelationshipsPy.confirmed true) = true
     ↔ Facts.verdict true RelationshipsPy.confirmed true
       = Facts.verdict true RelationshipsPy.confirmed true)
  ∧ (RelationshipsPy.is_satisfiable (Facts.verdict true RelationshipsPy.confirmed true)
     = false
     ↔ Facts.verdict true RelationshipsPy.confirmed true
       = Facts.verdict false RelationshipsPy.contradictory false).
Proof.
  split; [vm_compute; reflexivity|].
  apply (verdict_is_one_of_four Semantics.reference_check Backends.sibling_query).
  vm_compute. reflexivity.
Defined.

Lemma analyze_relationships_failures_witness :
  RelationshipsPy.analyze_relationships Backends.always_raises Backends.sibling_query
  = Failure "Error analyzing relationships: canceled"
  ∧ (RelationshipsPy.parse_query (RelationshipsPy.query Backends.sibling_query)
       (Facts.entities_of (RelationshipsPy.relationships Backends.sibling_query))
       (Facts.relations_of (RelationshipsPy.relationships Backends.sibling_query))
     = Failure "Error analyzing relationships: canceled"
     ∨ (∃ err,
          Backends.always_raises
            (Facts.fact_base (RelationshipsPy.relationships Backends.sibling_query))
          = Raise err
          ∧ "Error analyzing relationships: canceled"
            = "Error analyzing relationships: " ++ err)
     ∨ (∃ err, "Error analyzing relationships: canceled"
               = "Error evaluating query: " ++ err)).
Proof.
  split; [vm_compute; reflexivity|].
  apply (analyze_relationships_failures Backends.always_raises Backends.sibling_query).
  vm_compute. reflexivity.
Defined.

Lemma verdicts_are_sound_witness :
  RelationshipsPy.analyze_relationships Semantics.reference_check Backends.sibling_query
  = Success (Facts.verdict true RelationshipsPy.confirmed true)
  ∧ ∃ Q,
      RelationshipsPy.parse_query (RelationshipsPy.query Backends.sibling_query)
        (Facts.entities_of (RelationshipsPy.relationships Backends.sibling_query))
        (Facts.relations_of (RelationshipsPy.relationships Backends.sibling_query))
      = Success Q
      ∧ ∀ R rho,
          Forall (Semantics.holds R rho)
            (Facts.fact_base (RelationshipsPy.relationships Backends.sibling_query)) →
          ¬ ¬ Semantics.holds R rho Q.
Proof.
  split; [vm_compute; reflexivity|].
  apply (proj1 (proj2 (verdicts_are_sound Semantics.reference_check
                         Backends.sibling_query
                         (Facts.verdict true RelationshipsPy.confirmed true)
                         reference_check_sound
                         ltac:(vm_compute; reflexivity)))).
  reflexivity.
Defined.

Lemma restated_fact_is_settled_witness :
  Semantics.adequate Semantics.reference_check
  ∧ Semantics.satisfiable (Facts.fact_base [Backends.sibling_fact])
  ∧ RelationshipsPy.analyze_relationships Semantics.reference_check
      {| RelationshipsPy.relationships := [Backends.sibling_fact];
         RelationshipsPy.query := "sibling(Alice, Bob)" |}
    = Success (Facts.verdict true RelationshipsPy.confirmed true)
  ∧ ¬ Semantics.satisfiable
        (Facts.fact_base [Backends.sibling_fact;
                          More.fact "sibling" "Bob" "Alice" false])
  ∧ RelationshipsPy.analyze_relationships Semantics.reference_check
      {| RelationshipsPy.relationships :=
           [Backends.sibling_fact; More.fact "sibling" "Bob" "Alice" false];
         RelationshipsPy.query := "sibling(Alice, Bob)" |}
    = Success (Facts.verdict false RelationshipsPy.contradictory false).
Proof.
  assert (Hsat : Semantics.satisfiable (Facts.fact_base [Backends.sibling_fact]))
    by (apply reference_check_model; vm_compute; reflexivity).
  assert (Hunsat : ¬ Semantics.satisfiable
                       (Facts.fact_base [Backends.sibling_fact;
                                         More.fact "sibling" "Bob" "Alice" false]))
    by (apply reference_check_sound; vm_compute; reflexivity).
  split; [apply reference_check_adequate|].
  split; [exact Hsat|]. split; [|split; [exact Hunsat|]].
  - apply (proj1 (restated_fact_is_settled Semantics.reference_check
                    {| RelationshipsPy.relationships := [Backends.sibling_fact];
                       RelationshipsPy.query := "sibling(Alice, Bob)" |}
                    Backends.sibling_fact reference_check_adequate
                    ltac:(apply list_elem_of_In; simpl; auto)
                    ltac:(vm_compute; reflexivity)));
      [exact Hsat|reflexivity].
  - apply (proj2 (proj2 (restated_fact_is_settled Semantics.reference_check
                    {| RelationshipsPy.relationships :=
                         [Backends.sibling_fact;
                          More.fact "sibling" "Bob" "Alice" false];
                       RelationshipsPy.query := "sibling(Alice, Bob)" |}
                    Backends.sibling_fact reference_check_adequate
                    ltac:(apply list_elem_of_In; simpl; auto)
                    ltac:(vm_compute; reflexivity)))).
    exact Hunsat.
Defined.

Lemma conflicting_facts_are_contradictory_witness :
  Semantics.adequate Semantics.reference_check
  ∧ RelationshipsPy.analyze_relationships Semantics.reference_check
      {| RelationshipsPy.relationships :=
           [More.fact "sibling" "Alice" "Bob" true;
            More.fact "sibling" "Bob" "Alice" false];
         RelationshipsPy.query := "sibling(Alice, Bob)" |}
    = Success (Facts.verdict false RelationshipsPy.contradictory false).
Proof.
  split; [apply reference_check_adequate|].
  apply (conflicting_facts_are_contradictory Semantics.reference_check
           {| RelationshipsPy.relationships :=
                [More.fact "sibling" "Alice" "Bob" true;
                 More.fact "sibling" "Bob" "Alice" false];
              RelationshipsPy.query := "sibling(Alice, Bob)" |}
           (RelationshipsPy.App (RelationshipsPy.Function "sibling")
              (RelationshipsPy.Const "Alice") (RelationshipsPy.Const "Bob"))
           (More.fact "sibling" "Alice" "Bob" true)
           (More.fact "sibling" "Bob" "Alice" false)
           reference_check_adequate).
  - vm_compute. reflexivity.
  - apply list_elem_of_In. simpl. auto.
  - apply list_elem_of_In. simpl. auto.
  - reflexivity.
  - reflexivity.
  - reflexivity.
  - right. repeat split.
Defined.

Lemma other_relations_are_not_symmetric_witness :
  Semantics.adequate Semantics.reference_check
  ∧ RelationshipsPy.analyze_relationships Semantics.reference_check
      {| RelationshipsPy.relationships := [More.fact "parent" "Ann" "Bea" true];
         RelationshipsPy.query := "parent(Bea, Ann)" |}
    = Success (Facts.verdict false RelationshipsPy.possible true).
Proof.
  split; [apply reference_check_adequate|].
  apply (other_relations_are_not_symmetric Semantics.reference_check
           "parent" "Ann" "Bea" "parent(Bea, Ann)" reference_check_adequate).
  - discriminate.
  - discriminate.
  - vm_compute. reflexivity.
Defined.

Lemma sibling_symmetry_carries_denials_witness :
  Semantics.adequate Semantics.reference_check
  ∧ RelationshipsPy.analyze_relationships Semantics.reference_check
      {| RelationshipsPy.relationships := [More.fact "sibling" "Alice" "Bob" false];
         RelationshipsPy.query := "sibling(Bob, Alice)" |}
    = Success (Facts.verdict false RelationshipsPy.contradicted true).
Proof.
  split; [apply reference_check_adequate|].
  apply (sibling_symmetry_carries_denials Semantics.reference_check
           "Alice" "Bob" "sibling(Bob, Alice)" reference_check_adequate).
  vm_compute. reflexivity.
Defined.

Lemma padding_does_not_change_the_parse_witness :
  RelationshipsPy.parse_query "  sibling ( Bob ,Alice  ) ?"
    (Facts.entities_of [Backends.sibling_fact])
    (Facts.relations_of [Backends.sibling_fact])
  = RelationshipsPy.parse_query "sibling(Bob,Alice)"
      (Facts.entities_of [Backends.sibling_fact])
      (Facts.relations_of [Backends.sibling_fact]).
Proof.
  apply (padding_does_not_change_the_parse
           (Facts.entities_of [Backends.sibling_fact])
           (Facts.relations_of [Backends.sibling_fact])
           "  " "sibling" " " " " "Bob" " " EmptyString "Alice" "  " " ?");
    reflexivity.
Defined.

Lemma simple_solver_agrees_with_full_tool_witness :
  ServerPy.simple_constraint_solver string Backends.demo_eval Backends.demo_add
    Backends.demo_check Backends.demo_model
      Backends.demo_declare Requests.show_solution
    [Requests.x_real; Requests.y_integer] ["2 * x == 5"] EmptyString
  = ServerPy.solve_constraint_problem string Backends.demo_eval Backends.demo_add
      Backends.demo_check Backends.demo_model
      Backends.demo_declare Requests.show_solution
      {| SolverPy.variables := Backends.demo_variables;
         SolverPy.constraints := Backends.constraint <$> ["2 * x == 5"];
         SolverPy.problem_description := EmptyString |}.
Proof.
  apply (simple_solver_agrees_with_full_tool string Backends.demo_eval
           Backends.demo_add Backends.demo_check Backends.demo_model
      Backends.demo_declare
           Requests.show_solution [Requests.x_real; Requests.y_integer]
           Backends.demo_variables).
  constructor;
    [split; [vm_compute; reflexivity|eexists; split; vm_compute; reflexivity]|].
  constructor;
    [split; [vm_compute; reflexivity|eexists; split; vm_compute; reflexivity]|].
  constructor.
Defined.

Lemma simple_solver_rejects_first_bad_variable_witness :
  ServerPy.simple_constraint_solver string Backends.demo_eval Backends.demo_add
    Backends.demo_check Backends.demo_model
      Backends.demo_declare Requests.show_solution
    ([Requests.x_real] ++ Requests.nameless :: [Requests.z_number])%list
    ["x > 0"] EmptyString
  = ServerPy.text_reply "Each variable must have 'name' and 'type' fields"
  ∧ ServerPy.simple_constraint_solver string Backends.demo_eval Backends.demo_add
      Backends.demo_check Backends.demo_model
      Backends.demo_declare Requests.show_solution
      ([Requests.x_real] ++ Requests.z_number :: [Requests.nameless])%list
      ["x > 0"] EmptyString
    = ServerPy.text_reply
        ("Invalid variable type: " ++ "Integer"
         ++ ". Must be one of: integer, real, boolean, string").
Proof.
  assert (Hgood : Forall2 More.describes [Requests.x_real]
                    [{| SolverPy.var_name := "x"; SolverPy.var_type := SolverPy.member SolverPy.REAL |}]).
  { constructor; [|constructor].
    split; [vm_compute; reflexivity|eexists; split; vm_compute; reflexivity]. }
  split.
  - apply (proj1 (simple_solver_rejects_first_bad_variable string Backends.demo_eval
                    Backends.demo_add Backends.demo_check Backends.demo_model
      Backends.demo_declare
                    Requests.show_solution [Requests.x_real] [Requests.z_number]
                    _ Requests.nameless ["x > 0"] EmptyString Hgood)).
    left. vm_compute. reflexivity.
  - apply (proj2 (simple_solver_rejects_first_bad_variable string Backends.demo_eval
                    Backends.demo_add Backends.demo_check Backends.demo_model
      Backends.demo_declare
                    Requests.show_solution [Requests.x_real] [Requests.nameless]
                    _ Requests.z_number ["x > 0"] EmptyString Hgood) "z" "Integer");
      [vm_compute; reflexivity|vm_compute; reflexivity|].
    intros H. apply list_elem_of_In in H. simpl in H.
    repeat (destruct H as [H|H]; [discriminate H|]). exact H.
Defined.

Lemma simple_analyzer_agrees_with_full_tool_witness :
  ServerPy.simple_relationship_analyzer Semantics.reference_check Requests.show_result
    [Requests.siblings] "sibling(Bob, Alice)"
  = ServerPy.analyze_relationships_tool Semantics.reference_check Requests.show_result
      {| RelationshipsPy.relationships := [Backends.sibling_fact];
         RelationshipsPy.query := "sibling(Bob, Alice)" |}.
Proof.
  apply (simple_analyzer_agrees_with_full_tool Semantics.reference_check
           Requests.show_result [Requests.siblings] [Backends.sibling_fact]).
  constructor; [|constructor].
  split; [|split; [|split]]; vm_compute; reflexivity.
Defined.

Lemma simple_analyzer_rejects_first_bad_relationship_witness :
  ServerPy.simple_relationship_analyzer Semantics.reference_check Requests.show_result
    ([Requests.siblings] ++ Requests.one_sided :: [])%list "sibling(Bob, Alice)"
  = ServerPy.text_reply
      "Each relationship must have 'person1', 'person2', and 'relation' fields"
  ∧ ServerPy.simple_relationship_analyzer Semantics.reference_check
      Requests.show_result
      ([Requests.siblings] ++ Requests.siblings_yes :: [])%list "sibling(Bob, Alice)"
    = ServerPy.text_reply ("Relationship value must be a boolean, got: " ++ "yes").
Proof.
  assert (Hgood : Forall2 More.states [Requests.siblings] [Backends.sibling_fact]).
  { constructor; [|constructor].
    split; [|split; [|split]]; vm_compute; reflexivity. }
  split.
  - apply (proj1 (simple_analyzer_rejects_first_bad_relationship
                    Semantics.reference_check Requests.show_result
                    [Requests.siblings] [] [Backends.sibling_fact]
                    Requests.one_sided "sibling(Bob, Alice)" Hgood)).
    right. left. vm_compute. reflexivity.
  - apply (proj2 (simple_analyzer_rejects_first_bad_relationship
                    Semantics.reference_check Requests.show_result
                    [Requests.siblings] [] [Backends.sibling_fact]
                    Requests.siblings_yes "sibling(Bob, Alice)" Hgood) "yes").
    + exists (ServerPy.SStr "Alice"). vm_compute. reflexivity.
    + exists (ServerPy.SStr "Bob"). vm_compute. reflexivity.
    + exists (ServerPy.SStr "sibling"). vm_compute. reflexivity.
    + vm_compute. reflexivity.
Defined.
